(** * NeuroPulse stream processing: a shallow embedding and its properties

    The development follows the Python sources of
    [stream-processing/neuro_pulse_streaming]:

    - [circuit_breaker.py]   -> module [CircuitBreaker]
    - [trend_analyzer.py]    -> module [TrendAnalyzer]
    - [vertex_ai_service.py] -> module [VertexAi]
    - [stream_processor.py]  -> module [StreamProcessor]
    - [metrics_collector.py] -> modules [StreamMetrics] and [MetricsCollector]

    and, of [ai_models/neuro_pulse_ai/prediction_service_stub.py], the routing
    and risk-factor helpers -> module [Stub].

    Conventions.  Python [int] is [Z]; [Optional[T]] is [option T]; a [float]
    is an exact rational ([Q]) and float literals denote their decimal value;
    what goes through [math.exp] or [math.sqrt] is a real number ([R]).  A [dict] keyed by
    strings is a [gmap string _], a [set[str]] is a [gset string].  A
    [datetime] has an offset or has none, and subtracting one kind from the
    other raises [TypeError]; [run] does not catch it, so the state of the run
    loop says whether the loop is over.  Logging and printing are not
    modelled. *)

From Stdlib Require Import ZArith QArith Qabs Qround Qminmax.
From Stdlib Require Import Reals Qreals Psatz Sorted DecimalString.
From stdpp Require Import gmap strings list.

Local Open Scope Z_scope.

(** ** circuit_breaker.py *)

Module CircuitBreaker.

(** [class CircuitState(Enum)] *)
Inductive CircuitState : Type := CLOSED | OPEN | HALF_OPEN.

(** [@dataclass class CircuitBreakerConfig] *)
Record CircuitBreakerConfig : Type := {
  failure_threshold : Z;
  success_threshold : Z;
  timeout : Q
}.

(** The mutable attributes of a [CircuitBreaker] instance. *)
Record CircuitBreaker : Type := {
  name : string;
  config : CircuitBreakerConfig;
  state : CircuitState;
  failure_count : Z;
  success_count : Z;
  last_failure_time : option Q
}.

(** [CircuitBreaker.__init__] *)
Definition __init__ (name : string) (config : CircuitBreakerConfig) : CircuitBreaker :=
  {| name := name; config := config; state := CLOSED;
     failure_count := 0; success_count := 0; last_failure_time := None |}.

Definition set_state (s : CircuitState) (b : CircuitBreaker) : CircuitBreaker :=
  {| name := name b; config := config b; state := s;
     failure_count := failure_count b; success_count := success_count b;
     last_failure_time := last_failure_time b |}.

Definition set_failure_count (n : Z) (b : CircuitBreaker) : CircuitBreaker :=
  {| name := name b; config := config b; state := state b;
     failure_count := n; success_count := success_count b;
     last_failure_time := last_failure_time b |}.

Definition set_success_count (n : Z) (b : CircuitBreaker) : CircuitBreaker :=
  {| name := name b; config := config b; state := state b;
     failure_count := failure_count b; success_count := n;
     last_failure_time := last_failure_time b |}.

Definition set_last_failure_time (t : Q) (b : CircuitBreaker) : CircuitBreaker :=
  {| name := name b; config := config b; state := state b;
     failure_count := failure_count b; success_count := success_count b;
     last_failure_time := Some t |}.

(** What a caller of [call] observes: the wrapped function's value, the
    exception the wrapped function raised (re-raised by [call]), or the
    breaker's own [CircuitBreakerOpenError]. *)
Inductive CallResult (A E : Type) : Type :=
| Returned (a : A)
| Raised (e : E)
| CircuitBreakerOpenError.
Arguments Returned {A E} a.
Arguments Raised {A E} e.
Arguments CircuitBreakerOpenError {A E}.

(** The two assignments of the OPEN to HALF_OPEN transition in [call]: the
    breaker as it is while the probe is attempted. *)
Definition probe (b : CircuitBreaker) : CircuitBreaker :=
  set_success_count 0 (set_state HALF_OPEN b).

Section WithWorld.
(** Everything outside the breaker (the wrapped service, the wall clock)
    is a [World]; [time w] is what [time.time()] returns in [w].  A wrapped
    function transforms the world and either returns or raises. *)
Context {World : Type} (time : World -> Q).

Definition Func (A E : Type) : Type := World -> World * (A + E).

(** [_should_attempt_reset] *)
Definition _should_attempt_reset (b : CircuitBreaker) (w : World) : bool :=
  match last_failure_time b with
  | None => true
  | Some t => Qle_bool (timeout (config b)) (time w - t)
  end.

(** [_on_success] *)
Definition _on_success (b : CircuitBreaker) : CircuitBreaker :=
  match state b with
  | HALF_OPEN =>
      let b1 := set_success_count (success_count b + 1) b in
      if success_threshold (config b1) <=? success_count b1
      then set_success_count 0 (set_failure_count 0 (set_state CLOSED b1))
      else b1
  | _ => set_failure_count 0 b
  end.

(** [_on_failure]; [w] is the world in which the handler runs. *)
Definition _on_failure (b : CircuitBreaker) (w : World) : CircuitBreaker :=
  let b1 := set_last_failure_time (time w) (set_failure_count (failure_count b + 1) b) in
  match state b1 with
  | HALF_OPEN => set_success_count 0 (set_state OPEN b1)
  | _ =>
      if failure_threshold (config b1) <=? failure_count b1
      then set_state OPEN b1
      else b1
  end.

(** The first half of [call]: the check made before the wrapped function
    is attempted.  [None] is the fail-fast path. *)
Definition before_call (b : CircuitBreaker) (w : World) : option CircuitBreaker :=
  match state b with
  | OPEN =>
      if _should_attempt_reset b w
      then Some (probe b)
      else None
  | _ => Some b
  end.

(** The second half of [call]: the [try] block around [func]. *)
Definition attempt {A E : Type} (b : CircuitBreaker) (func : Func A E) (w : World)
  : CircuitBreaker * World * CallResult A E :=
  match func w with
  | (w', inl result) => (_on_success b, w', Returned result)
  | (w', inr e) => (_on_failure b w', w', Raised e)
  end.

(** [call] *)
Definition call {A E : Type} (b : CircuitBreaker) (func : Func A E) (w : World)
  : CircuitBreaker * World * CallResult A E :=
  match before_call b w with
  | None => (b, w, CircuitBreakerOpenError)
  | Some b1 => attempt b1 func w
  end.

(** A sequence of calls on one breaker.  Each call comes with the world
    in which it starts: between two calls the world moves on by itself. *)
Fixpoint calls {A E : Type} (b : CircuitBreaker) (cs : list (World * Func A E))
  : CircuitBreaker :=
  match cs with
  | [] => b
  | (w, func) :: cs' => calls (call b func w).1.1 cs'
  end.

Definition succeeds {A E : Type} (c : World * Func A E) : Prop :=
  exists a, (c.2 c.1).2 = inl a.

Definition fails {A E : Type} (c : World * Func A E) : Prop :=
  exists e, (c.2 c.1).2 = inr e.
End WithWorld.

(** [get_vertex_ai_breaker] and [get_gemini_breaker] build their breaker
    with this configuration. *)
Definition service_config : CircuitBreakerConfig :=
  {| failure_threshold := 3; success_threshold := 2; timeout := 30 |}.

End CircuitBreaker.

(** ** Float helpers shared by the modules below *)

Definition Qlt_bool (x y : Q) : bool := negb (Qle_bool y x).

(** Python's [x or default]-style truthiness of an [Optional[int]]:
    [None] and [0] are both false. *)
Definition truthy (o : option Z) : bool :=
  match o with
  | Some n => negb (n =? 0)
  | None => false
  end.

(** Truthiness of a [str]: only the empty string is false. *)
Definition nonempty (s : string) : bool :=
  match s with
  | EmptyString => false
  | _ => true
  end.

(** [str(n)] for an [int], as it appears inside an f-string. *)
Definition str_int (n : Z) : string := NilZero.string_of_int (Z.to_int n).

(** [max(l)] and [min(l)] of a list whose first item is [x]. *)
Definition max_of (x : Z) (rest : list Z) : Z := foldl Z.max x rest.

Definition min_of (x : Z) (rest : list Z) : Z := foldl Z.min x rest.

(** Truthiness of an [Optional[str]]. *)
Definition truthy_str (o : option string) : bool :=
  match o with
  | Some s => nonempty s
  | None => false
  end.

(** ** trend_analyzer.py *)

Module TrendAnalyzer.

(** [@dataclass class VitalSnapshot] *)
Record VitalSnapshot : Type := {
  timestamp : string;
  heart_rate_bpm : option Z;
  systolic_bp_mmHg : option Z;
  diastolic_bp_mmHg : option Z;
  spo2_pct : option Z;
  gcs_total : option Z
}.

(** [@dataclass class TrendFeatures]; the volatility and recent-change
    fields go through [math.sqrt] and [math.exp] and are real numbers. *)
Record TrendFeatures : Type := {
  hr_rate_of_change : option Q;
  bp_rate_of_change : option Q;
  spo2_rate_of_change : option Q;
  gcs_rate_of_change : option Q;
  hr_trend : option Z;
  bp_trend : option Z;
  spo2_trend : option Z;
  gcs_trend : option Z;
  hr_volatility : option R;
  bp_volatility : option R;
  spo2_volatility : option R;
  hr_recent_change : option R;
  bp_recent_change : option R;
  spo2_recent_change : option R;
  gcs_recent_change : option R
}.

(** [TrendFeatures()] *)
Definition no_features : TrendFeatures :=
  {| hr_rate_of_change := None; bp_rate_of_change := None;
     spo2_rate_of_change := None; gcs_rate_of_change := None;
     hr_trend := None; bp_trend := None; spo2_trend := None; gcs_trend := None;
     hr_volatility := None; bp_volatility := None; spo2_volatility := None;
     hr_recent_change := None; bp_recent_change := None;
     spo2_recent_change := None; gcs_recent_change := None |}.

(** The attributes of a [TrendAnalyzer] instance. *)
Record TrendAnalyzer : Type := {
  max_history_size : Z;
  vital_history : gmap string (list VitalSnapshot)
}.

(** [TrendAnalyzer.__init__] *)
Definition __init__ (max_history_size : Z) : TrendAnalyzer :=
  {| max_history_size := max_history_size; vital_history := ∅ |}.

(** The slice [l[-n:]]: the last [n] items for positive [n]; all of [l]
    for [n = 0] (as [-0] is [0]); [l[k:]] for [n = -k < 0]. *)
Definition slice_from_neg {A : Type} (n : Z) (l : list A) : list A :=
  if 0 <? n then drop (length l - Z.to_nat n) l
  else drop (Z.to_nat (- n)) l.

(** [add_vital_snapshot] *)
Definition add_vital_snapshot (ta : TrendAnalyzer) (case_id : string)
    (snapshot : VitalSnapshot) : TrendAnalyzer :=
  let appended := default [] (vital_history ta !! case_id) ++ [snapshot] in
  let kept :=
    if max_history_size ta <? Z.of_nat (length appended)
    then slice_from_neg (max_history_size ta) appended
    else appended in
  {| max_history_size := max_history_size ta;
     vital_history := <[case_id := kept]> (vital_history ta) |}.

(** [sorted(values, key=lambda x: x[0])]: a stable sort on the timestamp. *)
Fixpoint insert_by_time (x : Q * Z) (l : list (Q * Z)) : list (Q * Z) :=
  match l with
  | [] => [x]
  | y :: l' => if Qle_bool x.1 y.1 then x :: y :: l' else y :: insert_by_time x l'
  end.

Definition sorted_by_time (l : list (Q * Z)) : list (Q * Z) :=
  foldr insert_by_time [] l.

(** [_calculate_rate_and_trend] *)
Definition _calculate_rate_and_trend (values : list (Q * Z)) : option Q * option Z :=
  if (length values <? 2)%nat then (None, None)
  else
    let values := sorted_by_time values in
    let first := hd (0%Q, 0) values in
    let final := List.last values (0%Q, 0) in
    let time_diff_min := ((final.1 - first.1) / 60)%Q in
    if Qeq_bool time_diff_min 0 then (None, None)
    else
      let value_diff := final.2 - first.2 in
      let rate := (inject_Z value_diff / time_diff_min)%Q in
      let trend :=
        if Qlt_bool (Qabs rate) (1 # 10) then 0
        else if Qlt_bool 0 rate then 1
        else -1 in
      (Some rate, Some trend).

(** [_calculate_volatility] *)
Definition _calculate_volatility (values : list Z) : option R :=
  if (length values <? 2)%nat then None
  else
    let n := inject_Z (Z.of_nat (length values)) in
    let mean := (inject_Z (foldl Z.add 0%Z values) / n)%Q in
    if Qeq_bool mean 0 then None
    else
      let variance :=
        (foldl Qplus 0 (map (fun x => (inject_Z x - mean) ^ 2) values) / n)%Q in
      let std_dev := sqrt (Q2R variance) in
      Some (std_dev / Q2R mean)%R.

(** The body of the [for t, v in recent_values] loop of
    [_calculate_recent_change]; the accumulator is
    [(total_weight, weighted_sum)]. *)
Definition accumulate_weight (latest_time : Q) (acc : R * R) (p : Q * Z) : R * R :=
  let age_minutes := ((latest_time - p.1) / 60)%Q in
  let weight := exp (- Q2R age_minutes / 2) in
  (acc.1 + weight, acc.2 + IZR p.2 * weight)%R.

(** [_calculate_recent_change]; [window_minutes] defaults to [5.0] and no
    caller overrides it. *)
Definition _calculate_recent_change (values : list (Q * Z)) (window_minutes : Q)
  : option R :=
  if (length values <? 2)%nat then None
  else
    let values := sorted_by_time values in
    let latest_time := (List.last values (0%Q, 0)).1 in
    let recent_values :=
      List.filter (fun p => Qle_bool ((latest_time - p.1) / 60) window_minutes) values in
    if (length recent_values <? 2)%nat then None
    else
      let acc := foldl (accumulate_weight latest_time) (0%R, 0%R) recent_values in
      let total_weight := acc.1 in
      let weighted_sum := acc.2 in
      if Req_dec_T total_weight 0 then None
      else
        let weighted_avg := (weighted_sum / total_weight)%R in
        Some (weighted_avg - IZR (hd (0%Q, 0%Z) recent_values).2)%R.

Section WithClock.
(** [datetime.fromisoformat(...).timestamp()] is library code: seconds
    since the epoch, or [None] when it raises. *)
Context (fromisoformat : string -> option Q).

(** [_parse_timestamp] *)
Definition _parse_timestamp (timestamp : string) : Q :=
  default 0%Q (fromisoformat timestamp).

(** [[(self._parse_timestamp(s.timestamp), s.field) for s in history
     if s.field is not None]] *)
Definition series (field : VitalSnapshot -> option Z) (history : list VitalSnapshot)
  : list (Q * Z) :=
  omap (fun s => match field s with
                 | Some v => Some (_parse_timestamp (TrendAnalyzer.timestamp s), v)
                 | None => None
                 end) history.

(** [calculate_trends] *)
Definition calculate_trends (ta : TrendAnalyzer) (case_id : string) : TrendFeatures :=
  match vital_history ta !! case_id with
  | None => no_features
  | Some history =>
      if (length history <? 2)%nat then no_features
      else
        let hr_values := series heart_rate_bpm history in
        let bp_values := series systolic_bp_mmHg history in
        let spo2_values := series spo2_pct history in
        let gcs_values := series gcs_total history in
        let enough (l : list (Q * Z)) := (2 <=? length l)%nat in
        let hr := _calculate_rate_and_trend hr_values in
        let bp := _calculate_rate_and_trend bp_values in
        let spo2 := _calculate_rate_and_trend spo2_values in
        let gcs := _calculate_rate_and_trend gcs_values in
        {| hr_rate_of_change := if enough hr_values then hr.1 else None;
           bp_rate_of_change := if enough bp_values then bp.1 else None;
           spo2_rate_of_change := if enough spo2_values then spo2.1 else None;
           gcs_rate_of_change := if enough gcs_values then gcs.1 else None;
           hr_trend := if enough hr_values then hr.2 else None;
           bp_trend := if enough bp_values then bp.2 else None;
           spo2_trend := if enough spo2_values then spo2.2 else None;
           gcs_trend := if enough gcs_values then gcs.2 else None;
           hr_volatility :=
             if enough hr_values then _calculate_volatility hr_values.*2 else None;
           bp_volatility :=
             if enough bp_values then _calculate_volatility bp_values.*2 else None;
           spo2_volatility :=
             if enough spo2_values then _calculate_volatility spo2_values.*2 else None;
           hr_recent_change :=
             if enough hr_values then _calculate_recent_change hr_values 5 else None;
           bp_recent_change :=
             if enough bp_values then _calculate_recent_change bp_values 5 else None;
           spo2_recent_change :=
             if enough spo2_values then _calculate_recent_change spo2_values 5 else None;
           gcs_recent_change :=
             if enough gcs_values then _calculate_recent_change gcs_values 5 else None |}
  end.
End WithClock.

(** The four checks of [detect_anomalies], in the order in which it makes
    them; each gives the message it appends, if any. *)
Definition gcs_anomaly (history : list VitalSnapshot) : option string :=
  let gcs_values := omap gcs_total history in
  if (2 <=? length gcs_values)%nat then
    let gcs_drop := hd 0 gcs_values - List.last gcs_values 0 in
    if 2 <=? gcs_drop
    then Some ("Rapid GCS deterioration: " ++ str_int (hd 0 gcs_values) ++ " → "
               ++ str_int (List.last gcs_values 0))%string
    else None
  else None.

Definition spo2_anomaly (history : list VitalSnapshot) : option string :=
  let spo2_values := omap spo2_pct history in
  if (2 <=? length spo2_values)%nat then
    let spo2_drop := hd 0 spo2_values - List.last spo2_values 0 in
    if 5 <=? spo2_drop
    then Some ("Significant SpO2 decline: " ++ str_int (hd 0 spo2_values) ++ "% → "
               ++ str_int (List.last spo2_values 0) ++ "%")%string
    else None
  else None.

Definition hr_anomaly (history : list VitalSnapshot) : option string :=
  match omap heart_rate_bpm history with
  | [] => None
  | hr :: rest =>
      let max_hr := max_of hr rest in
      let min_hr := min_of hr rest in
      if (150 <? max_hr) || (min_hr <? 40)
      then Some ("Extreme heart rate: " ++ str_int min_hr ++ "-" ++ str_int max_hr
                 ++ " bpm")%string
      else None
  end.

(** [[abs(bp_values[i] - bp_values[i-1]) for i in range(1, len(bp_values))]] *)
Fixpoint adjacent_changes (bp_values : list Z) : list Z :=
  match bp_values with
  | [] => []
  | previous :: rest =>
      match rest with
      | [] => []
      | current :: _ => Z.abs (current - previous) :: adjacent_changes rest
      end
  end.

Definition bp_anomaly (history : list VitalSnapshot) : option string :=
  let bp_values := omap systolic_bp_mmHg history in
  if (2 <=? length bp_values)%nat then
    let max_change :=
      match adjacent_changes bp_values with
      | [] => 0
      | change :: rest => max_of change rest
      end in
    if 50 <? max_change
    then Some ("Unusual BP variation: " ++ str_int max_change
               ++ " mmHg change detected")%string
    else None
  else None.

(** [detect_anomalies] *)
Definition detect_anomalies (ta : TrendAnalyzer) (case_id : string) : list string :=
  match vital_history ta !! case_id with
  | None => []
  | Some history =>
      if (length history <? 2)%nat then []
      else omap (fun message : option string => message)
             [gcs_anomaly history; spo2_anomaly history;
              hr_anomaly history; bp_anomaly history]
  end.

End TrendAnalyzer.

(** ** The event and feature records
    ([data_generator/neuro_pulse_datagen/*_simulator.py] and
    [ai_models/neuro_pulse_ai/prediction_service_stub.py]) *)

Module Vitals.
(** [@dataclass class EmsVitalsEvent] *)
Record EmsVitalsEvent : Type := {
  case_id : string;
  patient_id : string;
  ems_unit_id : string;
  event_ts : string;
  sequence_number : Z;
  heart_rate_bpm : option Z;
  systolic_bp_mmHg : option Z;
  diastolic_bp_mmHg : option Z;
  respiratory_rate_bpm : option Z;
  spo2_pct : option Z;
  temperature_c : option Q;
  gcs_total : option Z;
  blood_glucose_mg_dL : option Z;
  ecg_rhythm : option string;
  is_artifact_suspected : bool;
  source_device : option string
}.
End Vitals.

Module FastExam.
(** [@dataclass class EmsFastExamEvent] *)
Record EmsFastExamEvent : Type := {
  case_id : string;
  patient_id : string;
  ems_unit_id : string;
  exam_ts : string;
  face_droop : string;
  arm_weakness : string;
  speech_difficulty : string;
  symptom_onset_ts : option string;
  last_known_well_ts : option string;
  prestroke_disability : option Z;
  suspected_stroke_side : option string;
  fast_score : option Z;
  ems_suspected_stroke : bool;
  notes : option string
}.
End FastExam.

Module Capacity.
(** [@dataclass class HospitalCapacityEvent] *)
Record HospitalCapacityEvent : Type := {
  hospital_id : string;
  hospital_name : string;
  updated_ts : string;
  latitude : Q;
  longitude : Q;
  stroke_center_level : string;
  has_ct_available : bool;
  has_cta_available : bool;
  can_perform_mechanical_thrombectomy : bool;
  ed_crowding_score : option Z;
  current_stroke_cases_in_ed : option Z;
  accepting_acute_stroke_now : bool;
  estimated_additional_door_to_needle_minutes : option Z;
  notes : option string
}.
End Capacity.

Module Request.
(** [@dataclass class AiPredictionRequest] *)
Record AiPredictionRequest : Type := {
  case_id : string;
  patient_id : string;
  ems_unit_id : string;
  age_years : option Z;
  sex : option string;
  heart_rate_bpm : option Z;
  systolic_bp_mmHg : option Z;
  diastolic_bp_mmHg : option Z;
  respiratory_rate_bpm : option Z;
  spo2_pct : option Z;
  gcs_total : option Z;
  blood_glucose_mg_dL : option Z;
  face_droop_present : bool;
  arm_weakness_any : bool;
  speech_abnormal_any : bool;
  fast_score : option Z;
  minutes_since_symptom_onset : option Z;
  minutes_since_last_known_well : option Z;
  distance_km_to_nearest_primary_center : option Q;
  distance_km_to_nearest_comprehensive_center : option Q;
  estimated_travel_min_to_primary_center : option Z;
  estimated_travel_min_to_comprehensive_center : option Z;
  primary_center_additional_door_to_needle_min : option Z;
  comprehensive_center_additional_door_to_needle_min : option Z;
  ems_suspected_stroke : bool;
  ems_suspected_lvo : bool;
  features_version : string
}.
End Request.

Module Response.
(** [@dataclass class AiPredictionResponse], without the fields that the
    processor fills from [uuid], the clock, the explanation service and its
    confidence, importance and risk-factor texts: none of them is read back
    by the processor. *)
Record AiPredictionResponse : Type := {
  case_id : string;
  patient_id : string;
  stroke_probability : Q;
  lvo_probability : Q;
  risk_category : string;
  recommended_destination_hospital_id : option string;
  recommended_destination_type : option string;
  estimated_travel_min_to_recommended : option Z;
  estimated_additional_door_to_needle_min_at_recommended : option Z;
  minutes_since_symptom_onset : option Z;
  current_vitals : Vitals.EmsVitalsEvent
}.
End Response.

Module Features.
(** The [features] dictionary that [_call_vertex_ai] sends to the endpoint. *)
Record t : Type := {
  age_years : Z;
  heart_rate_bpm : Z;
  systolic_bp_mmHg : Z;
  diastolic_bp_mmHg : Z;
  respiratory_rate_bpm : Z;
  spo2_pct : Z;
  gcs_total : Z;
  blood_glucose_mg_dL : Z;
  face_droop_present : Z;
  arm_weakness_any : Z;
  speech_abnormal_any : Z;
  fast_score : Z;
  minutes_since_symptom_onset : Z;
  minutes_since_last_known_well : Z
}.
End Features.

(** ** vertex_ai_service.py *)

Module VertexAi.
Import Request.

Definition BASE_STROKE_PROBABILITY : Q := 2 # 10.
Definition BASE_LVO_PROBABILITY : Q := 5 # 100.
Definition FAST_SCORE_MAX : Z := 3.
Definition FAST_SCORE_STROKE_WEIGHT : Q := 2 # 10.
Definition FAST_SCORE_LVO_THRESHOLD : Z := 2.
Definition FAST_SCORE_LVO_INCREMENT : Q := 15 # 100.
Definition FACE_DROOP_STROKE_INCREMENT : Q := 15 # 100.
Definition ARM_WEAKNESS_STROKE_INCREMENT : Q := 12 # 100.
Definition ARM_WEAKNESS_LVO_INCREMENT : Q := 12 # 100.
Definition SPEECH_ABNORMAL_STROKE_INCREMENT : Q := 10 # 100.
Definition TIME_WINDOW_IV_TPA : Z := 270.
Definition TIME_WINDOW_EXTENDED : Z := 360.
Definition TIME_WINDOW_IV_TPA_INCREMENT : Q := 8 # 100.
Definition TIME_WINDOW_EXTENDED_INCREMENT : Q := 5 # 100.
Definition GCS_NORMAL : Z := 15.
Definition GCS_MODERATE_THRESHOLD : Z := 13.
Definition GCS_REDUCED_STROKE_INCREMENT : Q := 10 # 100.
Definition GCS_SEVERE_LVO_INCREMENT : Q := 8 # 100.
Definition BP_ELEVATED_THRESHOLD : Z := 180.
Definition BP_ELEVATED_STROKE_INCREMENT : Q := 5 # 100.

(** [max(0.0, min(1.0, x))] *)
Definition clamp01 (x : Q) : Q := Qmax 0 (Qmin 1 x).

(** [_heuristic_predict].  Each [if] of the source adds to the two running
    sums; [step_*] are those statements in order. *)
Definition step_fast_score (request : AiPredictionRequest) (p : Q * Q) : Q * Q :=
  match fast_score request with
  | Some n =>
      if n =? 0 then p
      else
        let stroke :=
          (p.1 + FAST_SCORE_STROKE_WEIGHT * inject_Z (Z.min n FAST_SCORE_MAX)
                 / inject_Z FAST_SCORE_MAX)%Q in
        if FAST_SCORE_LVO_THRESHOLD <=? n
        then (stroke, (p.2 + FAST_SCORE_LVO_INCREMENT)%Q)
        else (stroke, p.2)
  | None => p
  end.

Definition step_signs (request : AiPredictionRequest) (p : Q * Q) : Q * Q :=
  let p1 := if face_droop_present request
            then ((p.1 + FACE_DROOP_STROKE_INCREMENT)%Q, p.2) else p in
  let p2 := if arm_weakness_any request
            then ((p1.1 + ARM_WEAKNESS_STROKE_INCREMENT)%Q,
                  (p1.2 + ARM_WEAKNESS_LVO_INCREMENT)%Q) else p1 in
  if speech_abnormal_any request
  then ((p2.1 + SPEECH_ABNORMAL_STROKE_INCREMENT)%Q, p2.2) else p2.

Definition step_time_window (request : AiPredictionRequest) (p : Q * Q) : Q * Q :=
  match minutes_since_symptom_onset request with
  | Some m =>
      if m <=? TIME_WINDOW_IV_TPA then ((p.1 + TIME_WINDOW_IV_TPA_INCREMENT)%Q, p.2)
      else if m <=? TIME_WINDOW_EXTENDED
           then ((p.1 + TIME_WINDOW_EXTENDED_INCREMENT)%Q, p.2)
           else p
  | None => p
  end.

Definition step_vitals (request : AiPredictionRequest) (p : Q * Q) : Q * Q :=
  let p1 :=
    match gcs_total request with
    | Some g =>
        if g <? GCS_NORMAL
        then if g <? GCS_MODERATE_THRESHOLD
             then ((p.1 + GCS_REDUCED_STROKE_INCREMENT)%Q,
                   (p.2 + GCS_SEVERE_LVO_INCREMENT)%Q)
             else ((p.1 + GCS_REDUCED_STROKE_INCREMENT)%Q, p.2)
        else p
    | None => p
    end in
  match systolic_bp_mmHg request with
  | Some s =>
      if BP_ELEVATED_THRESHOLD <? s
      then ((p1.1 + BP_ELEVATED_STROKE_INCREMENT)%Q, p1.2) else p1
  | None => p1
  end.

Definition _heuristic_predict (request : AiPredictionRequest) : Q * Q :=
  let base := (BASE_STROKE_PROBABILITY, BASE_LVO_PROBABILITY) in
  let p := step_vitals request
             (step_time_window request
                (step_signs request (step_fast_score request base))) in
  (clamp01 p.1, clamp01 p.2).

(** [VERTEX_AI_AVAILABLE], [PROJECT_ID] and [ENDPOINT_ID], fixed when the
    module is loaded. *)
Record Settings : Type := {
  VERTEX_AI_AVAILABLE : bool;
  PROJECT_ID : string;
  ENDPOINT_ID : string
}.

(** [x or default] on an [Optional[int]]. *)
Definition or_else (x : option Z) (default : Z) : Z :=
  match x with
  | Some n => if n =? 0 then default else n
  | None => default
  end.

(** The [features] dictionary of [_call_vertex_ai]. *)
Definition features (request : AiPredictionRequest) : Features.t :=
  {| Features.age_years := or_else (age_years request) 0;
     Features.heart_rate_bpm := or_else (heart_rate_bpm request) 0;
     Features.systolic_bp_mmHg := or_else (systolic_bp_mmHg request) 0;
     Features.diastolic_bp_mmHg := or_else (diastolic_bp_mmHg request) 0;
     Features.respiratory_rate_bpm := or_else (respiratory_rate_bpm request) 0;
     Features.spo2_pct := or_else (spo2_pct request) 0;
     Features.gcs_total := or_else (gcs_total request) 15;
     Features.blood_glucose_mg_dL := or_else (blood_glucose_mg_dL request) 0;
     Features.face_droop_present := if face_droop_present request then 1 else 0;
     Features.arm_weakness_any := if arm_weakness_any request then 1 else 0;
     Features.speech_abnormal_any := if speech_abnormal_any request then 1 else 0;
     Features.fast_score := or_else (fast_score request) 0;
     Features.minutes_since_symptom_onset :=
       or_else (minutes_since_symptom_onset request) 0;
     Features.minutes_since_last_known_well :=
       or_else (minutes_since_last_known_well request) 0 |}.

(** One item of [response.predictions].  A value stands for what [float]
    makes of it: [None] when [float] raises. *)
Inductive Prediction : Type :=
| ListPrediction (items : list (option Q))
| DictPrediction (fields : gmap string (option Q))
| OtherPrediction.

(** The part of [_call_vertex_ai] that follows [endpoint.predict]; [None]
    is an exception raised on the way. *)
Definition read_predictions (predictions : list Prediction) : option (Q * Q) :=
  match predictions with
  | [] => None
  | pred :: _ =>
      match pred with
      | ListPrediction (first :: second :: _) =>
          stroke_prob ← first;
          lvo_prob ← second;
          Some (clamp01 stroke_prob, clamp01 lvo_prob)
      | ListPrediction _ => None
      | DictPrediction fields =>
          stroke_prob ← default (Some 0%Q) (fields !! "stroke_probability"%string);
          lvo_prob ← default (Some 0%Q) (fields !! "lvo_probability"%string);
          Some (clamp01 stroke_prob, clamp01 lvo_prob)
      | OtherPrediction => None
      end
  end.

Section WithEndpoint.
(** [endpoint_predict] is [aiplatform.init], [aiplatform.Endpoint] and
    [endpoint.predict] on the features: it changes the world and gives the
    predictions of the response or raises. *)
Context {World : Type} (time : World -> Q).
Context (settings : Settings).
Context (endpoint_predict : Features.t -> @CircuitBreaker.Func World (list Prediction) unit).

(** [_call_vertex_ai], the function handed to the breaker. *)
Definition _call_vertex_ai (request : AiPredictionRequest)
  : @CircuitBreaker.Func World (Q * Q) unit :=
  fun w =>
    match endpoint_predict (features request) w with
    | (w', inl predictions) =>
        match read_predictions predictions with
        | Some probs => (w', inl probs)
        | None => (w', inr tt)
        end
    | (w', inr e) => (w', inr e)
    end.

(** [get_vertex_ai_breaker] on the module-level [_vertex_ai_breaker]. *)
Definition get_vertex_ai_breaker (global : option CircuitBreaker.CircuitBreaker)
  : CircuitBreaker.CircuitBreaker :=
  match global with
  | Some breaker => breaker
  | None => CircuitBreaker.__init__ "vertex_ai" CircuitBreaker.service_config
  end.

(** [predict_with_vertex_ai]; [global] is [_vertex_ai_breaker] before and
    after the call. *)
Definition predict_with_vertex_ai (global : option CircuitBreaker.CircuitBreaker)
    (request : AiPredictionRequest) (w : World)
  : option CircuitBreaker.CircuitBreaker * World * (Q * Q) :=
  if negb (VERTEX_AI_AVAILABLE settings) || negb (nonempty (PROJECT_ID settings))
     || negb (nonempty (ENDPOINT_ID settings))
  then (global, w, _heuristic_predict request)
  else
    let breaker := get_vertex_ai_breaker global in
    match CircuitBreaker.call time breaker (_call_vertex_ai request) w with
    | (breaker', w', CircuitBreaker.Returned probs) => (Some breaker', w', probs)
    | (breaker', w', _) => (Some breaker', w', _heuristic_predict request)
    end.

(** The module-level breaker after a sequence of predictions.  Each comes
    with the world in which it starts. *)
Fixpoint predictions (global : option CircuitBreaker.CircuitBreaker)
    (cs : list (World * AiPredictionRequest)) : option CircuitBreaker.CircuitBreaker :=
  match cs with
  | [] => global
  | (w, request) :: cs' => predictions (predict_with_vertex_ai global request w).1.1 cs'
  end.
End WithEndpoint.
End VertexAi.

(** ** metrics_collector.py *)

Module StreamMetrics.

(** [d.append(x)] on a [deque(maxlen=maxlen)]: when the deque is full the
    item at the left end is dropped. *)
Definition deque_append {A : Type} (maxlen : nat) (d : list A) (x : A) : list A :=
  match maxlen with
  | O => d
  | S _ => if (length d <? maxlen)%nat then d ++ [x] else drop 1 d ++ [x]
  end.

(** [@dataclass class StreamMetrics]; both deques have [maxlen=1000]. *)
Record StreamMetrics : Type := {
  stream_name : string;
  message_timestamps : list Q;
  latencies_ms : list Q;
  start_time : Q;
  total_messages : Z;
  total_bytes : Z
}.

(** [StreamMetrics(stream_name=stream_name)], [now] being what
    [time.time] gives to the default of [start_time]. *)
Definition __init__ (stream_name : string) (now : Q) : StreamMetrics :=
  {| stream_name := stream_name; message_timestamps := []; latencies_ms := [];
     start_time := now; total_messages := 0; total_bytes := 0 |}.

(** [record_message]; [now] is its reading of [time.time()]. *)
Definition record_message (m : StreamMetrics) (now : Q) (kafka_timestamp_ms : option Z)
    (message_size_bytes : Z) : StreamMetrics :=
  {| stream_name := stream_name m;
     message_timestamps := deque_append 1000 (message_timestamps m) now;
     latencies_ms :=
       match kafka_timestamp_ms with
       | Some ts =>
           if negb (ts =? 0)
           then deque_append 1000 (latencies_ms m) (now * 1000 - inject_Z ts)%Q
           else latencies_ms m
       | None => latencies_ms m
       end;
     start_time := start_time m;
     total_messages := total_messages m + 1;
     total_bytes := total_bytes m + message_size_bytes |}.

(** The entries of [get_metrics] that are counts: [messages_per_second],
    [total_messages] and [has_latency_data]. *)
Definition messages_per_second (m : StreamMetrics) (now : Q) : nat :=
  length (List.filter (fun t => Qlt_bool (now - t) 1) (message_timestamps m)).

Definition has_latency_data (m : StreamMetrics) : bool :=
  (0 <? length (latencies_ms m))%nat.

End StreamMetrics.

Module MetricsCollector.

(** [class MetricsCollector] *)
Record MetricsCollector : Type := {
  streams : gmap string StreamMetrics.StreamMetrics;
  start_time : Q
}.

(** [MetricsCollector.__init__] *)
Definition __init__ (now : Q) : MetricsCollector :=
  {| streams := ∅; start_time := now |}.

(** [get_or_create_stream]; [now] is read only when the stream is created. *)
Definition get_or_create_stream (c : MetricsCollector) (stream_name : string) (now : Q)
  : MetricsCollector * StreamMetrics.StreamMetrics :=
  match streams c !! stream_name with
  | Some stream => (c, stream)
  | None =>
      let stream := StreamMetrics.__init__ stream_name now in
      ({| streams := <[stream_name := stream]> (streams c); start_time := start_time c |},
       stream)
  end.

(** [record_message]: the stream object in the dictionary is the one that
    is updated.  [created] and [now] are the two readings of the clock. *)
Definition record_message (c : MetricsCollector) (stream_name : string) (created now : Q)
    (kafka_timestamp_ms : option Z) (message_size_bytes : Z) : MetricsCollector :=
  let (c1, stream) := get_or_create_stream c stream_name created in
  {| streams :=
       <[stream_name := StreamMetrics.record_message stream now kafka_timestamp_ms
                          message_size_bytes]> (streams c1);
     start_time := start_time c1 |}.

(** The entries [total_messages] and [active_streams] of the aggregate of
    [get_all_metrics]. *)
Definition total_messages (c : MetricsCollector) : Z :=
  map_fold (fun _ stream total => total + StreamMetrics.total_messages stream) 0 (streams c).

Definition active_streams (c : MetricsCollector) : nat := size (streams c).

(** What [StreamProcessor.run] records for a polled message that carries
    no error: [timestamp] is [msg.timestamp()], a pair of a type and a value,
    and [value] is [msg.value()]. *)
Definition record_poll (c : MetricsCollector) (created now : Q) (topic : string)
    (timestamp : Z * Z) (value : option (list Byte.byte)) : MetricsCollector :=
  record_message c topic created now
    (if timestamp.1 =? 0 then Some timestamp.2 else None)
    (match value with
     | Some bytes => if (0 <? length bytes)%nat then Z.of_nat (length bytes) else 0
     | None => 0
     end).

(** [get_metrics_collector] on the module-level [_metrics_collector];
    [now] is read only when the collector is created. *)
Definition get_metrics_collector (global : option MetricsCollector) (now : Q)
  : MetricsCollector :=
  match global with
  | Some collector => collector
  | None => __init__ now
  end.

End MetricsCollector.

Module Delivery.
(** What a turn of the run loop reads besides the topic and the payload of
    the polled message: [msg.timestamp()], [msg.value()], and the clock, which
    [MetricsCollector()], [StreamMetrics()] and [record_message] each read
    when they run. *)
Record t : Type := {
  timestamp : Z * Z;
  value : option (list Byte.byte);
  collector_clock : Q;
  stream_clock : Q;
  record_clock : Q
}.
End Delivery.

(** ** stream_processor.py *)

Module StreamProcessor.
Import Vitals FastExam Capacity.

(** What [json.loads(msg.value())] followed by the dataclass constructor
    makes of a message body: an event of one of the three classes, or a
    failure for every parser. *)
Inductive Payload : Type :=
| VitalsJson (v : EmsVitalsEvent)
| FastExamJson (f : EmsFastExamEvent)
| CapacityJson (c : HospitalCapacityEvent)
| Undecodable.

(** What [self.consumer.poll(timeout=1.0)] returns. *)
Inductive Polled : Type :=
| NoMessage
| ErrorMessage
| Message (topic : string) (value : Payload).

(** The attributes of a [StreamProcessor] that [run] works on.  [published]
    is the sequence of predictions handed to [_publish_prediction]. *)
Record StreamProcessor : Type := {
  latest_vitals : gmap string EmsVitalsEvent;
  latest_fast_exam : gmap string EmsFastExamEvent;
  latest_capacity : list HospitalCapacityEvent;
  processed_cases : gset string;
  trend_analyzer : TrendAnalyzer.TrendAnalyzer;
  published : list Response.AiPredictionResponse
}.

(** [StreamProcessor.__init__] *)
Definition __init__ : StreamProcessor :=
  {| latest_vitals := ∅; latest_fast_exam := ∅; latest_capacity := [];
     processed_cases := ∅; trend_analyzer := TrendAnalyzer.__init__ 20;
     published := [] |}.

Definition set_latest_vitals (m : gmap string EmsVitalsEvent) (p : StreamProcessor) :=
  {| latest_vitals := m; latest_fast_exam := latest_fast_exam p;
     latest_capacity := latest_capacity p; processed_cases := processed_cases p;
     trend_analyzer := trend_analyzer p; published := published p |}.

Definition set_latest_fast_exam (m : gmap string EmsFastExamEvent) (p : StreamProcessor) :=
  {| latest_vitals := latest_vitals p; latest_fast_exam := m;
     latest_capacity := latest_capacity p; processed_cases := processed_cases p;
     trend_analyzer := trend_analyzer p; published := published p |}.

Definition set_latest_capacity (l : list HospitalCapacityEvent) (p : StreamProcessor) :=
  {| latest_vitals := latest_vitals p; latest_fast_exam := latest_fast_exam p;
     latest_capacity := l; processed_cases := processed_cases p;
     trend_analyzer := trend_analyzer p; published := published p |}.

Definition set_processed_cases (s : gset string) (p : StreamProcessor) :=
  {| latest_vitals := latest_vitals p; latest_fast_exam := latest_fast_exam p;
     latest_capacity := latest_capacity p; processed_cases := s;
     trend_analyzer := trend_analyzer p; published := published p |}.

(** [_publish_prediction] *)
Definition _publish_prediction (p : StreamProcessor)
    (prediction : Response.AiPredictionResponse) : StreamProcessor :=
  {| latest_vitals := latest_vitals p; latest_fast_exam := latest_fast_exam p;
     latest_capacity := latest_capacity p; processed_cases := processed_cases p;
     trend_analyzer := trend_analyzer p;
     published := published p ++ [prediction] |}.

(** [_parse_vitals_event], [_parse_fast_exam_event], [_parse_capacity_event] *)
Definition _parse_vitals_event (value : Payload) : option EmsVitalsEvent :=
  match value with VitalsJson v => Some v | _ => None end.

Definition _parse_fast_exam_event (value : Payload) : option EmsFastExamEvent :=
  match value with FastExamJson f => Some f | _ => None end.

Definition _parse_capacity_event (value : Payload) : option HospitalCapacityEvent :=
  match value with CapacityJson c => Some c | _ => None end.

(** [_categorize_risk] *)
Definition _categorize_risk (stroke_prob lvo_prob : Q) : string :=
  if Qle_bool (8 # 10) stroke_prob || Qle_bool (6 # 10) lvo_prob then "CRITICAL"
  else if Qle_bool (6 # 10) stroke_prob || Qle_bool (4 # 10) lvo_prob then "HIGH"
  else if Qle_bool (3 # 10) stroke_prob then "MODERATE"
  else "LOW".

(** [next((c for c in capacity_events if c.stroke_center_level == level), None)] *)
Definition first_of_level (level : string) (capacity_events : list HospitalCapacityEvent)
  : option HospitalCapacityEvent :=
  List.find (fun c => String.eqb (stroke_center_level c) level) capacity_events.

(** [_choose_hospital] *)
Definition _choose_hospital (request : Request.AiPredictionRequest)
    (capacity_events : list HospitalCapacityEvent)
  : option string * option string * option Z * option Z :=
  let primary := first_of_level "PRIMARY" capacity_events in
  let comp := first_of_level "COMPREHENSIVE" capacity_events in
  let primary_id := hospital_id <$> primary in
  let comp_id := hospital_id <$> comp in
  let primary_travel := Request.estimated_travel_min_to_primary_center request in
  let comp_travel := Request.estimated_travel_min_to_comprehensive_center request in
  let within_reach :=
    match primary_travel, comp_travel with
    | None, _ => true
    | Some pt, Some ct => ct <=? pt + 15
    | Some _, None => false
    end in
  if Request.ems_suspected_lvo request && truthy_str comp_id && truthy comp_travel
     && within_reach
  then (comp_id, Some "COMPREHENSIVE_CENTER"%string, comp_travel,
        Request.comprehensive_center_additional_door_to_needle_min request)
  else if truthy_str primary_id
  then (primary_id, Some "PRIMARY_CENTER"%string, primary_travel,
        Request.primary_center_additional_door_to_needle_min request)
  else (None, None, None, None).

(** [x += amount] under an [if]: the amount added when the test holds. *)
Definition bonus (test : bool) (amount : Q) : Q := if test then amount else 0.

(** [v and v > limit] for an [Optional[float]] volatility. *)
Definition volatile (v : option R) (limit : R) : bool :=
  match v with
  | Some x =>
      if Req_dec_T x 0 then false
      else if Rlt_dec limit x then true else false
  | None => false
  end.

Definition is_some {A : Type} (o : option A) : bool :=
  match o with Some _ => true | None => false end.

(** The four parts of [_calculate_prediction_confidence].  The trend features
    are an object and every object of that class is true, so the tests
    [if trend_features] always hold. *)
Definition completeness_score (request : Request.AiPredictionRequest) : Q :=
  (0 + bonus (is_some (Request.heart_rate_bpm request)) (1 # 10)
     + bonus (is_some (Request.systolic_bp_mmHg request)) (1 # 10)
     + bonus (is_some (Request.spo2_pct request)) (1 # 10)
     + bonus (is_some (Request.gcs_total request)) (1 # 10)
     + bonus (is_some (Request.fast_score request)) (1 # 10)
     + bonus (is_some (Request.minutes_since_symptom_onset request)) (1 # 10))%Q.

Definition stability_score (trend_features : TrendAnalyzer.TrendFeatures) : Q :=
  Qmax 0
    (1 - bonus (volatile (TrendAnalyzer.hr_volatility trend_features) (2 / 10)) (1 # 10)
       - bonus (volatile (TrendAnalyzer.bp_volatility trend_features) (15 / 100)) (1 # 10)
       - bonus (volatile (TrendAnalyzer.spo2_volatility trend_features) (1 / 10)) (1 # 10))%Q.

Definition quality_score (request : Request.AiPredictionRequest) : Q :=
  (0 + bonus (match Request.fast_score request with
              | Some n => negb (n =? 0) && (2 <=? n)
              | None => false
              end) (15 # 100)
     + bonus (match Request.gcs_total request with
              | Some g => negb (g =? 0) && (13 <=? g) && (g <=? 15)
              | None => false
              end) (1 # 10)
     + bonus (match Request.minutes_since_symptom_onset request with
              | Some m => negb (m =? 0) && (m <=? 360)
              | None => false
              end) (5 # 100))%Q.

Definition anomaly_penalty (trend_features : TrendAnalyzer.TrendFeatures) : Q :=
  (0 + bonus (match TrendAnalyzer.gcs_trend trend_features with
              | Some t => t =? -1
              | None => false
              end) (1 # 10))%Q.

(** [_calculate_prediction_confidence]; its arguments [vitals] and
    [fast_exam] are not read. *)
Definition _calculate_prediction_confidence (request : Request.AiPredictionRequest)
    (trend_features : TrendAnalyzer.TrendFeatures)
    (vitals : EmsVitalsEvent) (fast_exam : EmsFastExamEvent) : Q :=
  let confidence := (5 # 10)%Q in
  let confidence := (confidence + completeness_score request * (3 # 10))%Q in
  let confidence := (confidence + stability_score trend_features * (2 # 10))%Q in
  let confidence := (confidence + quality_score request * (3 # 10))%Q in
  let confidence := (confidence - anomaly_penalty trend_features * (2 # 10))%Q in
  Qmax 0 (Qmin 1 confidence).

(** An [importance[key] = value] under an [if]. *)
Definition entry (test : bool) (key : string) (value : Q) : list (string * Q) :=
  if test then [(key, value)] else [].

(** The scores of [_calculate_feature_importance] before they are normalized.
    The dictionary is written as the list of its items in insertion order; no
    key is assigned twice. *)
Definition raw_importance (request : Request.AiPredictionRequest) : list (string * Q) :=
  match Request.fast_score request with
  | Some n => entry (negb (n =? 0)) "fast_score" (Qmin 1 (inject_Z n / 3))
  | None => []
  end
  ++ entry (Request.face_droop_present request) "face_droop" (8 # 10)
  ++ entry (Request.arm_weakness_any request) "arm_weakness" (85 # 100)
  ++ entry (Request.speech_abnormal_any request) "speech_abnormality" (75 # 100)
  ++ match Request.gcs_total request with
     | Some g =>
         if g <? 13 then [("gcs_total"%string, (9 # 10)%Q)]
         else if g <? 15 then [("gcs_total"%string, (6 # 10)%Q)]
         else []
     | None => []
     end
  ++ match Request.minutes_since_symptom_onset request with
     | Some m =>
         if m <=? 270 then [("time_window"%string, (9 # 10)%Q)]
         else if m <=? 360 then [("time_window"%string, (7 # 10)%Q)]
         else [("time_window"%string, (4 # 10)%Q)]
     | None => []
     end
  ++ match Request.systolic_bp_mmHg request with
     | Some s =>
         if 180 <? s then [("systolic_bp"%string, (5 # 10)%Q)]
         else if s <? 100 then [("systolic_bp"%string, (4 # 10)%Q)]
         else []
     | None => []
     end.

(** [max(importance.values())] for a dictionary that is not empty. *)
Definition max_value (first : Q) (rest : list Q) : Q := foldl Qmax first rest.

(** [_calculate_feature_importance]; its arguments [stroke_prob] and
    [lvo_prob] are not read. *)
Definition _calculate_feature_importance (request : Request.AiPredictionRequest)
    (stroke_prob lvo_prob : Q) : list (string * Q) :=
  let importance := raw_importance request in
  match importance.*2 with
  | [] => importance
  | first :: rest =>
      let max_importance := max_value first rest in
      if Qlt_bool 0 max_importance
      then (fun item : string * Q => (item.1, (item.2 / max_importance)%Q)) <$> importance
      else importance
  end.

(** Step 7 of [_process_case]: the list [risk_factors], from the request,
    the trend features and the anomalies of the case. *)
Definition risk_factors (request : Request.AiPredictionRequest)
    (trend_features : TrendAnalyzer.TrendFeatures) (anomalies : list string)
  : list string :=
  (if Request.face_droop_present request then ["Face droop"] else [])
  ++ (if Request.arm_weakness_any request then ["Arm weakness"] else [])
  ++ (if Request.speech_abnormal_any request then ["Speech abnormality"] else [])
  ++ match Request.gcs_total request with
     | Some g => if g <? 15 then ["Reduced GCS (" +:+ str_int g +:+ ")"] else []
     | None => []
     end
  ++ match Request.systolic_bp_mmHg request with
     | Some x => if 180 <? x then ["Elevated systolic BP (" +:+ str_int x +:+ ")"] else []
     | None => []
     end
  ++ (if bool_decide (TrendAnalyzer.gcs_trend trend_features = Some (-1))
      then ["Deteriorating GCS trend"] else [])
  ++ (if bool_decide (TrendAnalyzer.spo2_trend trend_features = Some (-1))
      then ["Declining SpO2 trend"] else [])
  ++ ((fun a => "Anomaly: " +:+ a) <$> take 2 anomalies).

(** A [datetime] as [datetime.fromisoformat] builds it: with an offset
    ([aware], the seconds since the epoch) or without one ([naive], the seconds
    of its wall-clock reading). *)
Inductive datetime : Type :=
| aware (seconds : Q)
| naive (seconds : Q).

(** [(end_dt - start_dt).total_seconds()]; [None] is the [TypeError] that
    the subtraction raises when one operand has an offset and the other has
    none. *)
Definition subtract (end_dt start_dt : datetime) : option Q :=
  match end_dt, start_dt with
  | aware e, aware s => Some (e - s)%Q
  | naive e, naive s => Some (e - s)%Q
  | _, _ => None
  end.

(** What a function that may raise that [TypeError] does. *)
Inductive Result (A : Type) : Type :=
| Returns (a : A)
| TypeError.
Arguments Returns {A} a.
Arguments TypeError {A}.

(** The state of [run]: the processor, the module-level
    [_metrics_collector] of [metrics_collector.py], and whether an exception
    has left the loop ([run] catches [KeyboardInterrupt] only). *)
Record Loop : Type := {
  self : StreamProcessor;
  _metrics_collector : option MetricsCollector.MetricsCollector;
  stopped : bool
}.

(** [main]: a new processor, about to run. *)
Definition main : Loop :=
  {| self := __init__; _metrics_collector := None; stopped := false |}.

Section WithServices.
(** [fromisoformat] is [datetime.fromisoformat] on a string whose final Z
    has been replaced by an offset of zero ([None] when it raises),
    [timestamp] is the method [datetime.timestamp], and
    [predict_with_vertex_ai] is the prediction service as the processor sees
    it: it absorbs every failure of the remote model and always returns a
    pair. *)
Context (fromisoformat : string -> option datetime).
Context (timestamp : datetime -> Q).
Context (predict_with_vertex_ai : Request.AiPredictionRequest -> Q * Q).

(** [_parse_iso] *)
Definition _parse_iso (ts : option string) : option datetime :=
  match ts with
  | None => None
  | Some s => fromisoformat s
  end.

(** [_minutes_between]: the subtraction is outside the [try] of
    [_parse_iso]. *)
Definition _minutes_between (start finish : option string) : Result (option Z) :=
  match _parse_iso start, _parse_iso finish with
  | Some start_dt, Some end_dt =>
      match subtract end_dt start_dt with
      | Some seconds => Returns (Some (Qfloor (seconds / 60)))
      | None => TypeError
      end
  | _, _ => Returns None
  end.

(** [_build_prediction_request] *)
Definition _build_prediction_request (vitals : EmsVitalsEvent)
    (fast_exam : option EmsFastExamEvent)
    (capacity_events : list HospitalCapacityEvent)
  : Result (option Request.AiPredictionRequest) :=
  match fast_exam with
  | None => Returns None
  | Some fast_exam =>
      let now_iso := Some (event_ts vitals) in
      match _minutes_between (symptom_onset_ts fast_exam) now_iso with
      | TypeError => TypeError
      | Returns minutes_since_onset =>
      match _minutes_between (last_known_well_ts fast_exam) now_iso with
      | TypeError => TypeError
      | Returns minutes_since_lkw =>
      let primary := first_of_level "PRIMARY" capacity_events in
      let comp := first_of_level "COMPREHENSIVE" capacity_events in
      Returns (Some {|
        Request.case_id := Vitals.case_id vitals;
        Request.patient_id := Vitals.patient_id vitals;
        Request.ems_unit_id := Vitals.ems_unit_id vitals;
        Request.age_years := Some 68;
        Request.sex := Some "FEMALE"%string;
        Request.heart_rate_bpm := heart_rate_bpm vitals;
        Request.systolic_bp_mmHg := systolic_bp_mmHg vitals;
        Request.diastolic_bp_mmHg := diastolic_bp_mmHg vitals;
        Request.respiratory_rate_bpm := respiratory_rate_bpm vitals;
        Request.spo2_pct := spo2_pct vitals;
        Request.gcs_total := gcs_total vitals;
        Request.blood_glucose_mg_dL := blood_glucose_mg_dL vitals;
        Request.face_droop_present := String.eqb (face_droop fast_exam) "PRESENT";
        Request.arm_weakness_any :=
          bool_decide (arm_weakness fast_exam ∈ ["LEFT"; "RIGHT"; "BILATERAL"]%string);
        Request.speech_abnormal_any :=
          bool_decide (speech_difficulty fast_exam
                       ∈ ["DYSARTHRIA"; "APHASIA_SUSPECTED"]%string);
        Request.fast_score := fast_score fast_exam;
        Request.minutes_since_symptom_onset := minutes_since_onset;
        Request.minutes_since_last_known_well := minutes_since_lkw;
        Request.distance_km_to_nearest_primary_center := Some 5%Q;
        Request.distance_km_to_nearest_comprehensive_center := Some 12%Q;
        Request.estimated_travel_min_to_primary_center := Some 8;
        Request.estimated_travel_min_to_comprehensive_center := Some 15;
        Request.primary_center_additional_door_to_needle_min :=
          primary ≫= estimated_additional_door_to_needle_minutes;
        Request.comprehensive_center_additional_door_to_needle_min :=
          comp ≫= estimated_additional_door_to_needle_minutes;
        Request.ems_suspected_stroke := ems_suspected_stroke fast_exam;
        Request.ems_suspected_lvo :=
          match fast_score fast_exam with
          | Some n => negb (n =? 0) && (2 <=? n)
          | None => false
          end;
        Request.features_version := "v1"
      |})
      end
      end
  end.

(** The two trend-based adjustments of [_process_case]. *)
Definition adjust_for_trends (trend_features : TrendAnalyzer.TrendFeatures)
    (probs : Q * Q) : Q * Q :=
  let declining (trend : option Z) (rate : option Q) (limit : Q) : bool :=
    match trend, rate with
    | Some t, Some r => (t =? -1) && negb (Qeq_bool r 0) && Qlt_bool r limit
    | _, _ => false
    end in
  let probs1 :=
    if declining (TrendAnalyzer.gcs_trend trend_features)
                 (TrendAnalyzer.gcs_rate_of_change trend_features) (- (1 # 10))%Q
    then (Qmin 1 (probs.1 + (5 # 100))%Q, Qmin 1 (probs.2 + (3 # 100))%Q)
    else probs in
  if declining (TrendAnalyzer.spo2_trend trend_features)
               (TrendAnalyzer.spo2_rate_of_change trend_features) (- (5 # 10))%Q
  then (Qmin 1 (probs1.1 + (3 # 100))%Q, probs1.2)
  else probs1.

(** Steps 1 to 11 of [_process_case]: the prediction assembled for a case
    from its reading and the request built from it.  The trend analyzer
    parses a timestamp with [fromisoformat] and takes its [timestamp]. *)
Definition prediction_for (p : StreamProcessor) (case_id : string)
    (vitals : EmsVitalsEvent) (request : Request.AiPredictionRequest)
  : Response.AiPredictionResponse :=
  let trend_features :=
    TrendAnalyzer.calculate_trends (fun s => timestamp <$> fromisoformat s)
      (trend_analyzer p) case_id in
  let probs := adjust_for_trends trend_features (predict_with_vertex_ai request) in
  let risk_category := _categorize_risk probs.1 probs.2 in
  let dest := _choose_hospital request (latest_capacity p) in
  {| Response.case_id := case_id;
     Response.patient_id := Request.patient_id request;
     Response.stroke_probability := probs.1;
     Response.lvo_probability := probs.2;
     Response.risk_category := risk_category;
     Response.recommended_destination_hospital_id := dest.1.1.1;
     Response.recommended_destination_type := dest.1.1.2;
     Response.estimated_travel_min_to_recommended := dest.1.2;
     Response.estimated_additional_door_to_needle_min_at_recommended := dest.2;
     Response.minutes_since_symptom_onset := Request.minutes_since_symptom_onset request;
     Response.current_vitals := vitals |}.

(** [_process_case].  The [TypeError] of [_build_prediction_request] goes
    through it before any attribute is changed. *)
Definition _process_case (p : StreamProcessor) (case_id : string)
  : Result StreamProcessor :=
  if bool_decide (case_id ∈ processed_cases p) then Returns p
  else
    match latest_vitals p !! case_id with
    | None => Returns p
    | Some vitals =>
        match latest_fast_exam p !! case_id with
        | None => Returns p
        | Some fast_exam =>
            match _build_prediction_request vitals (Some fast_exam) (latest_capacity p) with
            | TypeError => TypeError
            | Returns None => Returns p
            | Returns (Some request) =>
                let p1 := _publish_prediction p (prediction_for p case_id vitals request) in
                Returns (set_processed_cases ({[case_id]} ∪ processed_cases p1) p1)
            end
        end
    end.

(** A call [self._process_case(case_id)] in [run]: the processor after it,
    and whether the [TypeError] came out of it. *)
Definition process (p : StreamProcessor) (case_id : string) : StreamProcessor * bool :=
  match _process_case p case_id with
  | Returns p' => (p', false)
  | TypeError => (p, true)
  end.

(** The part of a turn of [run] that follows the metrics: the branches on
    the topic and the last [if case_id and topic != "ems.vitals.raw"]. *)
Definition handle_message (p : StreamProcessor) (topic : string) (value : Payload)
  : StreamProcessor * bool :=
  if String.eqb topic "ems.vitals.raw" then
    match _parse_vitals_event value with
    | Some vitals =>
        let case_id := Vitals.case_id vitals in
        let is_update := bool_decide (case_id ∈ processed_cases p) in
        let p1 := set_latest_vitals (<[case_id := vitals]> (latest_vitals p)) p in
        if is_update
        then process (set_processed_cases (processed_cases p1 ∖ {[case_id]}) p1) case_id
        else process p1 case_id
    | None => (p, false)
    end
  else if String.eqb topic "ems.fast.exam" then
    match _parse_fast_exam_event value with
    | Some fast_exam =>
        let case_id := FastExam.case_id fast_exam in
        let p1 := set_latest_fast_exam
                    (<[case_id := fast_exam]> (latest_fast_exam p)) p in
        let (p2, raised) := if bool_decide (case_id ∈ dom (latest_vitals p1))
                            then process p1 case_id else (p1, false) in
        if raised then (p2, true)
        else if nonempty case_id then process p2 case_id else (p2, false)
    | None => (p, false)
    end
  else if String.eqb topic "hospital.capacity" then
    match _parse_capacity_event value with
    | Some capacity =>
        (set_latest_capacity
           (List.filter
              (fun c => negb (String.eqb (hospital_id c) (hospital_id capacity)))
              (latest_capacity p)
            ++ [capacity]) p,
         false)
    | None => (p, false)
    end
  else (p, false).

(** One turn of the [while True] loop of [run]: what the poll returned and
    what the turn reads of the message and of the clock.  Once an exception
    has left the loop there are no more turns. *)
Definition run_step (loop : Loop) (turn : Polled * Delivery.t) : Loop :=
  if stopped loop then loop
  else
    match turn.1 with
    | NoMessage => loop
    | ErrorMessage => loop
    | Message topic value =>
        let metrics_collector :=
          MetricsCollector.get_metrics_collector (_metrics_collector loop)
            (Delivery.collector_clock turn.2) in
        let recorded :=
          MetricsCollector.record_poll metrics_collector
            (Delivery.stream_clock turn.2) (Delivery.record_clock turn.2)
            topic (Delivery.timestamp turn.2) (Delivery.value turn.2) in
        let (p, raised) := handle_message (self loop) topic value in
        {| self := p; _metrics_collector := Some recorded; stopped := raised |}
    end.

(** [run], on the successive turns of its loop. *)
Definition run (loop : Loop) (turns : list (Polled * Delivery.t)) : Loop :=
  foldl run_step loop turns.
End WithServices.

End StreamProcessor.
(** ** prediction_service_stub.py *)

Module Stub.

(** [_mock_hospital_choice] *)
Definition _mock_hospital_choice (req : Request.AiPredictionRequest)
  : option string * option string * option Z * option Z :=
  let primary_id := "HOSP-PRIMARY-01"%string in
  let comprehensive_id := "HOSP-COMP-01"%string in
  let primary_travel := Request.estimated_travel_min_to_primary_center req in
  let comp_travel := Request.estimated_travel_min_to_comprehensive_center req in
  let prefer_comprehensive :=
    Request.ems_suspected_lvo req &&
    match comp_travel with
    | Some ct =>
        match primary_travel with
        | None => true
        | Some pt => ct <=? pt + 15
        end
    | None => false
    end in
  if prefer_comprehensive
  then (Some comprehensive_id, Some "COMPREHENSIVE_CENTER"%string, comp_travel,
        Request.comprehensive_center_additional_door_to_needle_min req)
  else (Some primary_id, Some "PRIMARY_CENTER"%string, primary_travel,
        Request.primary_center_additional_door_to_needle_min req).

(** [_mock_top_risk_factors] *)
Definition _mock_top_risk_factors (req : Request.AiPredictionRequest) : list string :=
  let factors :=
    (if Request.face_droop_present req then ["Face droop"] else [])
    ++ (if Request.arm_weakness_any req then ["Arm weakness"] else [])
    ++ (if Request.speech_abnormal_any req then ["Speech abnormality"] else [])
    ++ match Request.gcs_total req with
       | Some g => if g <? 15 then ["Reduced GCS (" +:+ str_int g +:+ ")"] else []
       | None => []
       end
    ++ match Request.systolic_bp_mmHg req with
       | Some x => if 180 <? x then ["Elevated systolic BP (" +:+ str_int x +:+ ")"] else []
       | None => []
       end in
  match factors with
  | [] => ["Subtle findings with possible stroke symptoms."]
  | _ :: _ => factors
  end.

End Stub.

(** ** Vocabulary for the statements about the circuit breaker *)

Module BreakerSpec.
Import CircuitBreaker.

(** What every breaker satisfies between two calls, when it was built by
    [__init__] with thresholds of at least one. *)
Definition healthy (b : CircuitBreaker) : Prop :=
  0 <= failure_count b /\
  match state b with
  | CLOSED => failure_count b < failure_threshold (config b) /\ success_count b = 0
  | HALF_OPEN => 1 <= success_count b < success_threshold (config b)
  | OPEN => success_count b = 0 /\ last_failure_time b <> None
  end.

Section WithWorld.
Context {World : Type}.

(** Whether the wrapped function of a call raises. *)
Definition raises {A E : Type} (c : World * Func (World := World) A E) : bool :=
  match (c.2 c.1).2 with
  | inl _ => false
  | inr _ => true
  end.

(** The number of calls at the end of [cs] that raise, and the longest run of
    consecutive calls of [cs] that raise. *)
Fixpoint failure_runs {A E : Type} (cs : list (World * Func (World := World) A E))
    (current longest : nat) : nat * nat :=
  match cs with
  | [] => (current, longest)
  | c :: cs' =>
      if raises c
      then failure_runs cs' (S current) (Nat.max longest (S current))
      else failure_runs cs' 0%nat longest
  end.

Definition trailing_failures {A E : Type} (cs : list (World * Func (World := World) A E))
  : nat := (failure_runs cs 0 0).1.

Definition longest_failure_run {A E : Type} (cs : list (World * Func (World := World) A E))
  : nat := (failure_runs cs 0 0).2.

End WithWorld.
End BreakerSpec.

(** ** Vocabulary for the statements about trends *)

Module TrendSpec.
Import TrendAnalyzer.

(** The four vitals that [calculate_trends] tracks, and the two fields of
    [TrendFeatures] that hold the rate and the direction of each. *)
Inductive Vital : Type := HeartRate | SystolicPressure | OxygenSaturation | Consciousness.

Definition rate_of (vital : Vital) (features : TrendFeatures) : option Q :=
  match vital with
  | HeartRate => hr_rate_of_change features
  | SystolicPressure => bp_rate_of_change features
  | OxygenSaturation => spo2_rate_of_change features
  | Consciousness => gcs_rate_of_change features
  end.

Definition trend_of (vital : Vital) (features : TrendFeatures) : option Z :=
  match vital with
  | HeartRate => hr_trend features
  | SystolicPressure => bp_trend features
  | OxygenSaturation => spo2_trend features
  | Consciousness => gcs_trend features
  end.

(** The direction codes, as the source documents them. *)
Definition worsening : Z := -1.
Definition stable : Z := 0.
Definition improving : Z := 1.

(** Two rates on the same side of the stable band. *)
Definition same_raw_sign (r1 r2 : Q) : Prop :=
  ((1 # 10) <= r1 /\ (1 # 10) <= r2)%Q \/ (r1 <= - (1 # 10) /\ r2 <= - (1 # 10))%Q.

(** Time order on points. *)
Definition by_time (p q : Q * Z) : Prop := (p.1 <= q.1)%Q.

Definition sumR (l : list R) : R := foldr Rplus 0%R l.

(** The weight [exp(-ageMinutes / 2)] of a point, its age being measured back
    from [latest]. *)
Definition decay_weight (latest : Q) (p : Q * Z) : R :=
  exp (- Q2R ((latest - p.1) / 60) / 2).

Definition weighted_average (latest : Q) (points : list (Q * Z)) : R :=
  (sumR (List.map (fun p => IZR p.2 * decay_weight latest p) points)
   / sumR (List.map (decay_weight latest) points))%R.

Definition latest_time (points : list (Q * Z)) : Q :=
  (List.last (sorted_by_time points) (0%Q, 0)).1.

Definition earliest_value (points : list (Q * Z)) : Z :=
  (hd (0%Q, 0) (sorted_by_time points)).2.

(** The recency-weighted delta in the words of the specification: the weighted
    average over the points of the window, minus the earliest value. *)
Definition delta_over_window (points : list (Q * Z)) : R :=
  (weighted_average (latest_time points) points - IZR (earliest_value points))%R.

(** The points at most [window_minutes] older than the latest one, in time
    order. *)
Definition recent_points (window_minutes : Q) (points : list (Q * Z)) : list (Q * Z) :=
  List.filter (fun p => Qle_bool ((latest_time points - p.1) / 60) window_minutes)
    (sorted_by_time points).

(** The field of a snapshot that holds a vital. *)
Definition vital_field (vital : Vital) : VitalSnapshot -> option Z :=
  match vital with
  | HeartRate => heart_rate_bpm
  | SystolicPressure => systolic_bp_mmHg
  | OxygenSaturation => spo2_pct
  | Consciousness => gcs_total
  end.

Definition earliest_time (points : list (Q * Z)) : Q :=
  (hd (0%Q, 0) (sorted_by_time points)).1.

(** A sequence of calls of [add_vital_snapshot], the snapshots among them that
    are for one case, and the last [n] items of a list. *)
Definition add_all (ta : TrendAnalyzer) (adds : list (string * VitalSnapshot))
  : TrendAnalyzer :=
  foldl (fun ta add => add_vital_snapshot ta add.1 add.2) ta adds.

Definition snapshots_for (case_id : string) (adds : list (string * VitalSnapshot))
  : list VitalSnapshot :=
  (List.filter (fun add : string * VitalSnapshot => String.eqb add.1 case_id) adds).*2.

Definition last_n {A : Type} (n : nat) (l : list A) : list A :=
  drop (length l - n) l.

(** Points whose timestamps are pairwise different. *)
Definition distinct_times (points : list (Q * Z)) : Prop :=
  NoDup points /\
  forall p q, p ∈ points -> q ∈ points -> (p.1 == q.1)%Q -> p = q.

End TrendSpec.

(** ** Vocabulary for the statements about the processor *)

Module ProcessorSpec.
Import StreamProcessor.

(** The three kinds of well-formed message. *)
Definition reading (v : Vitals.EmsVitalsEvent) : Polled :=
  Message "ems.vitals.raw" (VitalsJson v).

Definition screening (f : FastExam.EmsFastExamEvent) : Polled :=
  Message "ems.fast.exam" (FastExamJson f).

Definition capacity_snapshot (c : Capacity.HospitalCapacityEvent) : Polled :=
  Message "hospital.capacity" (CapacityJson c).

(** A case has been evaluated when a prediction for it has been published. *)
Definition evaluated (p : StreamProcessor) (case_id : string) : Prop :=
  exists prediction, prediction ∈ published p /\ Response.case_id prediction = case_id.

(** What holds of the processor after the polls [msgs], whether or not the
    loop is still running. *)
Record consistent (msgs : list Polled) (p : StreamProcessor) : Prop := {
  vitals_from_messages : forall c v,
    latest_vitals p !! c = Some v -> Vitals.case_id v = c /\ reading v ∈ msgs;
  fast_exam_from_messages : forall c f,
    latest_fast_exam p !! c = Some f -> FastExam.case_id f = c /\ screening f ∈ msgs;
  evaluated_have_data : forall c,
    evaluated p c ->
    is_Some (latest_vitals p !! c) /\ is_Some (latest_fast_exam p !! c);
  processed_are_evaluated : forall c, c ∈ processed_cases p -> evaluated p c
}.

(** What holds besides while the loop is running: every reading and every
    FAST exam polled is on record or was replaced, and no case that has both
    is waiting. *)
Record up_to_date (msgs : list Polled) (p : StreamProcessor) : Prop := {
  readings_on_record : forall v,
    reading v ∈ msgs -> is_Some (latest_vitals p !! Vitals.case_id v);
  exams_on_record : forall f,
    screening f ∈ msgs -> is_Some (latest_fast_exam p !! FastExam.case_id f);
  ready_are_processed : forall c,
    is_Some (latest_vitals p !! c) -> is_Some (latest_fast_exam p !! c) ->
    c ∈ processed_cases p
}.

(** The evaluations made so far: the case and the reading of each
    prediction published, in order. *)
Definition evaluations (p : StreamProcessor) : list (string * Vitals.EmsVitalsEvent) :=
  (fun r => (Response.case_id r, Response.current_vitals r)) <$> published p.

(** Two processors that differ at most in the capacity on record and in what
    their predictions say beyond the case and the reading. *)
Record same_but_capacity (p p' : StreamProcessor) : Prop := {
  same_vitals : latest_vitals p = latest_vitals p';
  same_fast_exam : latest_fast_exam p = latest_fast_exam p';
  same_processed : processed_cases p = processed_cases p';
  same_evaluations : evaluations p = evaluations p'
}.

(** The four risk categories in increasing order. *)
Definition risk_rank (category : string) : nat :=
  if String.eqb category "CRITICAL" then 3
  else if String.eqb category "HIGH" then 2
  else if String.eqb category "MODERATE" then 1
  else 0.

(** The most recent prediction published for a case. *)
Definition last_prediction_for (case_id : string)
    (predictions : list Response.AiPredictionResponse)
  : option Response.AiPredictionResponse :=
  List.find (fun r => String.eqb (Response.case_id r) case_id) (rev predictions).

(** The capacity event on record for a hospital. *)
Definition capacity_of (hospital_id : string) (events : list Capacity.HospitalCapacityEvent)
  : option Capacity.HospitalCapacityEvent :=
  List.find (fun c => String.eqb (Capacity.hospital_id c) hospital_id) events.

(** The capacity events among the messages consumed, in order of arrival. *)
Definition as_capacity (msg : Polled) : option Capacity.HospitalCapacityEvent :=
  match msg with
  | Message topic (CapacityJson c) =>
      if String.eqb topic "hospital.capacity" then Some c else None
  | _ => None
  end.

Definition capacity_messages (msgs : list Polled) : list Capacity.HospitalCapacityEvent :=
  omap as_capacity msgs.

(** The turns of a run without those that bring a capacity snapshot. *)
Definition without_capacity (turns : list (Polled * Delivery.t))
  : list (Polled * Delivery.t) :=
  List.filter (fun turn : Polled * Delivery.t =>
                 match as_capacity turn.1 with Some _ => false | None => true end) turns.

(** The total of the module-level collector, 0 while there is none. *)
Definition total_recorded (global : option MetricsCollector.MetricsCollector) : Z :=
  match global with
  | Some collector => MetricsCollector.total_messages collector
  | None => 0
  end.

End ProcessorSpec.

(** ** Vocabulary for the prediction service *)

Module ServiceSpec.
Import VertexAi.

Section WithEndpoint.
Context {World : Type} (settings : Settings).
Context (endpoint_predict : Features.t -> @CircuitBreaker.Func World (list Prediction) unit).

(** The service is configured when the library is there and both
    identifiers are set. *)
Definition configured : Prop :=
  VERTEX_AI_AVAILABLE settings = true /\ nonempty (PROJECT_ID settings) = true /\
  nonempty (ENDPOINT_ID settings) = true.

(** A prediction, started in a given world, whose endpoint call raises or
    answers with nothing that can be read. *)
Definition unusable (c : World * Request.AiPredictionRequest) : Prop :=
  match endpoint_predict (features c.2) c.1 with
  | (_, inl predictions) => read_predictions predictions = None
  | (_, inr _) => True
  end.

(** The world in which the endpoint call of a prediction ends. *)
Definition world_after (c : World * Request.AiPredictionRequest) : World :=
  (endpoint_predict (features c.2) c.1).1.
End WithEndpoint.

End ServiceSpec.

(** ** Vocabulary for the metrics *)

Module MetricsSpec.

(** A recorded message: the clock reading, the Kafka timestamp and the
    size. *)
Definition Sample : Type := Q * option Z * Z.

(** A stream after a sequence of [record_message]. *)
Definition record_all (m : StreamMetrics.StreamMetrics) (rs : list Sample)
  : StreamMetrics.StreamMetrics :=
  foldl (fun m r => StreamMetrics.record_message m r.1.1 r.1.2 r.2) m rs.

(** The latency that a record contributes, if any. *)
Definition latency_of (r : Sample) : option Q :=
  match r.1.2 with
  | Some ts => if ts =? 0 then None else Some (r.1.1 * 1000 - inject_Z ts)%Q
  | None => None
  end.

(** A message recorded with the collector: the stream, the clock reading
    used if the stream has to be created, and the record. *)
Definition Recorded : Type := string * Q * Sample.

Definition collect_all (c : MetricsCollector.MetricsCollector) (rs : list Recorded)
  : MetricsCollector.MetricsCollector :=
  foldl (fun c r => MetricsCollector.record_message c r.1.1 r.1.2 r.2.1.1 r.2.1.2 r.2.2) c rs.

(** The records of one stream. *)
Definition records_of (stream_name : string) (rs : list Recorded) : list Recorded :=
  List.filter (fun r : Recorded => String.eqb r.1.1 stream_name) rs.

End MetricsSpec.

(** ** Concrete inputs used by the examples below *)

Module Examples.
Import CircuitBreaker.

(** A world that is just the wall clock, and two wrapped services: each takes
    one second; the first returns, the second raises. *)
Definition clock (w : Q) : Q := w.

Definition service_up : Func (World := Q) unit unit :=
  fun w => ((w + 1)%Q, inl tt).

Definition service_down : Func (World := Q) unit unit :=
  fun w => ((w + 1)%Q, inr tt).

(** The Vertex AI breaker, opened by a third failure at time 100. *)
Definition tripped : CircuitBreaker :=
  {| name := "vertex_ai"; config := service_config; state := OPEN;
     failure_count := 3; success_count := 0; last_failure_time := Some 100%Q |}.

Definition fresh : CircuitBreaker := __init__ "vertex_ai" service_config.

(** The two centers of the demo configuration, as capacity events. *)
Definition primary_center : Capacity.HospitalCapacityEvent :=
  {| Capacity.hospital_id := "HOSP-PRIMARY-01";
     Capacity.hospital_name := "Valley Primary Stroke Center";
     Capacity.updated_ts := "2024-01-01T12:00:00Z";
     Capacity.latitude := 3778 # 100; Capacity.longitude := - (12242 # 100);
     Capacity.stroke_center_level := "PRIMARY";
     Capacity.has_ct_available := true; Capacity.has_cta_available := false;
     Capacity.can_perform_mechanical_thrombectomy := false;
     Capacity.ed_crowding_score := Some 30;
     Capacity.current_stroke_cases_in_ed := Some 1;
     Capacity.accepting_acute_stroke_now := true;
     Capacity.estimated_additional_door_to_needle_minutes := Some 5;
     Capacity.notes := None |}.

Definition comprehensive_center : Capacity.HospitalCapacityEvent :=
  {| Capacity.hospital_id := "HOSP-COMP-01";
     Capacity.hospital_name := "Metro Comprehensive Stroke Center";
     Capacity.updated_ts := "2024-01-01T12:00:00Z";
     Capacity.latitude := 37765 # 1000; Capacity.longitude := - (1224 # 10);
     Capacity.stroke_center_level := "COMPREHENSIVE";
     Capacity.has_ct_available := true; Capacity.has_cta_available := true;
     Capacity.can_perform_mechanical_thrombectomy := true;
     Capacity.ed_crowding_score := Some 50;
     Capacity.current_stroke_cases_in_ed := Some 2;
     Capacity.accepting_acute_stroke_now := true;
     Capacity.estimated_additional_door_to_needle_minutes := Some 10;
     Capacity.notes := None |}.

(** A request with large-vessel occlusion suspected and the given travel
    estimates to the primary and to the comprehensive center. *)
Definition lvo_request (primary_travel comp_travel : option Z) : Request.AiPredictionRequest :=
  {| Request.case_id := "CASE-0001"; Request.patient_id := "PAT-0001";
     Request.ems_unit_id := "EMS-01";
     Request.age_years := Some 68; Request.sex := Some "FEMALE"%string;
     Request.heart_rate_bpm := Some 92; Request.systolic_bp_mmHg := Some 168;
     Request.diastolic_bp_mmHg := Some 95; Request.respiratory_rate_bpm := Some 18;
     Request.spo2_pct := Some 96; Request.gcs_total := Some 14;
     Request.blood_glucose_mg_dL := Some 110;
     Request.face_droop_present := true; Request.arm_weakness_any := true;
     Request.speech_abnormal_any := false; Request.fast_score := Some 2;
     Request.minutes_since_symptom_onset := Some 45;
     Request.minutes_since_last_known_well := Some 50;
     Request.distance_km_to_nearest_primary_center := Some 5%Q;
     Request.distance_km_to_nearest_comprehensive_center := Some 12%Q;
     Request.estimated_travel_min_to_primary_center := primary_travel;
     Request.estimated_travel_min_to_comprehensive_center := comp_travel;
     Request.primary_center_additional_door_to_needle_min := Some 5;
     Request.comprehensive_center_additional_door_to_needle_min := Some 10;
     Request.ems_suspected_stroke := true; Request.ems_suspected_lvo := true;
     Request.features_version := "v1" |}.

(** The timestamps that occur in the examples, as [datetime.fromisoformat]
    reads them (seconds since the epoch); everything else fails to parse. *)
Definition fromisoformat (s : string) : option Q :=
  if String.eqb s "2024-01-01T12:00:00Z" then Some 1704110400%Q
  else if String.eqb s "2024-01-01T12:01:00Z" then Some 1704110460%Q
  else if String.eqb s "2024-01-01T11:15:30Z" then Some 1704107730%Q
  else None.

(** A first and a second reading of one case, and its FAST exam. *)
Definition first_reading : Vitals.EmsVitalsEvent :=
  {| Vitals.case_id := "CASE-0001"; Vitals.patient_id := "PAT-0001";
     Vitals.ems_unit_id := "EMS-01"; Vitals.event_ts := "2024-01-01T12:00:00Z";
     Vitals.sequence_number := 1;
     Vitals.heart_rate_bpm := Some 92; Vitals.systolic_bp_mmHg := Some 168;
     Vitals.diastolic_bp_mmHg := Some 95; Vitals.respiratory_rate_bpm := Some 18;
     Vitals.spo2_pct := Some 96; Vitals.temperature_c := Some (369 # 10);
     Vitals.gcs_total := Some 14; Vitals.blood_glucose_mg_dL := Some 110;
     Vitals.ecg_rhythm := Some "normal"%string;
     Vitals.is_artifact_suspected := false; Vitals.source_device := None |}.

Definition second_reading : Vitals.EmsVitalsEvent :=
  {| Vitals.case_id := "CASE-0001"; Vitals.patient_id := "PAT-0001";
     Vitals.ems_unit_id := "EMS-01"; Vitals.event_ts := "2024-01-01T12:01:00Z";
     Vitals.sequence_number := 2;
     Vitals.heart_rate_bpm := Some 97; Vitals.systolic_bp_mmHg := Some 185;
     Vitals.diastolic_bp_mmHg := Some 99; Vitals.respiratory_rate_bpm := Some 19;
     Vitals.spo2_pct := Some 93; Vitals.temperature_c := Some (369 # 10);
     Vitals.gcs_total := Some 12; Vitals.blood_glucose_mg_dL := Some 110;
     Vitals.ecg_rhythm := Some "normal"%string;
     Vitals.is_artifact_suspected := false; Vitals.source_device := None |}.

Definition fast_exam : FastExam.EmsFastExamEvent :=
  {| FastExam.case_id := "CASE-0001"; FastExam.patient_id := "PAT-0001";
     FastExam.ems_unit_id := "EMS-01"; FastExam.exam_ts := "2024-01-01T12:00:00Z";
     FastExam.face_droop := "PRESENT"; FastExam.arm_weakness := "LEFT";
     FastExam.speech_difficulty := "ABSENT";
     FastExam.symptom_onset_ts := Some "2024-01-01T11:15:30Z"%string;
     FastExam.last_known_well_ts := None;
     FastExam.prestroke_disability := Some 0;
     FastExam.suspected_stroke_side := Some "RIGHT"%string;
     FastExam.fast_score := Some 2;
     FastExam.ems_suspected_stroke := true; FastExam.notes := None |}.

(** The same timestamps as the processor gets them from
    [datetime.fromisoformat]: those of the table carry an offset, and
    12:01 written without one is naive. *)
Definition datetime_of (s : string) : option StreamProcessor.datetime :=
  if String.eqb s "2024-01-01T12:01:00" then Some (StreamProcessor.naive 1704110460%Q)
  else StreamProcessor.aware <$> fromisoformat s.

(** [datetime.timestamp] on a machine whose local zone is UTC. *)
Definition timestamp (d : StreamProcessor.datetime) : Q :=
  match d with
  | StreamProcessor.aware seconds => seconds
  | StreamProcessor.naive seconds => seconds
  end.

(** The second reading, its timestamp written without an offset. *)
Definition naive_reading : Vitals.EmsVitalsEvent :=
  {| Vitals.case_id := "CASE-0001"; Vitals.patient_id := "PAT-0001";
     Vitals.ems_unit_id := "EMS-01"; Vitals.event_ts := "2024-01-01T12:01:00";
     Vitals.sequence_number := 2;
     Vitals.heart_rate_bpm := Some 97; Vitals.systolic_bp_mmHg := Some 185;
     Vitals.diastolic_bp_mmHg := Some 99; Vitals.respiratory_rate_bpm := Some 19;
     Vitals.spo2_pct := Some 93; Vitals.temperature_c := Some (369 # 10);
     Vitals.gcs_total := Some 12; Vitals.blood_glucose_mg_dL := Some 110;
     Vitals.ecg_rhythm := Some "normal"%string;
     Vitals.is_artifact_suspected := false; Vitals.source_device := None |}.

(** What a turn reads of a message of two bytes, stamped at creation with
    12:00:00, one second before the clock is read. *)
Definition delivery : Delivery.t :=
  {| Delivery.timestamp := (1, 1704110400000);
     Delivery.value := Some [Byte.x7b; Byte.x7d];
     Delivery.collector_clock := 1704110401%Q;
     Delivery.stream_clock := 1704110401%Q;
     Delivery.record_clock := 1704110401%Q |}.

Definition turn (msg : StreamProcessor.Polled) : StreamProcessor.Polled * Delivery.t :=
  (msg, delivery).

(** The processor of the examples: the timestamps above, and the prediction
    service in its unconfigured mode, where it answers with the heuristic. *)
Definition demo_run : StreamProcessor.Loop -> list (StreamProcessor.Polled * Delivery.t) ->
                      StreamProcessor.Loop :=
  StreamProcessor.run datetime_of timestamp VertexAi._heuristic_predict.

(** Two snapshots of one case, a minute apart: heart rate and systolic
    pressure rise, oxygen saturation and consciousness score fall. *)
Definition snapshot_1 : TrendAnalyzer.VitalSnapshot :=
  {| TrendAnalyzer.timestamp := "2024-01-01T12:00:00Z";
     TrendAnalyzer.heart_rate_bpm := Some 92; TrendAnalyzer.systolic_bp_mmHg := Some 168;
     TrendAnalyzer.diastolic_bp_mmHg := Some 95;
     TrendAnalyzer.spo2_pct := Some 96; TrendAnalyzer.gcs_total := Some 14 |}.

Definition snapshot_2 : TrendAnalyzer.VitalSnapshot :=
  {| TrendAnalyzer.timestamp := "2024-01-01T12:01:00Z";
     TrendAnalyzer.heart_rate_bpm := Some 97; TrendAnalyzer.systolic_bp_mmHg := Some 185;
     TrendAnalyzer.diastolic_bp_mmHg := Some 99;
     TrendAnalyzer.spo2_pct := Some 93; TrendAnalyzer.gcs_total := Some 12 |}.

Definition analyzer : TrendAnalyzer.TrendAnalyzer :=
  TrendAnalyzer.add_vital_snapshot
    (TrendAnalyzer.add_vital_snapshot (TrendAnalyzer.__init__ 20) "CASE-0001" snapshot_1)
    "CASE-0001" snapshot_2.

(** Two heart-rate points ten minutes apart. *)
Definition ten_minutes_apart : list (Q * Z) := [(0%Q, 100); (600%Q, 110)].

(** A configured prediction service whose endpoint answers after one second
    with no predictions at all. *)
Definition configured_settings : VertexAi.Settings :=
  {| VertexAi.VERTEX_AI_AVAILABLE := true; VertexAi.PROJECT_ID := "neuropulse-demo";
     VertexAi.ENDPOINT_ID := "1234567890" |}.

Definition endpoint_empty : Features.t -> Func (World := Q) (list VertexAi.Prediction) unit :=
  fun _ w => ((w + 1)%Q, inl []).

End Examples.

(** * Properties *)

(** ** The circuit breaker *)

Section CircuitBreakerFacts.
Import CircuitBreaker.
Context {World : Type} (time : World -> Q).

Local Abbreviation call := (CircuitBreaker.call time).
Local Abbreviation calls := (CircuitBreaker.calls time).
Local Abbreviation attempt := (CircuitBreaker.attempt time).
Local Abbreviation before_call := (CircuitBreaker.before_call time).

Lemma config_on_success b : config (_on_success b) = config b.
Proof.
  unfold _on_success. destruct (state b); simpl; try reflexivity.
  destruct (_ <=? _); reflexivity.
Qed.

Lemma config_on_failure b w : config (_on_failure time b w) = config b.
Proof.
  unfold _on_failure. simpl. destruct (state b); simpl;
    try destruct (_ <=? _); reflexivity.
Qed.

Lemma config_call {A E} b (func : Func A E) w : config (call b func w).1.1 = config b.
Proof.
  unfold CircuitBreaker.call, CircuitBreaker.before_call, CircuitBreaker.attempt.
  destruct (state b); simpl;
    try destruct (_should_attempt_reset time b w); simpl;
    destruct (func w) as [w' [a | e]]; simpl;
    rewrite ?config_on_success, ?config_on_failure; reflexivity.
Qed.

Lemma calls_snoc {A E} (cs : list (World * Func A E)) c b :
  calls b (cs ++ [c]) = (call (calls b cs) c.2 c.1).1.1.
Proof.
  revert b. induction cs as [| [w f] cs IH]; intros b; simpl.
  - destruct c; reflexivity.
  - apply IH.
Qed.

Lemma config_calls {A E} (cs : list (World * Func A E)) b : config (calls b cs) = config b.
Proof.
  revert b. induction cs as [| [w f] cs IH]; intros b; simpl; [reflexivity |].
  rewrite IH. apply config_call.
Qed.

(** A call on a breaker that is not open goes straight to the attempt. *)
Lemma call_not_open {A E} b (func : Func A E) w :
  state b <> OPEN -> call b func w = attempt b func w.
Proof.
  intros H. unfold CircuitBreaker.call, CircuitBreaker.before_call.
  destruct (state b); congruence.
Qed.

Lemma should_attempt_reset_elapsed b t w :
  last_failure_time b = Some t ->
  (timeout (config b) <= time w - t)%Q ->
  _should_attempt_reset time b w = true.
Proof.
  intros Ht Hle. unfold _should_attempt_reset. rewrite Ht.
  apply Qle_bool_iff. exact Hle.
Qed.

Lemma should_attempt_reset_early b t w :
  last_failure_time b = Some t ->
  (time w - t < timeout (config b))%Q ->
  _should_attempt_reset time b w = false.
Proof.
  intros Ht Hlt. unfold _should_attempt_reset. rewrite Ht.
  destruct (Qle_bool _ _) eqn:Hb; [| reflexivity].
  apply Qle_bool_iff in Hb. exfalso. apply (Qlt_not_le _ _ Hlt Hb).
Qed.

Lemma call_open_elapsed {A E} b t (func : Func A E) w :
  state b = OPEN -> last_failure_time b = Some t ->
  (timeout (config b) <= time w - t)%Q ->
  call b func w = attempt (probe b) func w.
Proof.
  intros Hs Ht Hle. unfold CircuitBreaker.call, CircuitBreaker.before_call.
  rewrite Hs, (should_attempt_reset_elapsed b t w Ht Hle). reflexivity.
Qed.

Lemma call_open_early {A E} b t (func : Func A E) w :
  state b = OPEN -> last_failure_time b = Some t ->
  (time w - t < timeout (config b))%Q ->
  call b func w = (b, w, CircuitBreakerOpenError).
Proof.
  intros Hs Ht Hlt. unfold CircuitBreaker.call, CircuitBreaker.before_call.
  rewrite Hs, (should_attempt_reset_early b t w Ht Hlt). reflexivity.
Qed.

(** One success in HALF_OPEN. *)
Lemma half_open_success {A E} h (c : World * Func A E) :
  state h = HALF_OPEN -> succeeds c ->
  let h' := (attempt h c.2 c.1).1.1 in
  (success_count h + 1 < success_threshold (config h) ->
     state h' = HALF_OPEN /\ success_count h' = success_count h + 1) /\
  (success_threshold (config h) <= success_count h + 1 ->
     state h' = CLOSED /\ failure_count h' = 0 /\ success_count h' = 0).
Proof.
  intros Hs [a Ha]. unfold CircuitBreaker.attempt.
  destruct (c.2 c.1) as [w' r] eqn:Hc. simpl in Ha. subst r. simpl.
  unfold _on_success. rewrite Hs. simpl. split; intros Hn.
  - destruct (Z.leb_spec (success_threshold (config h)) (success_count h + 1)); [lia |].
    simpl. auto.
  - destruct (Z.leb_spec (success_threshold (config h)) (success_count h + 1)); [| lia].
    simpl. auto.
Qed.

(** One failure in HALF_OPEN. *)
Lemma half_open_failure {A E} h (c : World * Func A E) :
  state h = HALF_OPEN -> fails c -> state (attempt h c.2 c.1).1.1 = OPEN.
Proof.
  intros Hs [e He]. unfold CircuitBreaker.attempt.
  destruct (c.2 c.1) as [w' r] eqn:Hc. simpl in He. subst r. simpl.
  unfold _on_failure. simpl. rewrite Hs. reflexivity.
Qed.

(** Successes that stay below the threshold keep the breaker HALF_OPEN and
    are counted. *)
Lemma half_open_successes_below {A E} (cs : list (World * Func A E)) h :
  state h = HALF_OPEN -> Forall succeeds cs ->
  success_count h + Z.of_nat (length cs) < success_threshold (config h) ->
  state (calls h cs) = HALF_OPEN /\
  success_count (calls h cs) = success_count h + Z.of_nat (length cs).
Proof.
  induction cs as [| c cs IH] using rev_ind; intros Hs Hall Hlt.
  - simpl. split; [assumption | lia].
  - apply Forall_app in Hall as [Hall Hc]. apply Forall_inv in Hc.
    rewrite length_app in Hlt. simpl in Hlt.
    destruct IH as [IHs IHc]; [assumption | assumption | lia |].
    rewrite calls_snoc, call_not_open by (rewrite IHs; discriminate).
    destruct (half_open_success (calls h cs) c IHs Hc) as [Hbelow _].
    rewrite config_calls in Hbelow.
    destruct Hbelow as [H1 H2]; [lia |].
    split; [exact H1 |]. rewrite H2, IHc, length_app. simpl. lia.
Qed.

(** The success that reaches the threshold closes the breaker. *)
Lemma half_open_successes_reach {A E} (cs : list (World * Func A E)) h :
  state h = HALF_OPEN -> Forall succeeds cs -> cs <> [] ->
  success_count h + Z.of_nat (length cs) = success_threshold (config h) ->
  state (calls h cs) = CLOSED /\ failure_count (calls h cs) = 0 /\
  success_count (calls h cs) = 0.
Proof.
  destruct cs as [| c cs _] using rev_ind; intros Hs Hall Hne Heq; [congruence |].
  apply Forall_app in Hall as [Hall Hc]. apply Forall_inv in Hc.
  rewrite length_app in Heq. simpl in Heq.
  destruct (half_open_successes_below cs h Hs Hall) as [IHs IHc]; [lia |].
  rewrite calls_snoc, call_not_open by (rewrite IHs; discriminate).
  destruct (half_open_success (calls h cs) c IHs Hc) as [_ Hreach].
  rewrite config_calls in Hreach. apply Hreach. lia.
Qed.

(** One success in CLOSED. *)
Lemma closed_success {A E} b (c : World * Func A E) :
  state b = CLOSED -> succeeds c ->
  let b' := (call b c.2 c.1).1.1 in
  state b' = CLOSED /\ failure_count b' = 0 /\
  exists a, (call b c.2 c.1).2 = Returned a.
Proof.
  intros Hs [a Ha]. rewrite call_not_open by (rewrite Hs; discriminate).
  unfold CircuitBreaker.attempt.
  destruct (c.2 c.1) as [w' r] eqn:Hc. simpl in Ha. subst r. simpl.
  unfold _on_success. rewrite Hs. simpl. eauto.
Qed.

(** One failure in CLOSED. *)
Lemma closed_failure {A E} b (c : World * Func A E) w' e :
  state b = CLOSED -> c.2 c.1 = (w', inr e) ->
  let b' := (call b c.2 c.1).1.1 in
  failure_count b' = failure_count b + 1 /\
  last_failure_time b' = Some (time w') /\
  (failure_count b + 1 < failure_threshold (config b) -> state b' = CLOSED) /\
  (failure_threshold (config b) <= failure_count b + 1 -> state b' = OPEN) /\
  (call b c.2 c.1).2 = Raised e.
Proof.
  intros Hs Hc. rewrite call_not_open by (rewrite Hs; discriminate).
  unfold CircuitBreaker.attempt. rewrite Hc. simpl.
  unfold _on_failure. simpl. rewrite Hs.
  destruct (Z.leb_spec (failure_threshold (config b)) (failure_count b + 1));
    simpl; repeat split; auto; intros; lia.
Qed.

(** Failures that stay below the threshold keep the breaker CLOSED and are
    counted. *)
Lemma closed_failures_below {A E} (cs : list (World * Func A E)) b :
  state b = CLOSED -> Forall fails cs ->
  failure_count b + Z.of_nat (length cs) < failure_threshold (config b) ->
  state (calls b cs) = CLOSED /\
  failure_count (calls b cs) = failure_count b + Z.of_nat (length cs).
Proof.
  induction cs as [| c cs IH] using rev_ind; intros Hs Hall Hlt.
  - simpl. split; [assumption | lia].
  - apply Forall_app in Hall as [Hall Hc]. apply Forall_inv in Hc.
    rewrite length_app in Hlt. simpl in Hlt.
    destruct IH as [IHs IHc]; [assumption | assumption | lia |].
    destruct Hc as [e He]. destruct (c.2 c.1) as [w' r] eqn:Hc. simpl in He. subst r.
    destruct (closed_failure (calls b cs) c w' e IHs Hc) as (Hf & _ & Hbelow & _).
    rewrite config_calls in Hbelow. rewrite calls_snoc.
    split; [apply Hbelow; lia |]. rewrite Hf, IHc, length_app. simpl. lia.
Qed.

(** The failure that reaches the threshold opens the breaker and its time
    is recorded. *)
Lemma closed_failures_reach {A E} (cs : list (World * Func A E)) c b :
  state b = CLOSED -> Forall fails (cs ++ [c]) ->
  failure_count b + Z.of_nat (length (cs ++ [c])) = failure_threshold (config b) ->
  state (calls b (cs ++ [c])) = OPEN /\
  last_failure_time (calls b (cs ++ [c])) = Some (time (c.2 c.1).1).
Proof.
  intros Hs Hall Heq.
  apply Forall_app in Hall as [Hall Hc]. apply Forall_inv in Hc.
  rewrite length_app in Heq. simpl in Heq.
  destruct (closed_failures_below cs b Hs Hall) as [IHs IHc]; [lia |].
  destruct Hc as [e He]. destruct (c.2 c.1) as [w' r] eqn:Hc. simpl in He. subst r.
  destruct (closed_failure (calls b cs) c w' e IHs Hc) as (_ & Ht & _ & Hreach & _).
  rewrite config_calls in Hreach. rewrite calls_snoc.
  split; [apply Hreach; lia | exact Ht].
Qed.

(** C2. An OPEN breaker whose timeout has elapsed since the last failure lets
    the next call through as a probe: the breaker is HALF_OPEN with the success
    counter at zero while the wrapped function runs, the function runs once, and
    the breaker that any later call meets is the one left by the probe's
    outcome.  Counting the probe, as long as fewer than [success_threshold]
    calls in a row have succeeded the breaker stays HALF_OPEN and counts them;
    the call that makes it [success_threshold] closes the breaker with both
    counters at zero; a failure of the probe, or of any call while HALF_OPEN,
    opens it again at once. *)
Theorem open_breaker_probe_then_recovery {A E} (b : CircuitBreaker) (t : Q) (w : World)
    (func : Func A E) (rest : list (World * Func A E)) :
  state b = OPEN -> last_failure_time b = Some t ->
  (timeout (config b) <= time w - t)%Q ->
  (call b func w = attempt (probe b) func w /\
   state (probe b) = HALF_OPEN /\ success_count (probe b) = 0 /\
   (call b func w).1.2 = (func w).1) /\
  (Forall succeeds ((w, func) :: rest) ->
   let n := Z.of_nat (S (length rest)) in
   let b' := calls b ((w, func) :: rest) in
   (n < success_threshold (config b) -> state b' = HALF_OPEN /\ success_count b' = n) /\
   (n = success_threshold (config b) ->
    state b' = CLOSED /\ failure_count b' = 0 /\ success_count b' = 0)) /\
  (fails (w, func) -> state (call b func w).1.1 = OPEN) /\
  (forall bad, fails bad -> Forall succeeds ((w, func) :: rest) ->
   Z.of_nat (S (length rest)) < success_threshold (config b) ->
   state (calls b ((w, func) :: rest ++ [bad])) = OPEN).
Proof.
  intros Hs Ht Hle.
  pose proof (call_open_elapsed b t func w Hs Ht Hle) as Hcall.
  assert (Hrun : forall cs, calls b ((w, func) :: cs) = calls (probe b) ((w, func) :: cs)).
  { intros cs. simpl. rewrite Hcall.
    rewrite (call_not_open (probe b)) by (simpl; discriminate). reflexivity. }
  assert (Hp : state (probe b) = HALF_OPEN) by reflexivity.
  split; [| split; [| split]].
  - repeat split; try assumption.
    rewrite Hcall. unfold CircuitBreaker.attempt.
    destruct (func w) as [w' [a | e]]; reflexivity.
  - intros Hall n b'. subst n b'. rewrite Hrun. split; intros Hn.
    + apply (half_open_successes_below _ (probe b) Hp Hall). simpl in *. lia.
    + apply (half_open_successes_reach _ (probe b) Hp Hall); [discriminate |].
      simpl in *. lia.
  - intros Hf. rewrite Hcall. apply (half_open_failure (probe b) (w, func) Hp Hf).
  - intros bad Hbad Hall Hn.
    change ((w, func) :: rest ++ [bad]) with (((w, func) :: rest) ++ [bad]).
    rewrite calls_snoc, Hrun.
    destruct (half_open_successes_below _ (probe b) Hp Hall) as [Hs' _];
      [simpl in *; lia |].
    rewrite call_not_open by (rewrite Hs'; discriminate).
    apply half_open_failure; assumption.
Qed.

(** C7. In CLOSED a success sets the failure counter to zero and a failure
    adds one to it and records its time; as long as fewer than
    [failure_threshold] calls in a row have failed the breaker stays CLOSED, and
    the failure that makes it [failure_threshold] opens the breaker with that
    failure's time recorded.  While OPEN and before [timeout] has elapsed since
    the recorded failure, a call returns the breaker-open error with the breaker
    and the world untouched: the wrapped function is not run. *)
Theorem closed_counts_failures_and_open_fails_fast {A E} (b : CircuitBreaker) :
  (state b = CLOSED ->
   (forall c : World * Func A E, succeeds c ->
    let b' := (call b c.2 c.1).1.1 in state b' = CLOSED /\ failure_count b' = 0) /\
   (forall (c : World * Func A E) w' e, c.2 c.1 = (w', inr e) ->
    let b' := (call b c.2 c.1).1.1 in
    failure_count b' = failure_count b + 1 /\ last_failure_time b' = Some (time w')) /\
   (forall cs : list (World * Func A E), Forall fails cs -> failure_count b = 0 ->
    Z.of_nat (length cs) < failure_threshold (config b) ->
    state (calls b cs) = CLOSED /\ failure_count (calls b cs) = Z.of_nat (length cs)) /\
   (forall (cs : list (World * Func A E)) c, Forall fails (cs ++ [c]) ->
    failure_count b = 0 ->
    Z.of_nat (length (cs ++ [c])) = failure_threshold (config b) ->
    state (calls b (cs ++ [c])) = OPEN /\
    last_failure_time (calls b (cs ++ [c])) = Some (time (c.2 c.1).1))) /\
  (state b = OPEN ->
   forall t w (func : Func A E), last_failure_time b = Some t ->
   (time w - t < timeout (config b))%Q ->
   call b func w = (b, w, CircuitBreakerOpenError)).
Proof.
  split.
  - intros Hs. split; [| split; [| split]].
    + intros c Hc. destruct (closed_success b c Hs Hc) as (H1 & H2 & _). auto.
    + intros c w' e Hc. destruct (closed_failure b c w' e Hs Hc) as (H1 & H2 & _). auto.
    + intros cs Hall H0 Hlt.
      destruct (closed_failures_below cs b Hs Hall) as [H1 H2]; [lia |].
      split; [exact H1 | lia].
    + intros cs c Hall H0 Heq. apply closed_failures_reach; [assumption .. | lia].
  - intros Hs t w func Ht Hlt. apply (call_open_early b t func w Hs Ht Hlt).
Qed.

End CircuitBreakerFacts.

(** ** Risk categories *)

Lemma Qle_bool_false (x y : Q) : Qle_bool x y = false <-> ~ (x <= y)%Q.
Proof.
  rewrite <- Qle_bool_iff. destruct (Qle_bool x y); split; intros H;
    solve [congruence | discriminate | exfalso; apply H; reflexivity].
Qed.

Lemma Qlt_bool_iff (x y : Q) : Qlt_bool x y = true <-> (x < y)%Q.
Proof.
  unfold Qlt_bool. rewrite negb_true_iff, Qle_bool_false. split.
  - apply Qnot_le_lt.
  - apply Qlt_not_le.
Qed.

(** The result of [_categorize_risk] only depends on the values of its
    arguments, not on how the fractions are written. *)
Lemma categorize_risk_proper (s s' l l' : Q) :
  (s == s')%Q -> (l == l')%Q ->
  StreamProcessor._categorize_risk s l = StreamProcessor._categorize_risk s' l'.
Proof.
  intros Hs Hl. unfold StreamProcessor._categorize_risk.
  assert (E : forall c x x', (x == x')%Q -> Qle_bool c x = Qle_bool c x').
  { intros c x x' Hx. destruct (Qle_bool c x') eqn:Hb.
    - apply Qle_bool_iff. apply Qle_bool_iff in Hb. rewrite Hx. exact Hb.
    - apply Qle_bool_false. apply Qle_bool_false in Hb. rewrite Hx. exact Hb. }
  rewrite !(E _ s s' Hs), !(E _ l l' Hl). reflexivity.
Qed.

(** C4. [_categorize_risk] is a function of the two probabilities alone, with
    the four categories decided by the thresholds in order: CRITICAL exactly
    when stroke >= 0.8 or lvo >= 0.6; otherwise HIGH exactly when stroke >= 0.6
    or lvo >= 0.4; otherwise MODERATE exactly when stroke >= 0.3; otherwise LOW.
    With stroke 0.82 and lvo 0.1 the category is CRITICAL. *)
Theorem categorize_risk_thresholds (stroke lvo : Q) :
  let critical := ((8 # 10) <= stroke \/ (6 # 10) <= lvo)%Q in
  let high := ((6 # 10) <= stroke \/ (4 # 10) <= lvo)%Q in
  let moderate := ((3 # 10) <= stroke)%Q in
  let category := StreamProcessor._categorize_risk stroke lvo in
  (category = "CRITICAL"%string <-> critical) /\
  (category = "HIGH"%string <-> ~ critical /\ high) /\
  (category = "MODERATE"%string <-> ~ critical /\ ~ high /\ moderate) /\
  (category = "LOW"%string <-> ~ critical /\ ~ high /\ ~ moderate) /\
  StreamProcessor._categorize_risk (82 # 100) (1 # 10) = "CRITICAL"%string.
Proof.
  intros critical high moderate category.
  subst critical high moderate category. unfold StreamProcessor._categorize_risk.
  destruct (Qle_bool (8 # 10) stroke) eqn:H1; destruct (Qle_bool (6 # 10) lvo) eqn:H2;
    destruct (Qle_bool (6 # 10) stroke) eqn:H3; destruct (Qle_bool (4 # 10) lvo) eqn:H4;
    destruct (Qle_bool (3 # 10) stroke) eqn:H5; simpl;
    rewrite ?Qle_bool_iff, ?Qle_bool_false in *;
    repeat split; intros; try discriminate; try reflexivity; tauto.
Qed.

(** ** The heuristic predictor *)

Lemma clamp01_bounds (x : Q) : (0 <= VertexAi.clamp01 x <= 1)%Q.
Proof.
  unfold VertexAi.clamp01. split.
  - apply Q.le_max_l.
  - apply Q.max_lub; [discriminate | apply Q.le_min_l].
Qed.

(** C10. For every request [_heuristic_predict] returns two values in
    [[0, 1]], and equal requests get equal results. *)
Theorem heuristic_predict_bounded_and_deterministic (request request' : Request.AiPredictionRequest) :
  ((0 <= (VertexAi._heuristic_predict request).1 <= 1)%Q /\
   (0 <= (VertexAi._heuristic_predict request).2 <= 1)%Q) /\
  (request = request' ->
   VertexAi._heuristic_predict request = VertexAi._heuristic_predict request').
Proof.
  split.
  - unfold VertexAi._heuristic_predict. simpl. split; apply clamp01_bounds.
  - intros ->. reflexivity.
Qed.

(** ** Choosing the destination *)

(** C6, at a request the function mishandles.  Large-vessel occlusion is
    suspected, both centers are known, and the estimate for the comprehensive
    center (0 minutes) is within the primary estimate plus 15 minutes, but
    [_choose_hospital] returns the primary center: its test
    [... and comp_travel] reads the estimate 0 as a missing estimate. *)
Theorem choose_hospital_zero_minute_estimate :
  let request := Examples.lvo_request (Some 8) (Some 0) in
  let capacity_events := [Examples.primary_center; Examples.comprehensive_center] in
  Request.ems_suspected_lvo request = true /\
  StreamProcessor.first_of_level "COMPREHENSIVE" capacity_events
  = Some Examples.comprehensive_center /\
  0 <= 8 + 15 /\
  StreamProcessor._choose_hospital request capacity_events
  = (Some "HOSP-PRIMARY-01"%string, Some "PRIMARY_CENTER"%string, Some 8, Some 5).
Proof.
  simpl. repeat split; try reflexivity. lia.
Qed.

(** The routing example of the specification: 8 minutes to the primary
    center, 15 to the comprehensive one, occlusion suspected. *)
Example choose_hospital_comprehensive_within_reach :
  StreamProcessor._choose_hospital (Examples.lvo_request (Some 8) (Some 15))
    [Examples.primary_center; Examples.comprehensive_center]
  = (Some "HOSP-COMP-01"%string, Some "COMPREHENSIVE_CENTER"%string, Some 15, Some 10).
Proof. reflexivity. Qed.

(** Away from that reading of 0 (and of an empty identifier) the choice is the
    one the documentation gives. *)
Lemma choose_hospital_documented (request : Request.AiPredictionRequest)
    (capacity_events : list Capacity.HospitalCapacityEvent) :
  Request.estimated_travel_min_to_comprehensive_center request <> Some 0 ->
  Forall (fun c => Capacity.hospital_id c <> ""%string) capacity_events ->
  let primary := StreamProcessor.first_of_level "PRIMARY" capacity_events in
  let comp := StreamProcessor.first_of_level "COMPREHENSIVE" capacity_events in
  let primary_travel := Request.estimated_travel_min_to_primary_center request in
  let comp_travel := Request.estimated_travel_min_to_comprehensive_center request in
  let higher_tier :=
    Request.ems_suspected_lvo request = true /\
    (exists c ct, comp = Some c /\ comp_travel = Some ct /\
       (primary_travel = None \/ exists pt, primary_travel = Some pt /\ ct <= pt + 15)) in
  (higher_tier ->
   StreamProcessor._choose_hospital request capacity_events
   = (Capacity.hospital_id <$> comp, Some "COMPREHENSIVE_CENTER"%string, comp_travel,
      Request.comprehensive_center_additional_door_to_needle_min request)) /\
  (~ higher_tier -> forall c, primary = Some c ->
   StreamProcessor._choose_hospital request capacity_events
   = (Some (Capacity.hospital_id c), Some "PRIMARY_CENTER"%string, primary_travel,
      Request.primary_center_additional_door_to_needle_min request)) /\
  (~ higher_tier -> primary = None ->
   StreamProcessor._choose_hospital request capacity_events = (None, None, None, None)).
Proof.
  intros Hct Hids primary comp primary_travel comp_travel higher_tier.
  assert (Hid : forall level c, StreamProcessor.first_of_level level capacity_events = Some c ->
                                nonempty (Capacity.hospital_id c) = true).
  { intros level c Hf. apply List.find_some in Hf as [Hin _].
    rewrite List.Forall_forall in Hids. specialize (Hids c Hin).
    destruct (Capacity.hospital_id c); [congruence | reflexivity]. }
  unfold StreamProcessor._choose_hospital.
  fold primary comp primary_travel comp_travel.
  assert (Hdec : (Request.ems_suspected_lvo request
                  && truthy_str (Capacity.hospital_id <$> comp) && truthy comp_travel
                  && match primary_travel, comp_travel with
                     | None, _ => true
                     | Some pt, Some ct => ct <=? pt + 15
                     | Some _, None => false
                     end = true) <-> higher_tier).
  { subst higher_tier. rewrite !andb_true_iff. split.
    - intros [[[Hl Hc] Ht] Hw]. split; [exact Hl |].
      destruct comp as [c |] eqn:Ec; [| discriminate].
      destruct comp_travel as [ct |] eqn:Et; [| discriminate].
      exists c, ct. repeat split.
      destruct primary_travel as [pt |]; [| auto].
      right. exists pt. split; [reflexivity | lia].
    - intros [Hl (c & ct & Ec & Et & Hw)]. rewrite Ec, Et. simpl.
      repeat split; try assumption.
      + apply (Hid "COMPREHENSIVE"%string). exact Ec.
      + destruct (Z.eqb_spec ct 0); [| reflexivity]. subst ct.
        exfalso. apply Hct. exact Et.
      + destruct Hw as [-> | (pt & -> & Hle)]; [reflexivity | lia]. }
  destruct (_ && _ && _ && _) eqn:Hb.
  - split; [reflexivity |]. split; intros Hn; exfalso; apply Hn, Hdec; reflexivity.
  - split; [intros Hh; apply Hdec in Hh; discriminate |].
    split; intros _.
    + intros c Hc. rewrite Hc. simpl.
      rewrite (Hid "PRIMARY"%string c) by exact Hc. reflexivity.
    + intros ->. reflexivity.
Qed.

(** ** The processor's run loop *)

Section ProcessorFacts.
Import StreamProcessor ProcessorSpec.
Context (fromisoformat : string -> option datetime).
Context (timestamp : datetime -> Q).
Context (predict_with_vertex_ai : Request.AiPredictionRequest -> Q * Q).

Local Abbreviation _minutes_between := (StreamProcessor._minutes_between fromisoformat).
Local Abbreviation _build_prediction_request :=
  (StreamProcessor._build_prediction_request fromisoformat).
Local Abbreviation prediction_for :=
  (StreamProcessor.prediction_for fromisoformat timestamp predict_with_vertex_ai).
Local Abbreviation _process_case :=
  (StreamProcessor._process_case fromisoformat timestamp predict_with_vertex_ai).
Local Abbreviation process :=
  (StreamProcessor.process fromisoformat timestamp predict_with_vertex_ai).
Local Abbreviation handle_message :=
  (StreamProcessor.handle_message fromisoformat timestamp predict_with_vertex_ai).
Local Abbreviation run_step :=
  (StreamProcessor.run_step fromisoformat timestamp predict_with_vertex_ai).
Local Abbreviation run :=
  (StreamProcessor.run fromisoformat timestamp predict_with_vertex_ai).

(** With a FAST exam at hand a request is built unless a subtraction of
    timestamps raises, and whether one does has nothing to do with the
    capacity events. *)
Lemma build_prediction_request_cases v f capacity_events :
  (exists request,
     _build_prediction_request v (Some f) capacity_events = Returns (Some request)) \/
  _build_prediction_request v (Some f) capacity_events = TypeError.
Proof.
  unfold StreamProcessor._build_prediction_request.
  destruct (_minutes_between _ _); [| right; reflexivity].
  destruct (_minutes_between _ _); [| right; reflexivity].
  left. eexists. reflexivity.
Qed.

Lemma build_prediction_request_raises v f capacity_events capacity_events' :
  _build_prediction_request v (Some f) capacity_events = TypeError ->
  _build_prediction_request v (Some f) capacity_events' = TypeError.
Proof.
  unfold StreamProcessor._build_prediction_request.
  destruct (_minutes_between _ _); [| reflexivity].
  destruct (_minutes_between _ _); [discriminate | reflexivity].
Qed.

(** A call of [_process_case] evaluates the case, when it is not marked as
    processed and has both a reading and a FAST exam, unless the building of
    the request raises; otherwise it does nothing. *)
Lemma process_cases p c :
  ((c ∉ processed_cases p) /\
   exists v f,
     latest_vitals p !! c = Some v /\ latest_fast_exam p !! c = Some f /\
     ((exists request,
         _build_prediction_request v (Some f) (latest_capacity p)
         = Returns (Some request) /\
         process p c
         = (set_processed_cases ({[c]} ∪ processed_cases p)
              (_publish_prediction p (prediction_for p c v request)), false)) \/
      (_build_prediction_request v (Some f) (latest_capacity p) = TypeError /\
       process p c = (p, true)))) \/
  (((c ∈ processed_cases p) \/ latest_vitals p !! c = None \/
    latest_fast_exam p !! c = None) /\
   process p c = (p, false)).
Proof.
  unfold StreamProcessor.process, StreamProcessor._process_case.
  case_bool_decide as Hc; [right; auto |].
  destruct (latest_vitals p !! c) as [v |] eqn:Hv; [| right; auto].
  destruct (latest_fast_exam p !! c) as [f |] eqn:Hf; [| right; auto].
  left. split; [exact Hc |]. exists v, f. split; [reflexivity |]. split; [reflexivity |].
  destruct (build_prediction_request_cases v f (latest_capacity p)) as [[request E] | E];
    rewrite E; [left; exists request | right]; auto.
Qed.

(** Calling [_process_case] again after it returned changes nothing. *)
Lemma process_twice p c p' :
  process p c = (p', false) -> process p' c = (p', false).
Proof.
  intros E.
  destruct (process_cases p c)
    as [(_ & v & f & _ & _ & [(request & _ & E') | (_ & E')]) | [H E']];
    rewrite E' in E; [| discriminate |]; injection E as <-.
  - destruct (process_cases (set_processed_cases ({[c]} ∪ processed_cases p)
                               (_publish_prediction p (prediction_for p c v request))) c)
      as [(Hn & _) | [_ E'']]; [| exact E''].
    exfalso. apply Hn. simpl. set_solver.
  - exact E'.
Qed.

(** A reading is stored, the case is taken out of the processed set, and
    [_process_case] is called once. *)
Lemma handle_reading p v :
  let c := Vitals.case_id v in
  handle_message p "ems.vitals.raw" (VitalsJson v)
  = process (set_processed_cases (processed_cases p ∖ {[c]})
               (set_latest_vitals (<[c := v]> (latest_vitals p)) p)) c.
Proof.
  intros c. unfold StreamProcessor.handle_message.
  change (String.eqb "ems.vitals.raw" "ems.vitals.raw") with true.
  cbn iota. unfold _parse_vitals_event. fold c. cbv zeta.
  case_bool_decide as Hc; [reflexivity |]. f_equal.
  unfold set_processed_cases, set_latest_vitals. simpl. f_equal.
  apply set_eq. intros x. rewrite elem_of_difference, elem_of_singleton.
  split; [| tauto]. intros Hx. split; [exact Hx | congruence].
Qed.

(** A FAST exam is stored and [_process_case] is called: a second call,
    which the loop makes when the first returned, changes nothing. *)
Lemma handle_screening p f :
  let c := FastExam.case_id f in
  handle_message p "ems.fast.exam" (FastExamJson f)
  = process (set_latest_fast_exam (<[c := f]> (latest_fast_exam p)) p) c.
Proof.
  intros c. unfold StreamProcessor.handle_message.
  change (String.eqb "ems.fast.exam" "ems.vitals.raw") with false.
  change (String.eqb "ems.fast.exam" "ems.fast.exam") with true.
  cbn iota. unfold _parse_fast_exam_event. fold c. cbv zeta.
  set (p1 := set_latest_fast_exam (<[c:=f]> (latest_fast_exam p)) p).
  case_bool_decide as Hc.
  - destruct (process p1 c) as [p2 raised] eqn:E.
    destruct raised; [reflexivity |].
    destruct (nonempty c); [| reflexivity]. apply (process_twice _ _ _ E).
  - destruct (nonempty c); [reflexivity |].
    destruct (process_cases p1 c) as [(_ & v & _ & Hv & _) | [_ E]]; [| congruence].
    exfalso. apply Hc. apply elem_of_dom. eauto.
Qed.

(** The four kinds of poll. *)
Lemma polled_kinds (msg : Polled) :
  (exists v, msg = reading v) \/ (exists f, msg = screening f) \/
  (exists c, msg = capacity_snapshot c) \/
  ((forall v, msg <> reading v) /\ (forall f, msg <> screening f) /\
   (forall c, msg <> capacity_snapshot c)).
Proof.
  unfold reading, screening, capacity_snapshot.
  destruct msg as [| | topic value];
    [right; right; right; repeat split; discriminate .. |].
  destruct (String.eqb_spec topic "ems.vitals.raw") as [-> | Hv].
  { destruct value; [left; eauto | right; right; right; repeat split; intros; congruence ..]. }
  destruct (String.eqb_spec topic "ems.fast.exam") as [-> | Hf].
  { destruct value; [| right; left; eauto | ..];
      right; right; right; repeat split; intros; congruence. }
  destruct (String.eqb_spec topic "hospital.capacity") as [-> | Hc].
  { destruct value; [| | right; right; left; eauto |];
      right; right; right; repeat split; intros; congruence. }
  right; right; right; repeat split; intros; congruence.
Qed.

(** ** One turn of a running loop *)

Lemma run_step_stopped loop turn : stopped loop = true -> run_step loop turn = loop.
Proof. intros H. unfold StreamProcessor.run_step. rewrite H. reflexivity. Qed.

Lemma run_step_reading loop v d :
  stopped loop = false ->
  let c := Vitals.case_id v in
  (self (run_step loop (reading v, d)), stopped (run_step loop (reading v, d)))
  = process (set_processed_cases (processed_cases (self loop) ∖ {[c]})
               (set_latest_vitals (<[c := v]> (latest_vitals (self loop))) (self loop))) c.
Proof.
  intros H c. unfold StreamProcessor.run_step, reading. rewrite H. cbn [fst].
  rewrite handle_reading. fold c. destruct (process _ c). reflexivity.
Qed.

Lemma run_step_screening loop f d :
  stopped loop = false ->
  let c := FastExam.case_id f in
  (self (run_step loop (screening f, d)), stopped (run_step loop (screening f, d)))
  = process (set_latest_fast_exam (<[c := f]> (latest_fast_exam (self loop))) (self loop)) c.
Proof.
  intros H c. unfold StreamProcessor.run_step, screening. rewrite H. cbn [fst].
  rewrite handle_screening. fold c. destruct (process _ c). reflexivity.
Qed.

Lemma run_step_capacity loop c d :
  stopped loop = false ->
  self (run_step loop (capacity_snapshot c, d))
  = set_latest_capacity
      (List.filter (fun c' => negb (String.eqb (Capacity.hospital_id c')
                                               (Capacity.hospital_id c)))
                   (latest_capacity (self loop)) ++ [c]) (self loop) /\
  stopped (run_step loop (capacity_snapshot c, d)) = false.
Proof.
  intros H. unfold StreamProcessor.run_step, capacity_snapshot. rewrite H. split; reflexivity.
Qed.

Lemma handle_unusable p topic value :
  (forall v, Message topic value <> reading v) ->
  (forall f, Message topic value <> screening f) ->
  (forall c, Message topic value <> capacity_snapshot c) ->
  handle_message p topic value = (p, false).
Proof.
  intros Hr Hs Hc. unfold StreamProcessor.handle_message.
  destruct (String.eqb_spec topic "ems.vitals.raw") as [-> |].
  { destruct value; simpl; auto. exfalso. eapply Hr. reflexivity. }
  destruct (String.eqb_spec topic "ems.fast.exam") as [-> |].
  { destruct value; simpl; auto. exfalso. eapply Hs. reflexivity. }
  destruct (String.eqb_spec topic "hospital.capacity") as [-> |]; [| reflexivity].
  destruct value; simpl; auto. exfalso. eapply Hc. reflexivity.
Qed.

Lemma run_step_unusable loop msg d :
  (forall v, msg <> reading v) -> (forall f, msg <> screening f) ->
  (forall c, msg <> capacity_snapshot c) ->
  self (run_step loop (msg, d)) = self loop /\
  stopped (run_step loop (msg, d)) = stopped loop.
Proof.
  intros Hr Hs Hc. unfold StreamProcessor.run_step.
  destruct (stopped loop) eqn:H; [rewrite H; auto |].
  destruct msg as [| | topic value]; cbn [fst]; [rewrite H; auto .. |].
  rewrite (handle_unusable _ _ _ Hr Hs Hc). auto.
Qed.

Lemma run_snoc loop turns turn : run loop (turns ++ [turn]) = run_step (run loop turns) turn.
Proof. unfold StreamProcessor.run. apply foldl_snoc. Qed.

Lemma run_app loop turns turns' : run loop (turns ++ turns') = run (run loop turns) turns'.
Proof. unfold StreamProcessor.run. apply foldl_app. Qed.

Lemma run_stopped loop turns : stopped loop = true -> run loop turns = loop.
Proof.
  intros H. induction turns as [| turn turns IH] using rev_ind; [reflexivity |].
  rewrite run_snoc, IH. apply run_step_stopped. exact H.
Qed.

(** A loop that is running has been running all along. *)
Lemma run_running loop turns turns' :
  stopped (run loop (turns ++ turns')) = false -> stopped (run loop turns) = false.
Proof.
  rewrite run_app. destruct (stopped (run loop turns)) eqn:H; [| reflexivity].
  rewrite (run_stopped _ _ H). congruence.
Qed.

(** ** What every run keeps *)

Lemma evaluated_published p p' c :
  published p' = published p -> evaluated p' c <-> evaluated p c.
Proof. unfold evaluated. intros ->. reflexivity. Qed.

Lemma evaluated_snoc p p' prediction c :
  published p' = published p ++ [prediction] ->
  evaluated p' c <-> evaluated p c \/ Response.case_id prediction = c.
Proof.
  unfold evaluated. intros ->. split.
  - intros (x & Hx & Hc). apply elem_of_app in Hx as [Hx | Hx]; [left; eauto |].
    apply list_elem_of_singleton in Hx. subst x. auto.
  - intros [(x & Hx & Hc) | Hc].
    + exists x. split; [apply elem_of_app; auto | exact Hc].
    + exists prediction. split; [apply elem_of_app; right; apply list_elem_of_singleton |];
        auto.
Qed.

Lemma consistent_weaken msgs msgs' p :
  (forall msg, msg ∈ msgs -> msg ∈ msgs') -> consistent msgs p -> consistent msgs' p.
Proof.
  intros Hsub [Iv If Id Ie]. split; [| | exact Id | exact Ie].
  - intros c v H. destruct (Iv c v H). auto.
  - intros c f H. destruct (If c f H). auto.
Qed.

Lemma consistent_process msgs q c q' raised :
  consistent msgs q -> process q c = (q', raised) -> consistent msgs q'.
Proof.
  intros [Iv If Id Ie] E.
  destruct (process_cases q c)
    as [(Hn & v & f & Hv & Hf & [(request & _ & E') | (_ & E')]) | [_ E']];
    rewrite E' in E; injection E as <- <-; [| split; assumption ..].
  set (prediction := prediction_for q c v request).
  assert (Hev : forall c', evaluated
                  (set_processed_cases ({[c]} ∪ processed_cases q)
                     (_publish_prediction q prediction)) c'
                <-> evaluated q c' \/ c = c').
  { intros c'. apply (evaluated_snoc q _ prediction). reflexivity. }
  split; simpl.
  - exact Iv.
  - exact If.
  - intros c' H. apply Hev in H as [H | <-]; [apply Id; exact H |].
    rewrite Hv, Hf. eauto.
  - intros c' H. apply Hev. apply elem_of_union in H as [H | H].
    + apply elem_of_singleton in H. auto.
    + left. apply Ie. exact H.
Qed.

Lemma consistent_store_reading msgs p v :
  consistent msgs p ->
  consistent (msgs ++ [reading v])
    (set_processed_cases (processed_cases p ∖ {[Vitals.case_id v]})
       (set_latest_vitals (<[Vitals.case_id v := v]> (latest_vitals p)) p)).
Proof.
  intros [Iv If Id Ie]. split; simpl.
  - intros c v' H. destruct (decide (c = Vitals.case_id v)) as [-> | Hne].
    + rewrite lookup_insert_eq in H. injection H as <-.
      split; [reflexivity | apply elem_of_app; right; apply list_elem_of_singleton; reflexivity].
    + rewrite lookup_insert_ne in H by congruence. destruct (Iv c v' H).
      split; [assumption | apply elem_of_app; auto].
  - intros c f H. destruct (If c f H). split; [assumption | apply elem_of_app; auto].
  - intros c H. apply (evaluated_published p) in H; [| reflexivity].
    destruct (Id c H) as [Hv Hf]. split; [| exact Hf].
    destruct (decide (c = Vitals.case_id v)) as [-> | Hne].
    + rewrite lookup_insert_eq. eauto.
    + rewrite lookup_insert_ne by congruence. exact Hv.
  - intros c H. apply elem_of_difference in H as [H _].
    apply (evaluated_published p); [reflexivity | apply Ie; exact H].
Qed.

Lemma consistent_store_screening msgs p f :
  consistent msgs p ->
  consistent (msgs ++ [screening f])
    (set_latest_fast_exam (<[FastExam.case_id f := f]> (latest_fast_exam p)) p).
Proof.
  intros [Iv If Id Ie]. split; simpl.
  - intros c v H. destruct (Iv c v H). split; [assumption | apply elem_of_app; auto].
  - intros c f' H. destruct (decide (c = FastExam.case_id f)) as [-> | Hne].
    + rewrite lookup_insert_eq in H. injection H as <-.
      split; [reflexivity | apply elem_of_app; right; apply list_elem_of_singleton; reflexivity].
    + rewrite lookup_insert_ne in H by congruence. destruct (If c f' H).
      split; [assumption | apply elem_of_app; auto].
  - intros c H. apply (evaluated_published p) in H; [| reflexivity].
    destruct (Id c H) as [Hv Hf]. split; [exact Hv |].
    destruct (decide (c = FastExam.case_id f)) as [-> | Hne].
    + rewrite lookup_insert_eq. eauto.
    + rewrite lookup_insert_ne by congruence. exact Hf.
  - intros c H. apply (evaluated_published p); [reflexivity | apply Ie; exact H].
Qed.

Lemma consistent_init : consistent [] StreamProcessor.__init__.
Proof.
  split; simpl.
  - intros c v H. rewrite lookup_empty in H. discriminate.
  - intros c f H. rewrite lookup_empty in H. discriminate.
  - intros c (prediction & H & _). apply elem_of_nil in H. contradiction.
  - intros c H. apply elem_of_empty in H. contradiction.
Qed.

(** The invariant of the run loop, stopped or not. *)
Lemma consistent_run turns : consistent turns.*1 (self (run main turns)).
Proof.
  induction turns as [| [msg d] turns IH] using rev_ind; [exact consistent_init |].
  rewrite run_snoc, fmap_app. cbn [fmap list_fmap fst].
  set (loop := run main turns) in *.
  assert (Hweak : forall m, m ∈ turns.*1 -> m ∈ turns.*1 ++ [msg])
    by (intros m Hm; apply elem_of_app; auto).
  destruct (stopped loop) eqn:Hrun.
  { rewrite run_step_stopped by exact Hrun. exact (consistent_weaken _ _ _ Hweak IH). }
  destruct (polled_kinds msg) as [[v ->] | [[f ->] | [[c ->] | (Hr & Hs & Hc)]]].
  - pose proof (run_step_reading loop v d Hrun) as E. cbv zeta in E.
    apply (consistent_process _ _ _ _ _ (consistent_store_reading _ _ v IH) (eq_sym E)).
  - pose proof (run_step_screening loop f d Hrun) as E. cbv zeta in E.
    apply (consistent_process _ _ _ _ _ (consistent_store_screening _ _ f IH) (eq_sym E)).
  - destruct (run_step_capacity loop c d Hrun) as [-> _].
    destruct (consistent_weaken _ _ _ Hweak IH) as [Iv If Id Ie]. split; assumption.
  - destruct (run_step_unusable loop msg d Hr Hs Hc) as [-> _].
    exact (consistent_weaken _ _ _ Hweak IH).
Qed.

(** ** What a running loop keeps besides *)

Lemma up_to_date_init : up_to_date [] StreamProcessor.__init__.
Proof.
  split; simpl.
  - intros v H. apply elem_of_nil in H. contradiction.
  - intros f H. apply elem_of_nil in H. contradiction.
  - intros c [v H]. rewrite lookup_empty in H. discriminate.
Qed.

Lemma up_to_date_reading msgs p v q' :
  up_to_date msgs p ->
  process (set_processed_cases (processed_cases p ∖ {[Vitals.case_id v]})
             (set_latest_vitals (<[Vitals.case_id v := v]> (latest_vitals p)) p))
          (Vitals.case_id v) = (q', false) ->
  up_to_date (msgs ++ [reading v]) q'.
Proof.
  intros [Ur Us Up] E. set (c := Vitals.case_id v) in *.
  set (q := set_processed_cases _ _) in E.
  assert (Hq : latest_vitals q' = <[c := v]> (latest_vitals p) /\
               latest_fast_exam q' = latest_fast_exam p /\
               (is_Some (latest_fast_exam p !! c) -> c ∈ processed_cases q') /\
               (forall c', c' <> c -> c' ∈ processed_cases p -> c' ∈ processed_cases q')).
  { destruct (process_cases q c)
      as [(Hn & v' & f & Hv & Hf & [(request & _ & E') | (_ & E')]) | [H E']];
      rewrite E' in E; [| discriminate |]; injection E as <-; simpl.
    - repeat split; [set_solver | intros c' Hne Hc'; set_solver].
    - repeat split.
      + intros Hsome. exfalso. destruct H as [H | [H | H]].
        * simpl in H. apply elem_of_difference in H as [_ H].
          apply H, elem_of_singleton. reflexivity.
        * simpl in H. rewrite lookup_insert_eq in H. discriminate.
        * simpl in H. rewrite H in Hsome. destruct Hsome as [x Hx]. discriminate.
      + intros c' Hne Hc'. set_solver. }
  destruct Hq as (Hv & Hf & Hc & Hother). split.
  - intros v' H. rewrite Hv. apply elem_of_app in H as [H | H].
    + destruct (decide (Vitals.case_id v' = c)) as [-> | Hne].
      * rewrite lookup_insert_eq. eauto.
      * rewrite lookup_insert_ne by congruence. apply Ur. exact H.
    + apply list_elem_of_singleton in H. injection H as ->. fold c.
      rewrite lookup_insert_eq. eauto.
  - intros f H. rewrite Hf. apply elem_of_app in H as [H | H]; [apply Us; exact H |].
    apply list_elem_of_singleton in H. discriminate.
  - intros c' H1 H2. rewrite Hf in H2. destruct (decide (c' = c)) as [-> | Hne].
    + apply Hc. exact H2.
    + apply Hother; [exact Hne |]. apply Up; [| exact H2].
      rewrite Hv, lookup_insert_ne in H1 by congruence. exact H1.
Qed.

Lemma up_to_date_screening msgs p f q' :
  up_to_date msgs p ->
  process (set_latest_fast_exam (<[FastExam.case_id f := f]> (latest_fast_exam p)) p)
          (FastExam.case_id f) = (q', false) ->
  up_to_date (msgs ++ [screening f]) q'.
Proof.
  intros [Ur Us Up] E. set (c := FastExam.case_id f) in *.
  set (q := set_latest_fast_exam _ _) in E.
  assert (Hq : latest_vitals q' = latest_vitals p /\
               latest_fast_exam q' = <[c := f]> (latest_fast_exam p) /\
               (is_Some (latest_vitals p !! c) -> c ∈ processed_cases q') /\
               (forall c', c' ∈ processed_cases p -> c' ∈ processed_cases q')).
  { destruct (process_cases q c)
      as [(Hn & v' & f' & Hv & Hf & [(request & _ & E') | (_ & E')]) | [H E']];
      rewrite E' in E; [| discriminate |]; injection E as <-; simpl.
    - repeat split; [set_solver | intros c' Hc'; set_solver].
    - repeat split; [| auto].
      intros Hsome. destruct H as [H | [H | H]].
      * exact H.
      * simpl in H. rewrite H in Hsome. destruct Hsome as [x Hx]. discriminate.
      * simpl in H. rewrite lookup_insert_eq in H. discriminate. }
  destruct Hq as (Hv & Hf & Hc & Hother). split.
  - intros v H. rewrite Hv. apply elem_of_app in H as [H | H]; [apply Ur; exact H |].
    apply list_elem_of_singleton in H. discriminate.
  - intros f' H. rewrite Hf. apply elem_of_app in H as [H | H].
    + destruct (decide (FastExam.case_id f' = c)) as [-> | Hne].
      * rewrite lookup_insert_eq. eauto.
      * rewrite lookup_insert_ne by congruence. apply Us. exact H.
    + apply list_elem_of_singleton in H. injection H as ->. fold c.
      rewrite lookup_insert_eq. eauto.
  - intros c' H1 H2. rewrite Hv in H1. destruct (decide (c' = c)) as [-> | Hne].
    + apply Hc. exact H1.
    + apply Hother. apply Up; [exact H1 |].
      rewrite Hf, lookup_insert_ne in H2 by congruence. exact H2.
Qed.

Lemma up_to_date_other msgs p msg :
  (forall v, msg <> reading v) -> (forall f, msg <> screening f) ->
  up_to_date msgs p -> up_to_date (msgs ++ [msg]) p.
Proof.
  intros Hr Hs [Ur Us Up]. split; [| | exact Up].
  - intros v H. apply elem_of_app in H as [H | H]; [apply Ur; exact H |].
    apply list_elem_of_singleton in H. exfalso. apply (Hr v). auto.
  - intros f H. apply elem_of_app in H as [H | H]; [apply Us; exact H |].
    apply list_elem_of_singleton in H. exfalso. apply (Hs f). auto.
Qed.

Lemma up_to_date_run turns :
  stopped (run main turns) = false -> up_to_date turns.*1 (self (run main turns)).
Proof.
  induction turns as [| [msg d] turns IH] using rev_ind; [intros _; exact up_to_date_init |].
  intros Hlast. pose proof (run_running _ _ _ Hlast) as Hrun. specialize (IH Hrun).
  rewrite run_snoc in Hlast |- *. rewrite fmap_app. cbn [fmap list_fmap fst].
  set (loop := run main turns) in *.
  destruct (polled_kinds msg) as [[v ->] | [[f ->] | [[c ->] | (Hr & Hs & Hc)]]].
  - pose proof (run_step_reading loop v d Hrun) as E. cbv zeta in E.
    rewrite Hlast in E. apply (up_to_date_reading _ _ _ _ IH (eq_sym E)).
  - pose proof (run_step_screening loop f d Hrun) as E. cbv zeta in E.
    rewrite Hlast in E. apply (up_to_date_screening _ _ _ _ IH (eq_sym E)).
  - destruct (run_step_capacity loop c d Hrun) as [-> _].
    destruct (up_to_date_other _ _ (capacity_snapshot c)
                ltac:(discriminate) ltac:(discriminate) IH) as [Ur Us Up].
    split; assumption.
  - destruct (run_step_unusable loop msg d Hr Hs Hc) as [-> _].
    exact (up_to_date_other _ _ _ Hr Hs IH).
Qed.

(** ** What no turn touches *)

Lemma process_frame q c q' raised :
  process q c = (q', raised) ->
  latest_vitals q' = latest_vitals q /\ latest_fast_exam q' = latest_fast_exam q /\
  latest_capacity q' = latest_capacity q /\ trend_analyzer q' = trend_analyzer q.
Proof.
  intros E.
  destruct (process_cases q c)
    as [(_ & v & f & _ & _ & [(request & _ & E') | (_ & E')]) | [_ E']];
    rewrite E' in E; injection E as <- <-; auto.
Qed.

Lemma run_step_trend_analyzer loop turn :
  trend_analyzer (self (run_step loop turn)) = trend_analyzer (self loop).
Proof.
  destruct (stopped loop) eqn:Hrun; [rewrite run_step_stopped by exact Hrun; reflexivity |].
  destruct turn as [msg d].
  destruct (polled_kinds msg) as [[v ->] | [[f ->] | [[c ->] | (Hr & Hs & Hc)]]].
  - pose proof (run_step_reading loop v d Hrun) as E. cbv zeta in E.
    apply eq_sym, process_frame in E as (_ & _ & _ & ->). reflexivity.
  - pose proof (run_step_screening loop f d Hrun) as E. cbv zeta in E.
    apply eq_sym, process_frame in E as (_ & _ & _ & ->). reflexivity.
  - destruct (run_step_capacity loop c d Hrun) as [-> _]. reflexivity.
  - destruct (run_step_unusable loop msg d Hr Hs Hc) as [-> _]. reflexivity.
Qed.

(** [run] never calls [add_vital_snapshot]: the trend history stays as
    [__init__] made it. *)
Lemma run_trend_history turns c :
  TrendAnalyzer.vital_history (trend_analyzer (self (run main turns))) !! c = None.
Proof.
  induction turns as [| turn turns IH] using rev_ind; [apply lookup_empty |].
  rewrite run_snoc, run_step_trend_analyzer. exact IH.
Qed.

Lemma run_step_reading_stored loop v d :
  stopped loop = false ->
  latest_vitals (self (run_step loop (reading v, d))) !! Vitals.case_id v = Some v.
Proof.
  intros Hrun. pose proof (run_step_reading loop v d Hrun) as E. cbv zeta in E.
  apply eq_sym, process_frame in E as (-> & _). simpl. apply lookup_insert_eq.
Qed.

(** C1, against the code.  Ingesting a reading replaces the case's current
    reading (in a loop that is still running), but [run] never hands the
    reading to the trend analyzer ([add_vital_snapshot] is not called
    anywhere): after any sequence of polls followed by a reading, the trend
    history of every case, that of the reading included, is still absent. *)
Theorem run_overwrites_reading_but_never_feeds_trend_history
    (turns : list (Polled * Delivery.t)) (v : Vitals.EmsVitalsEvent) (d : Delivery.t) :
  let loop := run main (turns ++ [(reading v, d)]) in
  (stopped (run main turns) = false ->
   latest_vitals (self loop) !! Vitals.case_id v = Some v) /\
  forall c, TrendAnalyzer.vital_history (trend_analyzer (self loop)) !! c = None.
Proof.
  intros loop. subst loop. split; [| intros c; apply run_trend_history].
  intros Hrun. rewrite run_snoc. apply run_step_reading_stored. exact Hrun.
Qed.

(** ** Capacity snapshots do not decide what is evaluated *)

Lemma as_capacity_some msg c : as_capacity msg = Some c -> msg = capacity_snapshot c.
Proof.
  unfold as_capacity, capacity_snapshot. destruct msg as [| | topic value]; try discriminate.
  destruct value; try discriminate.
  destruct (String.eqb_spec topic "hospital.capacity") as [-> |]; [| discriminate].
  intros H. injection H as ->. reflexivity.
Qed.

Lemma as_capacity_snapshot c : as_capacity (capacity_snapshot c) = Some c.
Proof. reflexivity. Qed.

Lemma without_capacity_snoc turns turn :
  without_capacity (turns ++ [turn])
  = without_capacity turns
    ++ match as_capacity turn.1 with Some _ => [] | None => [turn] end.
Proof.
  unfold without_capacity. rewrite List.filter_app. f_equal. simpl.
  destruct (as_capacity turn.1); reflexivity.
Qed.

Lemma process_same q q' c :
  same_but_capacity q q' ->
  (process q c).2 = (process q' c).2 /\
  same_but_capacity (process q c).1 (process q' c).1.
Proof.
  intros [Hv Hf Hp He]. unfold StreamProcessor.process, StreamProcessor._process_case.
  rewrite <- Hp, <- Hv, <- Hf.
  case_bool_decide as Hc; [split; [reflexivity | split; assumption] |].
  destruct (latest_vitals q !! c) as [v |]; [| split; [reflexivity | split; assumption]].
  destruct (latest_fast_exam q !! c) as [f |]; [| split; [reflexivity | split; assumption]].
  destruct (build_prediction_request_cases v f (latest_capacity q)) as [[request E] | E];
    rewrite E.
  - destruct (build_prediction_request_cases v f (latest_capacity q')) as [[request' E'] | E'].
    + rewrite E'. split; [reflexivity |]. split; simpl; try congruence.
      unfold evaluations. simpl. rewrite !fmap_app. f_equal. exact He.
    + apply (build_prediction_request_raises _ _ _ (latest_capacity q)) in E'. congruence.
  - rewrite (build_prediction_request_raises _ _ _ (latest_capacity q') E).
    split; [reflexivity | split; assumption].
Qed.

(** Leaving the capacity snapshots out of a run changes neither which cases
    are evaluated, nor from which readings, nor whether the loop stops. *)
Lemma run_without_capacity turns :
  stopped (run main turns) = stopped (run main (without_capacity turns)) /\
  same_but_capacity (self (run main turns)) (self (run main (without_capacity turns))).
Proof.
  induction turns as [| [msg d] turns [IHs IH]] using rev_ind.
  { split; [reflexivity | split; reflexivity]. }
  rewrite without_capacity_snoc, run_snoc. cbn [fst].
  set (loop := run main turns) in *. set (loop' := run main (without_capacity turns)) in *.
  destruct (stopped loop) eqn:Hrun.
  { rewrite run_step_stopped by exact Hrun.
    rewrite (run_app main), (run_stopped loop') by (symmetry; exact IHs).
    rewrite Hrun. auto. }
  symmetry in IHs.
  destruct (polled_kinds msg) as [[v ->] | [[f ->] | [[c ->] | (Hr & Hs & Hc)]]].
  - change (as_capacity (reading v)) with (@None Capacity.HospitalCapacityEvent).
    cbv iota. rewrite run_snoc.
    pose proof (run_step_reading loop v d Hrun) as E. cbv zeta in E.
    pose proof (run_step_reading loop' v d IHs) as E'. cbv zeta in E'.
    set (c := Vitals.case_id v) in *.
    destruct (process_same
                (set_processed_cases (processed_cases (self loop) ∖ {[c]})
                   (set_latest_vitals (<[c := v]> (latest_vitals (self loop))) (self loop)))
                (set_processed_cases (processed_cases (self loop') ∖ {[c]})
                   (set_latest_vitals (<[c := v]> (latest_vitals (self loop'))) (self loop')))
                c) as [Hs Hp].
    { destruct IH as [Hv Hf Hp He].
      split; [simpl; rewrite Hv; reflexivity | exact Hf | simpl; rewrite Hp; reflexivity
             | exact He]. }
    rewrite <- E, <- E' in Hs, Hp. auto.
  - change (as_capacity (screening f)) with (@None Capacity.HospitalCapacityEvent).
    cbv iota. rewrite run_snoc.
    pose proof (run_step_screening loop f d Hrun) as E. cbv zeta in E.
    pose proof (run_step_screening loop' f d IHs) as E'. cbv zeta in E'.
    set (c := FastExam.case_id f) in *.
    destruct (process_same
                (set_latest_fast_exam (<[c := f]> (latest_fast_exam (self loop))) (self loop))
                (set_latest_fast_exam (<[c := f]> (latest_fast_exam (self loop'))) (self loop'))
                c) as [Hs Hp].
    { destruct IH as [Hv Hf Hp He].
      split; [exact Hv | simpl; rewrite Hf; reflexivity | exact Hp | exact He]. }
    rewrite <- E, <- E' in Hs, Hp. auto.
  - rewrite as_capacity_snapshot, app_nil_r.
    destruct (run_step_capacity loop c d Hrun) as [-> ->].
    split; [symmetry; exact IHs |].
    destruct IH as [Hv Hf Hp He]. split; [exact Hv | exact Hf | exact Hp | exact He].
  - assert (Hnone : as_capacity msg = None).
    { destruct (as_capacity msg) as [c |] eqn:E; [| reflexivity].
      apply as_capacity_some in E. exfalso. apply (Hc c E). }
    rewrite Hnone. cbv iota. rewrite run_snoc. fold loop'.
    destruct (run_step_unusable loop msg d Hr Hs Hc) as [-> ->].
    destruct (run_step_unusable loop' msg d Hr Hs Hc) as [-> ->].
    split; [rewrite Hrun; symmetry; exact IHs | exact IH].
Qed.

(** A case whose reading and FAST exam have both been polled has been
    evaluated, as long as the loop is running. *)
Lemma seen_both_evaluated turns v f :
  stopped (run main turns) = false ->
  reading v ∈ turns.*1 -> screening f ∈ turns.*1 ->
  Vitals.case_id v = FastExam.case_id f ->
  evaluated (self (run main turns)) (Vitals.case_id v).
Proof.
  intros Hrun Hv Hf Hc.
  destruct (up_to_date_run turns Hrun) as [Ur Us Up].
  destruct (consistent_run turns) as [_ _ _ Ie].
  apply Ie, Up; [apply Ur; exact Hv |]. rewrite Hc. apply Us. exact Hf.
Qed.

(** The data behind a published prediction. *)
Lemma published_has_data turns prediction :
  prediction ∈ published (self (run main turns)) ->
  (exists v, latest_vitals (self (run main turns)) !! Response.case_id prediction = Some v) /\
  (exists f, latest_fast_exam (self (run main turns)) !! Response.case_id prediction
             = Some f) /\
  (exists v, reading v ∈ turns.*1 /\ Vitals.case_id v = Response.case_id prediction) /\
  (exists f, screening f ∈ turns.*1 /\ FastExam.case_id f = Response.case_id prediction).
Proof.
  intros Hin. destruct (consistent_run turns) as [Iv If Id _].
  destruct (Id (Response.case_id prediction)) as [[v Hv] [f Hf]];
    [exists prediction; auto |].
  destruct (Iv _ _ Hv). destruct (If _ _ Hf).
  split; [eauto |]. split; [eauto |]. split; eauto.
Qed.

(** C3. Whatever the polls return, once a prediction for a case has been
    published the case has a current reading and a current FAST exam, both
    taken from messages consumed so far; this holds of every sequence of polls,
    hence of the polls up to any evaluation.  Capacity snapshots are not
    needed, whatever the sequence: without them the same cases are evaluated
    from the same readings in the same order, and the loop stops or goes on as
    it does with them; and while the loop is running, every case whose reading
    and FAST exam have been consumed has been evaluated. *)
Theorem evaluation_needs_reading_and_screening_only (turns : list (Polled * Delivery.t)) :
  let loop := run main turns in
  (forall prediction, prediction ∈ published (self loop) ->
   (exists v, latest_vitals (self loop) !! Response.case_id prediction = Some v) /\
   (exists f, latest_fast_exam (self loop) !! Response.case_id prediction = Some f) /\
   (exists v, reading v ∈ turns.*1 /\ Vitals.case_id v = Response.case_id prediction) /\
   (exists f, screening f ∈ turns.*1 /\ FastExam.case_id f = Response.case_id prediction)) /\
  (evaluations (self loop) = evaluations (self (run main (without_capacity turns))) /\
   stopped loop = stopped (run main (without_capacity turns))) /\
  (stopped loop = false ->
   forall v f, reading v ∈ turns.*1 -> screening f ∈ turns.*1 ->
     Vitals.case_id v = FastExam.case_id f ->
     evaluated (self loop) (Vitals.case_id v)).
Proof.
  intros loop. subst loop. split; [apply published_has_data |]. split.
  - destruct (run_without_capacity turns) as [Hs [_ _ _ He]]. auto.
  - intros Hrun v f. apply seen_both_evaluated. exact Hrun.
Qed.

(** ** What one more message does to a running loop *)

(** In any state a running loop can reach: a reading for a case that has been
    evaluated gives exactly one new prediction, for that case and from that
    reading, within the same turn of the loop, unless the subtraction of its
    timestamp from the FAST exam's raises, in which case the reading is on
    record, nothing is published and the loop is over; a FAST exam gives at
    most one new prediction and only for a case that had not been evaluated;
    a capacity snapshot gives none. *)
Lemma reading_reevaluates_unless_it_raises (turns : list (Polled * Delivery.t)) :
  let loop := run main turns in
  stopped loop = false ->
  (forall v d, evaluated (self loop) (Vitals.case_id v) ->
   let loop' := run_step loop (reading v, d) in
   (stopped loop' = false /\
    exists prediction,
      published (self loop') = published (self loop) ++ [prediction] /\
      Response.case_id prediction = Vitals.case_id v /\
      Response.current_vitals prediction = v) \/
   (stopped loop' = true /\
    published (self loop') = published (self loop) /\
    latest_vitals (self loop') !! Vitals.case_id v = Some v /\
    exists f, latest_fast_exam (self loop) !! Vitals.case_id v = Some f /\
      _build_prediction_request v (Some f) (latest_capacity (self loop)) = TypeError)) /\
  (forall f d, exists new,
     published (self (run_step loop (screening f, d))) = published (self loop) ++ new /\
     (length new <= 1)%nat /\
     forall prediction, prediction ∈ new ->
       Response.case_id prediction = FastExam.case_id f /\
       ~ evaluated (self loop) (Response.case_id prediction)) /\
  (forall c d, published (self (run_step loop (capacity_snapshot c, d)))
               = published (self loop)).
Proof.
  intros loop Hrun.
  destruct (consistent_run turns) as [Iv If Id Ie]. fold loop in Iv, If, Id, Ie.
  destruct (up_to_date_run turns Hrun) as [Ur Us Up]. fold loop in Ur, Us, Up.
  split; [| split].
  - intros v d Hev loop'. destruct (Id _ Hev) as [_ [f Hf]].
    pose proof (run_step_reading loop v d Hrun) as E. cbv zeta in E. fold loop' in E.
    set (c := Vitals.case_id v) in *.
    set (q := set_processed_cases _ _) in E.
    destruct (process_cases q c)
      as [(Hn & v' & f' & Hv' & Hf' & [(request & _ & E') | (Hraise & E')]) | [H E']];
      rewrite E' in E.
    + left. injection E as -> ->. split; [reflexivity |].
      simpl in Hv'. rewrite lookup_insert_eq in Hv'. injection Hv' as <-.
      eexists. split; [reflexivity |]. split; reflexivity.
    + right. injection E as -> ->. split; [reflexivity |]. split; [reflexivity |].
      simpl in Hv', Hf'. rewrite lookup_insert_eq in Hv'. injection Hv' as <-.
      split; [simpl; apply lookup_insert_eq |].
      exists f'. split; [exact Hf' | exact Hraise].
    + exfalso. destruct H as [H | [H | H]]; simpl in H.
      * apply elem_of_difference in H as [_ H]. apply H, elem_of_singleton. reflexivity.
      * rewrite lookup_insert_eq in H. discriminate.
      * congruence.
  - intros f d.
    pose proof (run_step_screening loop f d Hrun) as E. cbv zeta in E.
    set (c := FastExam.case_id f) in *.
    set (q := set_latest_fast_exam _ _) in E.
    destruct (process_cases q c)
      as [(Hn & v' & f' & Hv' & Hf' & [(request & _ & E') | (Hraise & E')]) | [H E']];
      rewrite E' in E; injection E as -> _.
    + eexists [_]. split; [reflexivity |]. split; [simpl; lia |].
      intros x Hx. apply list_elem_of_singleton in Hx. subst x. simpl.
      split; [reflexivity |]. intros Hev. apply Hn. simpl.
      destruct (Id _ Hev) as [Hv Hf]. apply Up; assumption.
    + exists []. rewrite app_nil_r. split; [reflexivity |]. split; [simpl; lia |].
      intros x Hx. apply elem_of_nil in Hx. contradiction.
    + exists []. rewrite app_nil_r. split; [reflexivity |]. split; [simpl; lia |].
      intros x Hx. apply elem_of_nil in Hx. contradiction.
  - intros c d. destruct (run_step_capacity loop c d Hrun) as [-> _]. reflexivity.
Qed.

End ProcessorFacts.
(** ** The trend analyzer *)

Section TrendFacts.
Import TrendAnalyzer TrendSpec.

(** [add_vital_snapshot] keeps a history within a positive
    [max_history_size]: it appends, then keeps the newest entries. *)
Lemma add_vital_snapshot_history ta case_id snapshot :
  0 < max_history_size ta ->
  let appended := default [] (vital_history ta !! case_id) ++ [snapshot] in
  let n := Z.to_nat (max_history_size ta) in
  vital_history (add_vital_snapshot ta case_id snapshot) !! case_id
  = Some (drop (length appended - n) appended) /\
  (length (drop (length appended - n) appended) <= n)%nat.
Proof.
  intros Hpos appended n. unfold add_vital_snapshot. fold appended. simpl.
  rewrite lookup_insert_eq. split; [| rewrite length_drop; lia].
  f_equal. destruct (Z.ltb_spec (max_history_size ta) (Z.of_nat (length appended))).
  - unfold slice_from_neg. destruct (Z.ltb_spec 0 (max_history_size ta)); [reflexivity | lia].
  - replace (length appended - n)%nat with 0%nat by (subst n; lia). reflexivity.
Qed.

(** The direction that [_calculate_rate_and_trend] gives to a rate. *)
Lemma rate_and_trend_direction (values : list (Q * Z)) (rate : Q) :
  (_calculate_rate_and_trend values).1 = Some rate ->
  exists trend,
    (_calculate_rate_and_trend values).2 = Some trend /\
    (trend = stable <-> (Qabs rate < 1 # 10)%Q) /\
    (trend = improving <-> ((1 # 10) <= rate)%Q) /\
    (trend = worsening <-> (rate <= - (1 # 10))%Q).
Proof.
  unfold _calculate_rate_and_trend.
  destruct (length values <? 2)%nat; [discriminate |].
  destruct (Qeq_bool _ 0); [discriminate |].
  cbn [fst snd]. intros [= <-].
  set (r := (inject_Z _ / _)%Q). clearbody r.
  eexists. split; [reflexivity |].
  unfold stable, improving, worsening.
  destruct (Qlt_bool (Qabs r) (1 # 10)) eqn:Hs.
  - apply Qlt_bool_iff in Hs. revert Hs. apply Qabs_case; intros;
      repeat split; intros; try discriminate; try reflexivity; try lra.
  - assert (Hn : ~ (Qabs r < 1 # 10)%Q)
      by (intros H; apply Qlt_bool_iff in H; congruence).
    destruct (Qlt_bool 0 r) eqn:Hp.
    + apply Qlt_bool_iff in Hp. revert Hn. apply Qabs_case; intros;
        repeat split; intros; try discriminate; try reflexivity; try lra; tauto.
    + assert (Hnp : ~ (0 < r)%Q) by (intros H; apply Qlt_bool_iff in H; congruence).
      revert Hn. apply Qabs_case; intros;
        repeat split; intros; try discriminate; try reflexivity; try lra; tauto.
Qed.

(** For each of the four vitals [calculate_trends] stores the rate and the
    direction that one call of [_calculate_rate_and_trend] returns. *)
Lemma calculate_trends_rate_source fromisoformat ta case_id vital rate :
  rate_of vital (calculate_trends fromisoformat ta case_id) = Some rate ->
  exists values,
    (_calculate_rate_and_trend values).1 = Some rate /\
    trend_of vital (calculate_trends fromisoformat ta case_id)
    = (_calculate_rate_and_trend values).2.
Proof.
  unfold calculate_trends.
  destruct (vital_history ta !! case_id) as [history |];
    [| destruct vital; discriminate].
  destruct (length history <? 2)%nat; [destruct vital; discriminate |].
  destruct vital; cbn [rate_of trend_of hr_rate_of_change bp_rate_of_change
                        spo2_rate_of_change gcs_rate_of_change
                        hr_trend bp_trend spo2_trend gcs_trend];
    (match goal with
     | |- (if ?b then _ else _) = _ -> _ => destruct b
     end; [| discriminate]);
    intros H; eexists; (split; [exact H | reflexivity]).
Qed.

Lemma calculate_trends_direction fromisoformat ta case_id vital rate :
  rate_of vital (calculate_trends fromisoformat ta case_id) = Some rate ->
  exists trend,
    trend_of vital (calculate_trends fromisoformat ta case_id) = Some trend /\
    (trend = stable <-> (Qabs rate < 1 # 10)%Q) /\
    (trend = improving <-> ((1 # 10) <= rate)%Q) /\
    (trend = worsening <-> (rate <= - (1 # 10))%Q).
Proof.
  intros H. destruct (calculate_trends_rate_source _ _ _ _ _ H) as (values & Hr & ->).
  apply rate_and_trend_direction. exact Hr.
Qed.

(** The history of the example analyzer, and the features computed from it. *)
Lemma example_history :
  vital_history Examples.analyzer !! "CASE-0001"%string
  = Some [Examples.snapshot_1; Examples.snapshot_2].
Proof. vm_compute. reflexivity. Qed.

Lemma example_features :
  let features := calculate_trends Examples.fromisoformat Examples.analyzer "CASE-0001" in
  (hr_rate_of_change features = Some (300 # 60) /\ hr_trend features = Some improving) /\
  (bp_rate_of_change features = Some (1020 # 60) /\ bp_trend features = Some improving) /\
  (spo2_rate_of_change features = Some (-180 # 60) /\ spo2_trend features = Some worsening) /\
  (gcs_rate_of_change features = Some (-120 # 60) /\ gcs_trend features = Some worsening).
Proof.
  unfold calculate_trends. rewrite example_history.
  cbn -[_calculate_volatility _calculate_recent_change].
  repeat split; vm_compute; reflexivity.
Qed.

(** The rule that [calculate_trends] applies.  For each tracked vital with a
    defined rate the direction is stable exactly when |rate| < 0.1 per minute;
    outside that band the label follows the sign of the rate, by one rule for
    the four vitals: the handling per vital that the comment in
    [_calculate_rate_and_trend] leaves to the calling code is done nowhere. *)
Lemma trend_direction_is_sign_of_rate
    (fromisoformat : string -> option Q) (ta : TrendAnalyzer) (case_id : string)
    (vital : Vital) (rate : Q) :
  rate_of vital (calculate_trends fromisoformat ta case_id) = Some rate ->
  exists trend,
    trend_of vital (calculate_trends fromisoformat ta case_id) = Some trend /\
    (trend = stable <-> (Qabs rate < 1 # 10)%Q) /\
    (trend = improving <-> ((1 # 10) <= rate)%Q) /\
    (trend = worsening <-> (rate <= - (1 # 10))%Q).
Proof. apply calculate_trends_direction. Qed.

(** C9, against the code.  The direction is to depend on the vital, not on
    the raw sign alone, and the field is documented as -1 worsening, 1
    improving.  In the code a heart rate rising from 92 to 97 within a minute
    is labelled improving, like any rising vital, while the oxygen saturation
    falling beside it is labelled worsening; and no two vitals, in whatever
    histories, get different directions for rates on the same side of the
    stable band. *)
Theorem trend_direction_ignores_the_vital :
  (let features := calculate_trends Examples.fromisoformat Examples.analyzer "CASE-0001" in
   rate_of HeartRate features = Some (300 # 60) /\
   trend_of HeartRate features = Some improving /\
   rate_of OxygenSaturation features = Some (-180 # 60) /\
   trend_of OxygenSaturation features = Some worsening) /\
  ~ (exists fromisoformat ta1 ta2 case1 case2 vital1 vital2 rate1 rate2,
       let features1 := calculate_trends fromisoformat ta1 case1 in
       let features2 := calculate_trends fromisoformat ta2 case2 in
       rate_of vital1 features1 = Some rate1 /\
       rate_of vital2 features2 = Some rate2 /\
       same_raw_sign rate1 rate2 /\
       trend_of vital1 features1 <> trend_of vital2 features2).
Proof.
  split.
  - destruct example_features as ((H1 & H2) & _ & (H3 & H4) & _). auto.
  - intros (parse & ta1 & ta2 & c1 & c2 & v1 & v2 & r1 & r2 & H1 & H2 & Hsame & Hne).
    destruct (calculate_trends_direction _ _ _ _ _ H1) as (t1 & E1 & _ & Hi1 & Hw1).
    destruct (calculate_trends_direction _ _ _ _ _ H2) as (t2 & E2 & _ & Hi2 & Hw2).
    apply Hne. rewrite E1, E2. f_equal.
    destruct Hsame as [[Ha Hb] | [Ha Hb]].
    + apply Hi1 in Ha. apply Hi2 in Hb. congruence.
    + apply Hw1 in Ha. apply Hw2 in Hb. congruence.
Qed.

(** [sorted_by_time] rearranges the points in time order, so that the first
    is an earliest and the last a latest one. *)
Lemma insert_by_time_perm x l : insert_by_time x l ≡ₚ x :: l.
Proof.
  induction l as [| y l IH]; simpl; [reflexivity |].
  destruct (Qle_bool x.1 y.1); [reflexivity |].
  rewrite IH. apply Permutation_swap.
Qed.

Lemma sorted_by_time_perm l : sorted_by_time l ≡ₚ l.
Proof.
  induction l as [| x l IH]; simpl; [reflexivity |].
  rewrite insert_by_time_perm, IH. reflexivity.
Qed.

Lemma insert_by_time_sorted x l :
  StronglySorted by_time l -> StronglySorted by_time (insert_by_time x l).
Proof.
  induction 1 as [| y l Hl IH Hy]; simpl; [repeat constructor |].
  destruct (Qle_bool x.1 y.1) eqn:Hle.
  - apply Qle_bool_iff in Hle. constructor; [constructor; assumption |].
    constructor; [exact Hle |].
    eapply Forall_impl; [exact Hy |]. intros z Hz. unfold by_time in *.
    eapply Qle_trans; eassumption.
  - apply Qle_bool_false in Hle. constructor; [exact IH |].
    rewrite insert_by_time_perm. constructor; [| exact Hy].
    unfold by_time. apply Qlt_le_weak. apply Qnot_le_lt. exact Hle.
Qed.

Lemma sorted_by_time_sorted l : StronglySorted by_time (sorted_by_time l).
Proof.
  induction l as [| x l IH]; simpl; [constructor |].
  apply insert_by_time_sorted. exact IH.
Qed.

Lemma strongly_sorted_last (l : list (Q * Z)) d p :
  StronglySorted by_time l -> p ∈ l -> by_time p (List.last l d).
Proof.
  induction 1 as [| y l Hl IH Hy]; intros Hin; [apply elem_of_nil in Hin; contradiction |].
  apply elem_of_cons in Hin as [-> | Hin].
  - destruct l as [| z l]; [unfold by_time; apply Qle_refl |].
    change (List.last (y :: z :: l) d) with (List.last (z :: l) d).
    rewrite Forall_forall in Hy. apply Hy.
    clear. revert z. induction l as [| a l IH]; intros z; [simpl; left |].
    change (List.last (z :: a :: l) d) with (List.last (a :: l) d). right. apply IH.
  - destruct l as [| z l]; [apply elem_of_nil in Hin; contradiction |].
    change (List.last (y :: z :: l) d) with (List.last (z :: l) d). apply IH. exact Hin.
Qed.

(** No point is later than [latest_time]. *)
Lemma latest_time_is_latest (points : list (Q * Z)) p :
  p ∈ points -> (p.1 <= latest_time points)%Q.
Proof.
  intros Hin. unfold latest_time.
  apply (strongly_sorted_last (sorted_by_time points) (0%Q, 0) p).
  - apply sorted_by_time_sorted.
  - rewrite sorted_by_time_perm. exact Hin.
Qed.

(** The recent points are the points at most [window_minutes] old, in time
    order. *)
Lemma recent_points_spec window_minutes (points : list (Q * Z)) p :
  p ∈ recent_points window_minutes points <->
  p ∈ points /\ ((latest_time points - p.1) / 60 <= window_minutes)%Q.
Proof.
  unfold recent_points. rewrite list_elem_of_In, List.filter_In, <- list_elem_of_In.
  rewrite sorted_by_time_perm, Qle_bool_iff. reflexivity.
Qed.

Lemma recent_points_sorted window_minutes (points : list (Q * Z)) :
  StronglySorted by_time (recent_points window_minutes points).
Proof.
  unfold recent_points.
  generalize (sorted_by_time_sorted points).
  generalize (sorted_by_time points). intros l.
  induction 1 as [| y l Hl IH Hy]; simpl; [constructor |].
  destruct (Qle_bool _ _); [| exact IH].
  constructor; [exact IH |].
  rewrite Forall_forall in *. intros z Hz. apply Hy.
  apply list_elem_of_In. apply list_elem_of_In, List.filter_In in Hz. tauto.
Qed.

(** The loop of [_calculate_recent_change] adds up the weights and the
    weighted values. *)
Lemma accumulate_weight_sums latest (points : list (Q * Z)) (acc : R * R) :
  foldl (accumulate_weight latest) acc points
  = ((acc.1 + sumR (List.map (decay_weight latest) points))%R,
     (acc.2 + sumR (List.map (fun p => IZR p.2 * decay_weight latest p) points))%R).
Proof.
  revert acc. induction points as [| p points IH]; intros [a b]; simpl.
  - f_equal; ring.
  - rewrite IH. unfold accumulate_weight, decay_weight. simpl. f_equal; ring.
Qed.

Lemma sum_of_weights_positive latest (points : list (Q * Z)) :
  points <> [] -> (0 < sumR (List.map (decay_weight latest) points))%R.
Proof.
  assert (Hnn : forall l, (0 <= sumR (List.map (decay_weight latest) l))%R).
  { induction l as [| p l IH]; simpl; [lra |].
    pose proof (exp_pos (- Q2R ((latest - p.1) / 60) / 2)) as Hp.
    unfold decay_weight at 1. lra. }
  destruct points as [| p points]; [congruence |]. intros _. simpl.
  pose proof (exp_pos (- Q2R ((latest - p.1) / 60) / 2)) as Hp.
  pose proof (Hnn points). unfold decay_weight at 1. lra.
Qed.

(** [_calculate_recent_change] written out on the points it keeps. *)
Lemma calculate_recent_change_unfold (values : list (Q * Z)) (window_minutes : Q) :
  _calculate_recent_change values window_minutes
  = if (length values <? 2)%nat then None
    else
      let recent := recent_points window_minutes values in
      if (length recent <? 2)%nat then None
      else
        let acc := foldl (accumulate_weight (latest_time values)) (0%R, 0%R) recent in
        if Req_dec_T acc.1 0 then None
        else Some (acc.2 / acc.1 - IZR (hd (0%Q, 0%Z) recent).2)%R.
Proof. reflexivity. Qed.

(** C8, as the code has it.  With at least two points, the recent change is
    taken over the points at most 5 minutes older than the latest one: when at
    least two of them remain, it is their average weighted by
    exp(-ageMinutes / 2), ages counted back from the latest point, minus the
    value of the earliest of them; when fewer than two remain it is
    undefined. *)
Theorem recent_change_over_last_five_minutes (values : list (Q * Z)) :
  (2 <= length values)%nat ->
  let recent := recent_points 5 values in
  ((2 <= length recent)%nat ->
   _calculate_recent_change values 5
   = Some (weighted_average (latest_time values) recent
           - IZR (hd (0%Q, 0%Z) recent).2)%R) /\
  ((length recent < 2)%nat -> _calculate_recent_change values 5 = None).
Proof.
  intros Hlen recent. rewrite calculate_recent_change_unfold. fold recent.
  destruct (Nat.ltb_spec (length values) 2) as [| _]; [lia |].
  cbv zeta. split; intros Hrecent.
  - destruct (Nat.ltb_spec (length recent) 2) as [| _]; [lia |].
    rewrite accumulate_weight_sums. cbn [fst snd].
    assert (Hpos : (0 < sumR (List.map (decay_weight (latest_time values)) recent))%R).
    { apply sum_of_weights_positive. destruct recent; [simpl in Hrecent; lia | discriminate]. }
    destruct (Req_dec_T _ 0) as [E | _]; [rewrite Rplus_0_l in E; lra |].
    unfold weighted_average. rewrite !Rplus_0_l. reflexivity.
  - destruct (Nat.ltb_spec (length recent) 2) as [_ |]; [reflexivity | lia].
Qed.

(** C8, as stated, fails.  Two points ten minutes apart are two timestamped
    points in the window, but only the later one is within 5 minutes of the
    latest: the code gives no value where the claim gives the weighted average
    over both points minus the earlier value. *)
Lemma recent_change_drops_points_older_than_five_minutes :
  (2 <= length Examples.ten_minutes_apart)%nat /\
  _calculate_recent_change Examples.ten_minutes_apart 5 = None /\
  _calculate_recent_change Examples.ten_minutes_apart 5
  <> Some (delta_over_window Examples.ten_minutes_apart).
Proof.
  assert (H : _calculate_recent_change Examples.ten_minutes_apart 5 = None) by reflexivity.
  split; [simpl; lia |]. split; [exact H |]. rewrite H. discriminate.
Qed.

End TrendFacts.

(** ** The theorems above at concrete inputs *)

(** The whole loop on five messages: the case is evaluated when its FAST exam
    arrives, with no center known yet, and again on its second reading. *)
Example demo_run_predictions :
  let loop := Examples.demo_run StreamProcessor.main
                (Examples.turn <$>
                   [ProcessorSpec.reading Examples.first_reading;
                    ProcessorSpec.screening Examples.fast_exam;
                    ProcessorSpec.capacity_snapshot Examples.primary_center;
                    ProcessorSpec.capacity_snapshot Examples.comprehensive_center;
                    ProcessorSpec.reading Examples.second_reading]) in
  StreamProcessor.stopped loop = false /\
  (fun r => (Response.risk_category r, Response.recommended_destination_hospital_id r,
             Response.minutes_since_symptom_onset r))
    <$> StreamProcessor.published (StreamProcessor.self loop)
  = [("HIGH"%string, None, Some 44);
     ("CRITICAL"%string, Some "HOSP-COMP-01"%string, Some 45)].
Proof. vm_compute. split; reflexivity. Qed.

(** The first reading of a run is on record, and the trend history of its
    case is absent. *)
Lemma run_overwrites_reading_but_never_feeds_trend_history_witness :
  let loop := Examples.demo_run StreamProcessor.main
                [Examples.turn (ProcessorSpec.reading Examples.first_reading)] in
  StreamProcessor.stopped (Examples.demo_run StreamProcessor.main []) = false /\
  StreamProcessor.latest_vitals (StreamProcessor.self loop) !! "CASE-0001"
  = Some Examples.first_reading /\
  TrendAnalyzer.vital_history (StreamProcessor.trend_analyzer (StreamProcessor.self loop))
    !! "CASE-0001" = None.
Proof.
  intros loop.
  assert (H : StreamProcessor.stopped (Examples.demo_run StreamProcessor.main []) = false)
    by reflexivity.
  destruct (run_overwrites_reading_but_never_feeds_trend_history
              Examples.datetime_of Examples.timestamp VertexAi._heuristic_predict
              [] Examples.first_reading Examples.delivery) as [Hstored Hhistory].
  split; [exact H |]. split; [exact (Hstored H) | apply Hhistory].
Defined.

(** The tripped breaker thirty seconds after its last failure: two calls
    that succeed close it, a probe that fails reopens it. *)
Lemma open_breaker_probe_then_recovery_witness :
  let b := Examples.tripped in
  let cs := [(130%Q, Examples.service_up); (131%Q, Examples.service_up)] in
  (CircuitBreaker.state b = CircuitBreaker.OPEN /\
   CircuitBreaker.last_failure_time b = Some 100%Q /\
   (CircuitBreaker.timeout (CircuitBreaker.config b) <= Examples.clock 130 - 100)%Q) /\
  CircuitBreaker.state (CircuitBreaker.calls Examples.clock b cs) = CircuitBreaker.CLOSED /\
  CircuitBreaker.state
    (CircuitBreaker.call Examples.clock b Examples.service_down 130%Q).1.1
  = CircuitBreaker.OPEN.
Proof.
  intros b cs.
  assert (H1 : CircuitBreaker.state b = CircuitBreaker.OPEN) by reflexivity.
  assert (H2 : CircuitBreaker.last_failure_time b = Some 100%Q) by reflexivity.
  assert (H3 : (CircuitBreaker.timeout (CircuitBreaker.config b)
                <= Examples.clock 130 - 100)%Q) by (unfold Qle; simpl; lia).
  split; [auto |]. split.
  - destruct (open_breaker_probe_then_recovery Examples.clock b 100%Q 130%Q
                Examples.service_up [(131%Q, Examples.service_up)] H1 H2 H3)
      as (_ & Hok & _).
    apply Hok; [| reflexivity].
    repeat constructor; exists tt; reflexivity.
  - destruct (open_breaker_probe_then_recovery Examples.clock b 100%Q 130%Q
                Examples.service_down [] H1 H2 H3)
      as (_ & _ & Hbad & _).
    apply Hbad. exists tt; reflexivity.
Defined.

(** A fresh breaker opens on its third failure in a row; the tripped
    breaker, 29 seconds after its last failure, rejects a call. *)
Lemma closed_counts_failures_and_open_fails_fast_witness :
  let down := fun w : Q => (w, Examples.service_down) in
  (CircuitBreaker.state Examples.fresh = CircuitBreaker.CLOSED /\
   CircuitBreaker.state Examples.tripped = CircuitBreaker.OPEN /\
   (Examples.clock 129 - 100
    < CircuitBreaker.timeout (CircuitBreaker.config Examples.tripped))%Q) /\
  (CircuitBreaker.state
     (CircuitBreaker.calls Examples.clock Examples.fresh [down 97%Q; down 98%Q; down 99%Q])
   = CircuitBreaker.OPEN /\
   CircuitBreaker.last_failure_time
     (CircuitBreaker.calls Examples.clock Examples.fresh [down 97%Q; down 98%Q; down 99%Q])
   = Some (Examples.clock (99 + 1)%Q)) /\
  CircuitBreaker.call Examples.clock Examples.tripped Examples.service_up 129%Q
  = (Examples.tripped, 129%Q, CircuitBreaker.CircuitBreakerOpenError).
Proof.
  intros down.
  assert (H1 : CircuitBreaker.state Examples.fresh = CircuitBreaker.CLOSED) by reflexivity.
  assert (H2 : CircuitBreaker.state Examples.tripped = CircuitBreaker.OPEN) by reflexivity.
  assert (H3 : (Examples.clock 129 - 100
                < CircuitBreaker.timeout (CircuitBreaker.config Examples.tripped))%Q)
    by (unfold Qlt; simpl; lia).
  split; [auto |]. split.
  - destruct (closed_counts_failures_and_open_fails_fast (A := unit) (E := unit)
                Examples.clock Examples.fresh) as [Hclosed _].
    destruct (Hclosed H1) as (_ & _ & _ & Hreach).
    apply (Hreach [down 97%Q; down 98%Q] (down 99%Q)); [| reflexivity | reflexivity].
    repeat constructor; exists tt; reflexivity.
  - destruct (closed_counts_failures_and_open_fails_fast (A := unit) (E := unit)
                Examples.clock Examples.tripped) as [_ Hopen].
    apply (Hopen H2 100%Q); [reflexivity | exact H3].
Defined.

(** Two points one minute apart are both recent. *)
Lemma recent_change_over_last_five_minutes_witness :
  let values := [(0%Q, 100); (60%Q, 110)] in
  ((2 <= length values)%nat /\ (2 <= length (TrendSpec.recent_points 5 values))%nat) /\
  TrendAnalyzer._calculate_recent_change values 5
  = Some (TrendSpec.weighted_average 60 values - 100)%R.
Proof.
  intros values.
  assert (H1 : (2 <= length values)%nat) by (simpl; lia).
  assert (H2 : (2 <= length (TrendSpec.recent_points 5 values))%nat) by (vm_compute; lia).
  split; [auto |].
  destruct (recent_change_over_last_five_minutes values H1) as [Hsome _].
  exact (Hsome H2).
Defined.

(** Oxygen saturation falling by 3 points in a minute is worsening. *)
Lemma trend_direction_is_sign_of_rate_witness :
  let features := TrendAnalyzer.calculate_trends Examples.fromisoformat Examples.analyzer "CASE-0001" in
  TrendSpec.rate_of TrendSpec.OxygenSaturation features = Some (-180 # 60) /\
  TrendSpec.trend_of TrendSpec.OxygenSaturation features = Some TrendSpec.worsening.
Proof.
  intros features.
  assert (H : TrendSpec.rate_of TrendSpec.OxygenSaturation features = Some (-180 # 60)).
  { subst features. unfold TrendAnalyzer.calculate_trends. rewrite example_history.
    cbn -[TrendAnalyzer._calculate_volatility TrendAnalyzer._calculate_recent_change].
    vm_compute. reflexivity. }
  split; [exact H |].
  destruct (trend_direction_is_sign_of_rate Examples.fromisoformat Examples.analyzer
              "CASE-0001" TrendSpec.OxygenSaturation (-180 # 60) H) as (trend & E & _ & _ & Hw).
  subst features. rewrite E. f_equal. apply Hw. unfold Qle. simpl. lia.
Defined.

(** The heuristic on a request with droop, arm weakness and FAST score 2. *)
Lemma heuristic_predict_bounded_and_deterministic_witness :
  let request := Examples.lvo_request (Some 8) (Some 15) in
  request = request /\
  VertexAi._heuristic_predict request = VertexAi._heuristic_predict request /\
  (0 <= (VertexAi._heuristic_predict request).1 <= 1)%Q.
Proof.
  intros request.
  destruct (heuristic_predict_bounded_and_deterministic request request) as [[Hs _] Hd].
  split; [reflexivity |]. split; [apply Hd; reflexivity | exact Hs].
Defined.

(** A reading then the FAST exam of the same case, with no capacity snapshot
    polled: the loop is running, the case is evaluated, and the prediction has
    both messages behind it. *)
Lemma evaluation_needs_reading_and_screening_only_witness :
  let turns := Examples.turn <$> [ProcessorSpec.reading Examples.first_reading;
                                  ProcessorSpec.screening Examples.fast_exam] in
  let loop := Examples.demo_run StreamProcessor.main turns in
  StreamProcessor.stopped loop = false /\
  ProcessorSpec.capacity_messages turns.*1 = [] /\
  exists prediction,
    prediction ∈ StreamProcessor.published (StreamProcessor.self loop) /\
    Response.case_id prediction = Vitals.case_id Examples.first_reading /\
    (exists v, ProcessorSpec.reading v ∈ turns.*1 /\
               Vitals.case_id v = Response.case_id prediction) /\
    (exists f, ProcessorSpec.screening f ∈ turns.*1 /\
               FastExam.case_id f = Response.case_id prediction).
Proof.
  intros turns loop.
  assert (Hrun : StreamProcessor.stopped loop = false) by (vm_compute; reflexivity).
  destruct (evaluation_needs_reading_and_screening_only
              Examples.datetime_of Examples.timestamp VertexAi._heuristic_predict turns)
    as (Hneeds & _ & Henough).
  destruct (Henough Hrun Examples.first_reading Examples.fast_exam)
    as (prediction & Hin & Hid).
  - apply list_elem_of_here.
  - apply list_elem_of_further, list_elem_of_here.
  - reflexivity.
  - split; [exact Hrun |]. split; [reflexivity |].
    exists prediction. split; [exact Hin |]. split; [exact Hid |].
    destruct (Hneeds prediction Hin) as (_ & _ & Hv & Hf). split; [exact Hv | exact Hf].
Defined.

(** A second reading of the evaluated case, with its offset: a second
    prediction, built from that reading, and the loop goes on. *)
Lemma reading_reevaluates_unless_it_raises_witness :
  let turns := Examples.turn <$> [ProcessorSpec.reading Examples.first_reading;
                                  ProcessorSpec.screening Examples.fast_exam] in
  let loop := Examples.demo_run StreamProcessor.main turns in
  let loop' := Examples.demo_run loop
                 [Examples.turn (ProcessorSpec.reading Examples.second_reading)] in
  StreamProcessor.stopped loop = false /\
  ProcessorSpec.evaluated (StreamProcessor.self loop) (Vitals.case_id Examples.second_reading) /\
  StreamProcessor.stopped loop' = false /\
  exists prediction,
    StreamProcessor.published (StreamProcessor.self loop')
    = StreamProcessor.published (StreamProcessor.self loop) ++ [prediction] /\
    Response.current_vitals prediction = Examples.second_reading.
Proof.
  intros turns loop loop'.
  assert (Hrun : StreamProcessor.stopped loop = false) by (vm_compute; reflexivity).
  assert (Hev : ProcessorSpec.evaluated (StreamProcessor.self loop)
                  (Vitals.case_id Examples.second_reading)).
  { apply (seen_both_evaluated Examples.datetime_of Examples.timestamp
             VertexAi._heuristic_predict turns Examples.first_reading Examples.fast_exam Hrun).
    - apply list_elem_of_here.
    - apply list_elem_of_further, list_elem_of_here.
    - reflexivity. }
  assert (Hrun' : StreamProcessor.stopped loop' = false) by (vm_compute; reflexivity).
  split; [exact Hrun |]. split; [exact Hev |]. split; [exact Hrun' |].
  destruct (reading_reevaluates_unless_it_raises
              Examples.datetime_of Examples.timestamp VertexAi._heuristic_predict turns Hrun)
    as [Hreading _].
  destruct (Hreading Examples.second_reading Examples.delivery Hev)
    as [(_ & prediction & Hpub & _ & Hv) | (Hstop & _)].
  - exists prediction. split; [exact Hpub | exact Hv].
  - exfalso. change (StreamProcessor.stopped loop' = true) in Hstop. congruence.
Defined.

(** C5, against the code.  A reading re-sent for an evaluated case is to give
    one new evaluation.  The case is evaluated from a reading and a FAST exam
    whose onset time carries an offset; the reading is then sent again with a
    timestamp that carries none.  The reading is stored, the subtraction of
    the two times raises, nothing is published, and the loop is over: a
    further reading, with an offset, is not even polled. *)
Theorem resent_reading_without_offset_ends_the_run :
  let turns := Examples.turn <$> [ProcessorSpec.reading Examples.first_reading;
                                  ProcessorSpec.screening Examples.fast_exam] in
  let before := Examples.demo_run StreamProcessor.main turns in
  let after := Examples.demo_run before
                 [Examples.turn (ProcessorSpec.reading Examples.naive_reading)] in
  let later := Examples.demo_run after
                 [Examples.turn (ProcessorSpec.reading Examples.second_reading)] in
  (StreamProcessor.stopped before = false /\
   Response.case_id <$> StreamProcessor.published (StreamProcessor.self before)
   = [Vitals.case_id Examples.naive_reading]) /\
  (StreamProcessor._build_prediction_request Examples.datetime_of
     Examples.naive_reading (Some Examples.fast_exam)
     (StreamProcessor.latest_capacity (StreamProcessor.self before))
   = StreamProcessor.TypeError /\
   StreamProcessor.latest_vitals (StreamProcessor.self after) !! "CASE-0001"
   = Some Examples.naive_reading /\
   StreamProcessor.published (StreamProcessor.self after)
   = StreamProcessor.published (StreamProcessor.self before) /\
   StreamProcessor.stopped after = true) /\
  (StreamProcessor.latest_vitals (StreamProcessor.self later) !! "CASE-0001"
   = Some Examples.naive_reading /\
   StreamProcessor.published (StreamProcessor.self later)
   = StreamProcessor.published (StreamProcessor.self before) /\
   StreamProcessor.stopped later = true).
Proof.
  intros turns before after later.
  split; [split; vm_compute; reflexivity |].
  split; [split; [| split; [| split]]; vm_compute; reflexivity |].
  split; [| split]; vm_compute; reflexivity.
Qed.
(** * Further properties of the code *)

(** ** The circuit breaker between calls *)

Section BreakerInvariants.
Import CircuitBreaker BreakerSpec.
Context {World : Type} (time : World -> Q).

Local Abbreviation call := (CircuitBreaker.call time).
Local Abbreviation calls := (CircuitBreaker.calls time).

Lemma healthy_init name cfg :
  1 <= failure_threshold cfg -> healthy (__init__ name cfg).
Proof. intros H. unfold healthy. simpl. lia. Qed.

Lemma healthy_on_success b :
  1 <= failure_threshold (config b) ->
  0 <= failure_count b ->
  (state b = HALF_OPEN -> 0 <= success_count b < success_threshold (config b)) ->
  (state b = CLOSED -> success_count b = 0) ->
  state b <> OPEN ->
  healthy (_on_success b).
Proof.
  intros Hf Hfc Hh Hc Ho. unfold healthy, _on_success.
  destruct (state b) eqn:Hs; [| congruence |].
  - simpl. rewrite Hs. rewrite (Hc eq_refl). lia.
  - simpl. specialize (Hh eq_refl).
    destruct (Z.leb_spec (success_threshold (config b)) (success_count b + 1)); simpl.
    + lia.
    + rewrite Hs. lia.
Qed.

Lemma healthy_on_failure b w :
  0 <= failure_count b ->
  (state b = CLOSED -> success_count b = 0) ->
  state b <> OPEN ->
  healthy (_on_failure time b w).
Proof.
  intros Hfc Hc Ho. unfold healthy, _on_failure. simpl.
  destruct (state b) eqn:Hs; [| congruence |]; simpl.
  - destruct (Z.leb_spec (failure_threshold (config b)) (failure_count b + 1)); simpl.
    + rewrite (Hc eq_refl). split; [lia |]. split; [reflexivity | discriminate].
    + rewrite Hs, (Hc eq_refl). lia.
  - split; [lia |]. split; [reflexivity | discriminate].
Qed.

Lemma healthy_call {A E} b (func : Func A E) w :
  1 <= failure_threshold (config b) ->
  healthy b -> healthy (call b func w).1.1.
Proof.
  intros Hf [Hfc Hb]. unfold CircuitBreaker.call, CircuitBreaker.before_call.
  destruct (state b) eqn:Hs.
  - unfold CircuitBreaker.attempt. destruct (func w) as [w' [a | e]]; simpl.
    + apply healthy_on_success; rewrite ?Hs;
        first [lia | discriminate | congruence | (intros _; apply Hb)].
    + apply healthy_on_failure; rewrite ?Hs;
        first [lia | discriminate | (intros _; apply Hb)].
  - destruct (_should_attempt_reset time b w).
    + unfold CircuitBreaker.attempt. destruct (func w) as [w' [a | e]]; simpl.
      * unfold healthy, _on_success, probe. simpl.
        destruct (Z.leb_spec (success_threshold (config b)) (0 + 1)); simpl; lia.
      * unfold healthy, _on_failure, probe. simpl.
        split; [lia |]. split; [reflexivity | discriminate].
    + simpl. unfold healthy. rewrite Hs. auto.
  - unfold CircuitBreaker.attempt. destruct (func w) as [w' [a | e]]; simpl.
    + apply healthy_on_success; rewrite ?Hs;
        first [lia | discriminate | congruence | (intros _; lia)].
    + apply healthy_on_failure; rewrite ?Hs;
        first [lia | discriminate | congruence].
Qed.

(** X1. A breaker built with thresholds of at least one keeps, after any
    sequence of calls: a failure count that is not negative; in CLOSED, fewer
    failures than the threshold and no counted success; in HALF_OPEN, at least
    one counted success and fewer than the threshold; in OPEN, no counted
    success and a recorded failure time. *)
Theorem breaker_stays_healthy {A E} (name : string) (cfg : CircuitBreakerConfig)
    (cs : list (World * Func A E)) :
  1 <= failure_threshold cfg ->
  healthy (calls (__init__ name cfg) cs).
Proof.
  intros Hf. induction cs as [| c cs IH] using rev_ind.
  - apply healthy_init. exact Hf.
  - rewrite calls_snoc. apply healthy_call; [| exact IH].
    rewrite config_calls. exact Hf.
Qed.

(** X2. Such a breaker turns a call away only when a failure was recorded
    less than [timeout] before: in every other case the wrapped function runs
    and the caller gets its value or its exception, unchanged. *)
Theorem breaker_rejects_only_after_recent_failure {A E} (name : string)
    (cfg : CircuitBreakerConfig) (cs : list (World * Func A E)) (func : Func A E) (w : World) :
  1 <= failure_threshold cfg ->
  let b := calls (__init__ name cfg) cs in
  ((call b func w).2 = CircuitBreakerOpenError ->
   state b = OPEN /\
   exists t, last_failure_time b = Some t /\ (time w - t < timeout cfg)%Q) /\
  ((call b func w).2 <> CircuitBreakerOpenError ->
   (call b func w).1.2 = (func w).1 /\
   (call b func w).2 = match (func w).2 with
                       | inl a => Returned a
                       | inr e => Raised e
                       end).
Proof.
  intros Hf b.
  assert (Hcfg : config b = cfg) by (subst b; rewrite config_calls; reflexivity).
  pose proof (breaker_stays_healthy name cfg cs Hf) as [_ Hb]. fold b in Hb.
  unfold CircuitBreaker.call, CircuitBreaker.before_call, CircuitBreaker.attempt.
  destruct (state b) eqn:Hs.
  - destruct (func w) as [w' [a | e]]; simpl; split; intros H; try discriminate; auto.
  - unfold _should_attempt_reset.
    destruct (last_failure_time b) as [t |] eqn:Ht; [| destruct Hb; congruence].
    rewrite Hcfg. destruct (Qle_bool (timeout cfg) (time w - t)) eqn:Hle.
    + destruct (func w) as [w' [a | e]]; simpl; split; intros H; try discriminate; auto.
    + simpl. split; [| congruence]. intros _. split; [reflexivity |].
      exists t. split; [reflexivity |]. apply Qnot_le_lt. apply Qle_bool_false. exact Hle.
  - destruct (func w) as [w' [a | e]]; simpl; split; intros H; try discriminate; auto.
Qed.

(** X3. A probe that fails starts the wait again: the breaker is OPEN with
    the time of that failure recorded, and a call made less than [timeout]
    after it is turned away without running its function. *)
Theorem failed_probe_restarts_the_wait {A E} (b : CircuitBreaker) (t : Q) (w w' w2 : World)
    (func next : Func A E) (e : E) :
  state b = OPEN -> last_failure_time b = Some t ->
  (timeout (config b) <= time w - t)%Q ->
  func w = (w', inr e) ->
  (time w2 - time w' < timeout (config b))%Q ->
  let b' := (call b func w).1.1 in
  state b' = OPEN /\ last_failure_time b' = Some (time w') /\
  call b' next w2 = (b', w2, CircuitBreakerOpenError).
Proof.
  intros Hs Ht Hle Hfunc Hlt b'.
  assert (E1 : b' = _on_failure time (probe b) w').
  { subst b'. rewrite (call_open_elapsed time b t func w Hs Ht Hle).
    unfold CircuitBreaker.attempt. rewrite Hfunc. reflexivity. }
  assert (Hs' : state b' = OPEN) by (rewrite E1; reflexivity).
  assert (Ht' : last_failure_time b' = Some (time w')) by (rewrite E1; reflexivity).
  split; [exact Hs' |]. split; [exact Ht' |].
  apply (call_open_early time b' (time w') next w2 Hs' Ht').
  rewrite E1, config_on_failure. exact Hlt.
Qed.

(** In CLOSED the failure counter is the number of calls that have failed in
    a row. *)
Lemma closed_counts_trailing_failures {A E} (cs : list (World * Func A E)) b current longest :
  state b = CLOSED -> failure_count b = Z.of_nat current ->
  (longest < Z.to_nat (failure_threshold (config b)))%nat ->
  (current <= longest)%nat ->
  let runs := failure_runs cs current longest in
  (runs.2 < Z.to_nat (failure_threshold (config b)))%nat ->
  state (calls b cs) = CLOSED /\ failure_count (calls b cs) = Z.of_nat runs.1.
Proof.
  revert b current longest.
  induction cs as [| [w func] cs IH]; intros b current longest Hs Hfc Hlong Hcur runs Hruns.
  - simpl. auto.
  - subst runs. simpl in *. unfold raises in *. simpl in *.
    assert (Hmono : forall (l : list (World * Func A E)) c m,
               (m <= (failure_runs l c m).2)%nat).
    { induction l as [| x l IHl]; intros c m; simpl; [lia |].
      destruct (raises x); [| apply IHl].
      etransitivity; [| apply IHl]. lia. }
    rewrite call_not_open by (rewrite Hs; discriminate).
    unfold CircuitBreaker.attempt.
    destruct (func w) as [w' [a | e]] eqn:Hfunc; simpl in *.
    + assert (Hstep : _on_success b = set_failure_count 0 b)
        by (unfold _on_success; rewrite Hs; reflexivity).
      rewrite Hstep. apply IH; simpl; try lia; assumption.
    + pose proof (Hmono cs (S current) (Nat.max longest (S current))) as Hm.
      assert (Hb : (S current < Z.to_nat (failure_threshold (config b)))%nat) by lia.
      assert (Hstep : _on_failure time b w'
                      = set_last_failure_time (time w')
                          (set_failure_count (failure_count b + 1) b)).
      { unfold _on_failure. simpl. rewrite Hs.
        destruct (Z.leb_spec (failure_threshold (config b)) (failure_count b + 1));
          [lia | reflexivity]. }
      rewrite Hstep. apply IH; simpl; try lia; assumption.
Qed.

(** X4. Only failures in a row trip the breaker: as long as no
    [failure_threshold] consecutive calls have failed, a fresh breaker is
    CLOSED after the calls, its counter being the number of calls that failed
    at the end of the sequence. *)
Theorem breaker_stays_closed_without_a_full_run {A E} (name : string)
    (cfg : CircuitBreakerConfig) (cs : list (World * Func A E)) :
  (longest_failure_run cs < Z.to_nat (failure_threshold cfg))%nat ->
  state (calls (__init__ name cfg) cs) = CLOSED /\
  failure_count (calls (__init__ name cfg) cs) = Z.of_nat (trailing_failures cs).
Proof.
  intros H. unfold longest_failure_run, trailing_failures in *.
  apply (closed_counts_trailing_failures cs (__init__ name cfg) 0 0);
    simpl; try reflexivity; try lia; exact H.
Qed.

End BreakerInvariants.

(** The Vertex AI breaker after two failures, a success and two more
    failures: healthy, and still CLOSED with two failures counted. *)
Lemma breaker_stays_healthy_witness :
  let down := fun w : Q => (w, Examples.service_down) in
  let up := fun w : Q => (w, Examples.service_up) in
  let cs := [down 1%Q; down 2%Q; up 3%Q; down 4%Q; down 5%Q] in
  1 <= CircuitBreaker.failure_threshold CircuitBreaker.service_config /\
  BreakerSpec.healthy
    (CircuitBreaker.calls Examples.clock
       (CircuitBreaker.__init__ "vertex_ai" CircuitBreaker.service_config) cs).
Proof.
  intros down up cs.
  assert (H : 1 <= CircuitBreaker.failure_threshold CircuitBreaker.service_config)
    by (simpl; lia).
  split; [exact H |].
  exact (breaker_stays_healthy Examples.clock "vertex_ai" CircuitBreaker.service_config cs H).
Defined.

Lemma breaker_stays_closed_without_a_full_run_witness :
  let down := fun w : Q => (w, Examples.service_down) in
  let up := fun w : Q => (w, Examples.service_up) in
  let cs := [down 1%Q; down 2%Q; up 3%Q; down 4%Q; down 5%Q] in
  (BreakerSpec.longest_failure_run cs
   < Z.to_nat (CircuitBreaker.failure_threshold CircuitBreaker.service_config))%nat /\
  CircuitBreaker.state (CircuitBreaker.calls Examples.clock Examples.fresh cs)
  = CircuitBreaker.CLOSED /\
  CircuitBreaker.failure_count (CircuitBreaker.calls Examples.clock Examples.fresh cs) = 2.
Proof.
  intros down up cs.
  assert (H : (BreakerSpec.longest_failure_run cs
               < Z.to_nat (CircuitBreaker.failure_threshold CircuitBreaker.service_config))%nat)
    by (vm_compute; lia).
  split; [exact H |].
  exact (breaker_stays_closed_without_a_full_run Examples.clock "vertex_ai"
           CircuitBreaker.service_config cs H).
Defined.

(** The tripped breaker rejects a call 29 seconds after its last failure, and
    that failure is the recorded one. *)
Lemma breaker_rejects_only_after_recent_failure_witness :
  let down := fun w : Q => (w, Examples.service_down) in
  let cs := [down 97%Q; down 98%Q; down 99%Q] in
  let b := CircuitBreaker.calls Examples.clock
             (CircuitBreaker.__init__ "vertex_ai" CircuitBreaker.service_config) cs in
  (1 <= CircuitBreaker.failure_threshold CircuitBreaker.service_config /\
   (CircuitBreaker.call Examples.clock b Examples.service_up 129%Q).2
   = CircuitBreaker.CircuitBreakerOpenError) /\
  exists t, CircuitBreaker.last_failure_time b = Some t /\
            (Examples.clock 129 - t < 30)%Q.
Proof.
  intros down cs b.
  assert (H : 1 <= CircuitBreaker.failure_threshold CircuitBreaker.service_config)
    by (simpl; lia).
  assert (Hr : (CircuitBreaker.call Examples.clock b Examples.service_up 129%Q).2
               = CircuitBreaker.CircuitBreakerOpenError) by reflexivity.
  split; [auto |].
  destruct (breaker_rejects_only_after_recent_failure Examples.clock "vertex_ai"
              CircuitBreaker.service_config cs Examples.service_up 129%Q H) as [Hrej _].
  destruct (Hrej Hr) as [_ Ht]. exact Ht.
Defined.

(** The tripped breaker, probed at 130 while the service is still down: the
    failure is recorded at 131 and a call at 150 is turned away. *)
Lemma failed_probe_restarts_the_wait_witness :
  let b := Examples.tripped in
  let b' := (CircuitBreaker.call Examples.clock b Examples.service_down 130%Q).1.1 in
  (CircuitBreaker.state b = CircuitBreaker.OPEN /\
   CircuitBreaker.last_failure_time b = Some 100%Q /\
   (CircuitBreaker.timeout (CircuitBreaker.config b) <= Examples.clock 130 - 100)%Q /\
   Examples.service_down 130%Q = ((130 + 1)%Q, inr tt) /\
   (Examples.clock 150 - Examples.clock (130 + 1)
    < CircuitBreaker.timeout (CircuitBreaker.config b))%Q) /\
  CircuitBreaker.call Examples.clock b' Examples.service_up 150%Q
  = (b', 150%Q, CircuitBreaker.CircuitBreakerOpenError).
Proof.
  intros b b'.
  assert (H1 : CircuitBreaker.state b = CircuitBreaker.OPEN) by reflexivity.
  assert (H2 : CircuitBreaker.last_failure_time b = Some 100%Q) by reflexivity.
  assert (H3 : (CircuitBreaker.timeout (CircuitBreaker.config b)
                <= Examples.clock 130 - 100)%Q) by (unfold Qle; simpl; lia).
  assert (H4 : Examples.service_down 130%Q = ((130 + 1)%Q, inr tt)) by reflexivity.
  assert (H5 : (Examples.clock 150 - Examples.clock (130 + 1)
                < CircuitBreaker.timeout (CircuitBreaker.config b))%Q)
    by (unfold Qlt; simpl; lia).
  split; [auto |].
  destruct (failed_probe_restarts_the_wait Examples.clock b 100%Q 130%Q (130 + 1)%Q 150%Q
              Examples.service_down Examples.service_up tt H1 H2 H3 H4 H5) as (_ & _ & H).
  exact H.
Defined.

(** ** The history window of the trend analyzer *)

Section HistoryWindow.
Import TrendAnalyzer TrendSpec.

Lemma last_n_nil {A} n : last_n n (@nil A) = [].
Proof. unfold last_n. simpl. reflexivity. Qed.

Lemma last_n_short {A} n (l : list A) : (length l <= n)%nat -> last_n n l = l.
Proof.
  intros H. unfold last_n. replace (length l - n)%nat with 0%nat by lia. reflexivity.
Qed.

Lemma last_n_snoc {A} n (l : list A) x :
  (1 <= n)%nat -> last_n n (last_n n l ++ [x]) = last_n n (l ++ [x]).
Proof.
  intros Hn. unfold last_n. rewrite !length_app, length_drop. simpl.
  destruct (Nat.le_gt_cases (length l) n) as [Hle | Hgt].
  - replace (length l - n)%nat with 0%nat by lia. simpl.
    replace (length l - 0 + 1 - n)%nat with (length l + 1 - n)%nat by lia. reflexivity.
  - rewrite drop_app_le by (rewrite length_drop; lia).
    rewrite drop_drop.
    rewrite (drop_app_le l) by lia.
    f_equal. f_equal. lia.
Qed.

Lemma snapshots_for_snoc c adds (add : string * VitalSnapshot) :
  snapshots_for c (adds ++ [add])
  = snapshots_for c adds ++ (if String.eqb add.1 c then [add.2] else []).
Proof.
  unfold snapshots_for. rewrite List.filter_app, fmap_app. simpl.
  destruct (String.eqb add.1 c); reflexivity.
Qed.

Lemma add_vital_snapshot_lookup ta c snapshot c' :
  vital_history (add_vital_snapshot ta c snapshot) !! c'
  = if String.eqb c c'
    then
      let appended := default [] (vital_history ta !! c) ++ [snapshot] in
      Some (if max_history_size ta <? Z.of_nat (length appended)
            then slice_from_neg (max_history_size ta) appended
            else appended)
    else vital_history ta !! c'.
Proof.
  unfold add_vital_snapshot. simpl.
  destruct (String.eqb_spec c c') as [-> | Hne].
  - rewrite lookup_insert_eq. reflexivity.
  - rewrite lookup_insert_ne by exact Hne. reflexivity.
Qed.

Lemma max_history_size_add_all ta adds :
  max_history_size (add_all ta adds) = max_history_size ta.
Proof.
  induction adds as [| add adds IH] using rev_ind; [reflexivity |].
  unfold add_all in *. rewrite foldl_snoc. simpl. exact IH.
Qed.

(** X5. An analyzer created with a positive [max_history_size] holds, for
    every case and after any sequence of [add_vital_snapshot], exactly the
    last [max_history_size] snapshots added for that case, oldest first; a
    case that got no snapshot has no history. *)
Theorem history_is_the_newest_snapshots (n : Z) (adds : list (string * VitalSnapshot))
    (case_id : string) :
  0 < n ->
  vital_history (add_all (__init__ n) adds) !! case_id
  = match snapshots_for case_id adds with
    | [] => None
    | _ :: _ => Some (last_n (Z.to_nat n) (snapshots_for case_id adds))
    end.
Proof.
  intros Hn. induction adds as [| [c snapshot] adds IH] using rev_ind.
  - simpl. apply lookup_empty.
  - unfold add_all in *. rewrite foldl_snoc. fold (add_all (__init__ n) adds) in *.
    rewrite add_vital_snapshot_lookup, snapshots_for_snoc. simpl fst. simpl snd.
    rewrite max_history_size_add_all. simpl max_history_size.
    destruct (String.eqb_spec c case_id) as [-> | Hne].
    + rewrite IH. cbv zeta.
      set (old := snapshots_for case_id adds).
      assert (Hold : default [] match old with
                                | [] => None
                                | _ :: _ => Some (last_n (Z.to_nat n) old)
                                end = last_n (Z.to_nat n) old).
      { destruct old; [rewrite last_n_nil |]; reflexivity. }
      rewrite Hold.
      assert (Hkeep : (if n <? Z.of_nat (length (last_n (Z.to_nat n) old ++ [snapshot]))
                       then slice_from_neg n (last_n (Z.to_nat n) old ++ [snapshot])
                       else last_n (Z.to_nat n) old ++ [snapshot])
                      = last_n (Z.to_nat n) (last_n (Z.to_nat n) old ++ [snapshot])).
      { unfold slice_from_neg. destruct (Z.ltb_spec 0 n) as [_ |]; [| lia].
        destruct (Z.ltb_spec n (Z.of_nat (length (last_n (Z.to_nat n) old ++ [snapshot]))));
          [reflexivity |].
        symmetry. apply last_n_short. lia. }
      rewrite Hkeep, last_n_snoc by lia.
      destruct (old ++ [snapshot]) eqn:E; [| reflexivity].
      destruct old; discriminate.
    + rewrite app_nil_r. exact IH.
Qed.

(** X6. With [max_history_size = 0] nothing is ever dropped: the slice
    [history[-0:]] is the whole list, so the history of a case is every
    snapshot added for it. *)
Theorem history_with_size_zero_keeps_everything (adds : list (string * VitalSnapshot))
    (case_id : string) :
  vital_history (add_all (__init__ 0) adds) !! case_id
  = match snapshots_for case_id adds with
    | [] => None
    | _ :: _ => Some (snapshots_for case_id adds)
    end.
Proof.
  induction adds as [| [c snapshot] adds IH] using rev_ind.
  - simpl. apply lookup_empty.
  - unfold add_all in *. rewrite foldl_snoc. fold (add_all (__init__ 0) adds) in *.
    rewrite add_vital_snapshot_lookup, snapshots_for_snoc. simpl fst. simpl snd.
    rewrite max_history_size_add_all. simpl max_history_size.
    destruct (String.eqb_spec c case_id) as [-> | Hne].
    + rewrite IH. cbv zeta.
      set (old := snapshots_for case_id adds).
      assert (Hold : default [] match old with
                                | [] => None
                                | _ :: _ => Some old
                                end = old) by (destruct old; reflexivity).
      rewrite Hold.
      assert (Hkeep : (if 0 <? Z.of_nat (length (old ++ [snapshot]))
                       then slice_from_neg 0 (old ++ [snapshot])
                       else old ++ [snapshot]) = old ++ [snapshot]).
      { destruct (0 <? _); reflexivity. }
      rewrite Hkeep.
      destruct (old ++ [snapshot]) eqn:E; [| reflexivity].
      destruct old; discriminate.
    + rewrite app_nil_r. exact IH.
Qed.

End HistoryWindow.

(** ** When a trend is defined, and on what it depends *)

Section TrendDefinedness.
Import TrendAnalyzer TrendSpec.

Lemma minutes_zero_iff (x y : Q) : ((x - y) / 60 == 0)%Q <-> (x == y)%Q.
Proof.
  split; intros H.
  - assert (E : (x - y == (x - y) / 60 * 60)%Q) by field.
    rewrite H in E. lra.
  - rewrite H. field.
Qed.

Lemma rate_and_trend_defined (points : list (Q * Z)) :
  (is_Some (_calculate_rate_and_trend points).1 <->
   (2 <= length points)%nat /\ ~ (latest_time points == earliest_time points)%Q) /\
  (is_Some (_calculate_rate_and_trend points).2 <->
   is_Some (_calculate_rate_and_trend points).1).
Proof.
  unfold _calculate_rate_and_trend, latest_time, earliest_time.
  destruct (Nat.ltb_spec (length points) 2) as [Hlt | Hge].
  - simpl. split; split; intros H; try (destruct H as [x Hx]; discriminate).
    destruct H; lia.
  - set (first := hd (0%Q, 0) (sorted_by_time points)).
    set (final := List.last (sorted_by_time points) (0%Q, 0)).
    destruct (Qeq_bool ((final.1 - first.1) / 60) 0) eqn:Hz.
    + apply Qeq_bool_iff in Hz. simpl.
      split; split; intros H; try (destruct H as [x Hx]; discriminate).
      destruct H as [_ H]. exfalso. apply H. apply minutes_zero_iff. exact Hz.
    + simpl. split; split; intros _; eauto.
      split; [exact Hge |]. intros Heq.
      apply minutes_zero_iff, Qeq_bool_iff in Heq. congruence.
Qed.

Lemma rate_of_calculate_trends fromisoformat ta case_id vital :
  rate_of vital (calculate_trends fromisoformat ta case_id)
  = match vital_history ta !! case_id with
    | None => None
    | Some history =>
        if (length history <? 2)%nat then None
        else
          let points := series fromisoformat (vital_field vital) history in
          if (2 <=? length points)%nat then (_calculate_rate_and_trend points).1 else None
    end.
Proof.
  unfold calculate_trends. destruct (vital_history ta !! case_id) as [history |];
    [| destruct vital; reflexivity].
  destruct (length history <? 2)%nat; destruct vital; reflexivity.
Qed.

Lemma trend_of_calculate_trends fromisoformat ta case_id vital :
  trend_of vital (calculate_trends fromisoformat ta case_id)
  = match vital_history ta !! case_id with
    | None => None
    | Some history =>
        if (length history <? 2)%nat then None
        else
          let points := series fromisoformat (vital_field vital) history in
          if (2 <=? length points)%nat then (_calculate_rate_and_trend points).2 else None
    end.
Proof.
  unfold calculate_trends. destruct (vital_history ta !! case_id) as [history |];
    [| destruct vital; reflexivity].
  destruct (length history <? 2)%nat; destruct vital; reflexivity.
Qed.

(** X7. The rate of change of a vital is defined exactly when the case has a
    history of at least two snapshots, at least two of them carry the vital,
    and the earliest and the latest of those are not at the same time; the
    direction is defined exactly when the rate is. *)
Theorem rate_is_defined_from_two_points_apart
    (fromisoformat : string -> option Q) (ta : TrendAnalyzer) (case_id : string)
    (vital : Vital) :
  let features := calculate_trends fromisoformat ta case_id in
  (is_Some (rate_of vital features) <->
   exists history,
     vital_history ta !! case_id = Some history /\ (2 <= length history)%nat /\
     let points := series fromisoformat (vital_field vital) history in
     (2 <= length points)%nat /\ ~ (latest_time points == earliest_time points)%Q) /\
  (is_Some (trend_of vital features) <-> is_Some (rate_of vital features)).
Proof.
  intros features. subst features.
  rewrite rate_of_calculate_trends, trend_of_calculate_trends.
  destruct (vital_history ta !! case_id) as [history |].
  2: { split; split; intros H; try (destruct H as [x Hx]; discriminate).
       destruct H as (h & Hh & _). discriminate. }
  destruct (Nat.ltb_spec (length history) 2) as [Hlt | Hge].
  { split; split; intros H; try (destruct H as [x Hx]; discriminate).
    destruct H as (h & [= <-] & Hl & _). lia. }
  cbv zeta. set (points := series fromisoformat (vital_field vital) history).
  destruct (rate_and_trend_defined points) as [Hrate Htrend].
  destruct (Nat.leb_spec 2 (length points)) as [Hp | Hp].
  - split; [| exact Htrend]. rewrite Hrate. split.
    + intros [H1 H2]. exists history. auto.
    + intros (h & [= <-] & _ & H). exact H.
  - split; split; intros H; try (destruct H as [x Hx]; discriminate).
    destruct H as (h & [= <-] & _ & Hl & _). fold points in Hl. lia.
Qed.

(** Two lists in strict time order with the same points are equal. *)
Lemma strictly_sorted_unique (l1 l2 : list (Q * Z)) :
  StronglySorted (fun p q => (p.1 < q.1)%Q) l1 ->
  StronglySorted (fun p q => (p.1 < q.1)%Q) l2 ->
  l1 ≡ₚ l2 -> l1 = l2.
Proof.
  revert l2. induction l1 as [| x l1 IH]; intros l2 H1 H2 Hp.
  - apply Permutation_nil_l in Hp. congruence.
  - destruct l2 as [| y l2]; [apply Permutation_nil_r in Hp; discriminate |].
    apply StronglySorted_inv in H1 as [H1 Hx]. apply StronglySorted_inv in H2 as [H2 Hy].
    rewrite Forall_forall in Hx, Hy.
    assert (Exy : x = y).
    { assert (Hxin : x ∈ y :: l2) by (rewrite <- Hp; left).
      assert (Hyin : y ∈ x :: l1) by (rewrite Hp; left).
      apply elem_of_cons in Hxin as [E | Hxin]; [exact E |].
      apply elem_of_cons in Hyin as [E | Hyin]; [symmetry; exact E |].
      specialize (Hx y Hyin). specialize (Hy x Hxin). lra. }
    subst y. f_equal. apply IH; [exact H1 | exact H2 |].
    apply (Permutation_cons_inv Hp).
Qed.

Lemma sorted_by_time_strict (points : list (Q * Z)) :
  distinct_times points ->
  StronglySorted (fun p q => (p.1 < q.1)%Q) (sorted_by_time points).
Proof.
  intros [Hnd Hd].
  assert (Hnd' : NoDup (sorted_by_time points)) by (rewrite sorted_by_time_perm; exact Hnd).
  assert (Hd' : forall p q, p ∈ sorted_by_time points -> q ∈ sorted_by_time points ->
                            (p.1 == q.1)%Q -> p = q).
  { intros p q Hp Hq. rewrite sorted_by_time_perm in Hp, Hq. apply Hd; assumption. }
  generalize dependent (sorted_by_time_sorted points).
  generalize dependent (sorted_by_time points). clear. intros l Hnd Hd Hs.
  induction Hs as [| x l Hl IH Hx]; [constructor |].
  apply NoDup_cons in Hnd as [Hnotin Hnd].
  constructor.
  - apply IH; [exact Hnd |]. intros p q Hp Hq. apply Hd; right; assumption.
  - rewrite Forall_forall in *. intros y Hy. specialize (Hx y Hy). unfold by_time in Hx.
    destruct (Qlt_le_dec x.1 y.1) as [Hlt | Hle]; [exact Hlt |].
    exfalso. apply Hnotin.
    rewrite (Hd x y); [exact Hy | left | right; exact Hy |].
    apply Qle_antisym; assumption.
Qed.

Lemma distinct_times_perm (points points' : list (Q * Z)) :
  points ≡ₚ points' -> distinct_times points -> distinct_times points'.
Proof.
  intros Hp [Hnd Hd]. split; [rewrite <- Hp; exact Hnd |].
  intros p q Hpin Hqin. rewrite <- Hp in Hpin, Hqin. apply Hd; assumption.
Qed.

(** X8. When the timestamps of the points are pairwise different, the order
    in which the points are passed does not matter: rate, direction and recent
    change are the same for every rearrangement of the points. *)
Theorem trend_does_not_depend_on_arrival_order (points points' : list (Q * Z)) :
  distinct_times points -> points ≡ₚ points' ->
  _calculate_rate_and_trend points = _calculate_rate_and_trend points' /\
  _calculate_recent_change points 5 = _calculate_recent_change points' 5.
Proof.
  intros Hd Hp.
  assert (Hsorted : sorted_by_time points = sorted_by_time points').
  { apply strictly_sorted_unique.
    - apply sorted_by_time_strict. exact Hd.
    - apply sorted_by_time_strict. apply (distinct_times_perm points); assumption.
    - rewrite !sorted_by_time_perm. exact Hp. }
  assert (Hlen : length points = length points') by (apply Permutation_length; exact Hp).
  unfold _calculate_rate_and_trend, _calculate_recent_change.
  rewrite Hsorted, Hlen. split; reflexivity.
Qed.

End TrendDefinedness.

(** ** Volatility and anomalies *)

Section VolatilityAndAnomalies.
Import TrendAnalyzer TrendSpec.

Lemma sum_of_constant (c : Z) (values : list Z) (a : Z) :
  Forall (fun v => v = c) values ->
  foldl Z.add a values = a + c * Z.of_nat (length values).
Proof.
  revert a. induction values as [| v values IH]; intros a H; simpl; [lia |].
  apply Forall_cons in H as [-> H]. rewrite IH by exact H. lia.
Qed.

Lemma sum_of_positive (values : list Z) (a : Z) :
  Forall (fun v => 0 < v) values -> a <= foldl Z.add a values /\
  (values <> [] -> a < foldl Z.add a values).
Proof.
  revert a. induction values as [| v values IH]; intros a H; simpl; [split; [lia | congruence] |].
  apply Forall_cons in H as [Hv H]. destruct (IH (a + v) H) as [IH1 _]. split; intros; lia.
Qed.

Lemma mean_zero_iff (s : Z) (n : nat) :
  (0 < n)%nat -> (inject_Z s / inject_Z (Z.of_nat n) == 0)%Q <-> s = 0.
Proof.
  intros Hn.
  assert (Hnz : ~ (inject_Z (Z.of_nat n) == 0)%Q).
  { unfold Qeq. simpl. lia. }
  split.
  - intros H.
    assert (E : (inject_Z s == inject_Z s / inject_Z (Z.of_nat n) * inject_Z (Z.of_nat n))%Q)
      by (field; exact Hnz).
    rewrite H in E. unfold Qeq in E. simpl in E. lia.
  - intros ->. unfold Qdiv. change (inject_Z 0) with 0%Q. ring.
Qed.

Lemma sum_of_zeros (f : Z -> Q) (values : list Z) (a : Q) :
  Forall (fun v => (f v == 0)%Q) values -> (foldl Qplus a (map f values) == a)%Q.
Proof.
  revert a. induction values as [| v values IH]; intros a H; simpl; [reflexivity |].
  apply Forall_cons in H as [Hv H]. rewrite IH by exact H. rewrite Hv. ring.
Qed.

(** X9. [_calculate_volatility] is undefined exactly for fewer than two
    values or values that sum to zero.  For positive values it is not negative,
    and for two or more equal non-zero values it is zero. *)
Theorem volatility_defined_nonnegative_and_zero_when_constant (values : list Z) :
  (_calculate_volatility values = None <->
   (length values < 2)%nat \/ foldl Z.add 0 values = 0) /\
  (Forall (fun v => 0 < v) values ->
   forall x, _calculate_volatility values = Some x -> (0 <= x)%R) /\
  (forall c, c <> 0 -> (2 <= length values)%nat -> Forall (fun v => v = c) values ->
   _calculate_volatility values = Some 0%R).
Proof.
  unfold _calculate_volatility.
  destruct (Nat.ltb_spec (length values) 2) as [Hlt | Hge].
  { split; [split; auto |]. split; [intros _ x; discriminate | intros; lia]. }
  set (n := inject_Z (Z.of_nat (length values))).
  set (mean := (inject_Z (foldl Z.add 0%Z values) / n)%Q).
  pose proof (mean_zero_iff (foldl Z.add 0 values) (length values) ltac:(lia)) as Hmean.
  fold n in Hmean. fold mean in Hmean.
  destruct (Qeq_bool mean 0) eqn:Hz.
  - apply Qeq_bool_iff in Hz. apply Hmean in Hz.
    split; [split; auto |]. split; [intros _ x; discriminate |].
    intros c Hc _ Hall. exfalso.
    rewrite (sum_of_constant c) in Hz by exact Hall. nia.
  - assert (Hnz : foldl Z.add 0 values <> 0).
    { intros H. apply Hmean, Qeq_bool_iff in H. congruence. }
    split; [split; [discriminate | intros [H | H]; [lia | contradiction]] |].
    split.
    + intros Hpos x [= <-].
      destruct (sum_of_positive values 0 Hpos) as [_ Hs].
      assert (Hsum : 0 < foldl Z.add 0 values).
      { apply Hs. destruct values; [simpl in Hge; lia | discriminate]. }
      assert (Hm : (0 < mean)%Q).
      { subst mean n. apply Qlt_shift_div_l.
        - unfold Qlt. simpl. lia.
        - unfold Qlt. simpl. lia. }
      apply Qlt_Rlt in Hm. rewrite RMicromega.Q2R_0 in Hm.
      unfold Rdiv. apply Rmult_le_pos; [apply sqrt_pos |].
      left. apply Rinv_0_lt_compat. exact Hm.
    + intros c Hc _ Hall. f_equal.
      assert (Hmc : (mean == inject_Z c)%Q).
      { subst mean n. rewrite (sum_of_constant c) by exact Hall.
        rewrite Z.add_0_l, inject_Z_mult. field. unfold Qeq. simpl. lia. }
      assert (Hvar : (foldl Qplus 0 (map (fun x => (inject_Z x - mean) ^ 2) values) / n == 0)%Q).
      { rewrite sum_of_zeros.
        - unfold Qdiv. ring.
        - eapply Forall_impl; [exact Hall |]. intros v ->. simpl. rewrite Hmc. ring. }
      rewrite (Qeq_eqR _ _ Hvar), RMicromega.Q2R_0, sqrt_0. unfold Rdiv. ring.
Qed.

Lemma max_of_le (k x : Z) (rest : list Z) :
  max_of x rest <= k <-> x <= k /\ Forall (fun v => v <= k) rest.
Proof.
  unfold max_of. revert x. induction rest as [| y rest IH]; intros x; simpl.
  - split; [intros H; split; [exact H | constructor] | tauto].
  - rewrite IH, Forall_cons. split.
    + intros [H1 H2]. repeat split; try assumption; lia.
    + intros (H1 & H2 & H3). split; [lia | assumption].
Qed.

Lemma min_of_ge (k x : Z) (rest : list Z) :
  k <= min_of x rest <-> k <= x /\ Forall (fun v => k <= v) rest.
Proof.
  unfold min_of. revert x. induction rest as [| y rest IH]; intros x; simpl.
  - split; [intros H; split; [exact H | constructor] | tauto].
  - rewrite IH, Forall_cons. split.
    + intros [H1 H2]. repeat split; try assumption; lia.
    + intros (H1 & H2 & H3). split; [lia | assumption].
Qed.

(** [adjacent_changes] holds the absolute differences of neighbours. *)
Lemma adjacent_changes_le (k : Z) (l : list Z) :
  Forall (fun d => d <= k) (adjacent_changes l) <->
  forall i x y, l !! i = Some x -> l !! S i = Some y -> Z.abs (y - x) <= k.
Proof.
  induction l as [| a l IH].
  - simpl. split; [intros _ i x y H; discriminate | constructor].
  - destruct l as [| b l].
    + simpl. split; [| constructor]. intros _ [| i] x y H1 H2; discriminate.
    + change (adjacent_changes (a :: b :: l))
        with (Z.abs (b - a) :: adjacent_changes (b :: l)).
      rewrite Forall_cons, IH. split.
      * intros [H0 H] [| i] x y H1 H2.
        -- simpl in H1, H2. injection H1 as <-. injection H2 as <-. exact H0.
        -- apply (H i); assumption.
      * intros H. split; [apply (H 0%nat); reflexivity |].
        intros i x y H1 H2. apply (H (S i)); assumption.
Qed.

(** X10. [detect_anomalies] gives at most four messages, and none for a case
    that is unknown or has fewer than two snapshots, extreme values or not.
    From two snapshots on it gives none exactly when: the consciousness score,
    from its first to its last value, dropped by less than 2 (or has fewer than
    two values); the oxygen saturation likewise dropped by less than 5; every
    heart rate is within 40 to 150; and no two neighbouring systolic pressures
    differ by more than 50. *)
Theorem detect_anomalies_silent_iff (ta : TrendAnalyzer) (case_id : string) :
  (length (detect_anomalies ta case_id) <= 4)%nat /\
  (forall history, vital_history ta !! case_id = Some history ->
   (length history < 2)%nat -> detect_anomalies ta case_id = []) /\
  (vital_history ta !! case_id = None -> detect_anomalies ta case_id = []) /\
  (forall history, vital_history ta !! case_id = Some history ->
   (2 <= length history)%nat ->
   let gcs_values := omap gcs_total history in
   let spo2_values := omap spo2_pct history in
   let hr_values := omap heart_rate_bpm history in
   let bp_values := omap systolic_bp_mmHg history in
   detect_anomalies ta case_id = [] <->
   ((length gcs_values < 2)%nat \/ hd 0 gcs_values - List.last gcs_values 0 < 2) /\
   ((length spo2_values < 2)%nat \/ hd 0 spo2_values - List.last spo2_values 0 < 5) /\
   Forall (fun hr => 40 <= hr <= 150) hr_values /\
   (forall i x y, bp_values !! i = Some x -> bp_values !! S i = Some y ->
                  Z.abs (y - x) <= 50)).
Proof.
  unfold detect_anomalies.
  destruct (vital_history ta !! case_id) as [history |]; simpl.
  2: { repeat split; try lia; try discriminate; intros; discriminate. }
  split.
  { destruct (length history <? 2)%nat; simpl; [lia |].
    destruct (gcs_anomaly history), (spo2_anomaly history), (hr_anomaly history),
      (bp_anomaly history); simpl; lia. }
  split.
  { intros h [= <-] Hlt. destruct (Nat.ltb_spec (length history) 2); [reflexivity | lia]. }
  split; [discriminate |].
  intros h [= <-] Hge. destruct (Nat.ltb_spec (length history) 2) as [| _]; [lia |].
  set (gcs_values := omap gcs_total history).
  set (spo2_values := omap spo2_pct history).
  set (hr_values := omap heart_rate_bpm history).
  set (bp_values := omap systolic_bp_mmHg history).
  assert (Hg : gcs_anomaly history = None <->
               (length gcs_values < 2)%nat \/ hd 0 gcs_values - List.last gcs_values 0 < 2).
  { unfold gcs_anomaly. fold gcs_values.
    destruct (Nat.leb_spec 2 (length gcs_values)); [| split; [intros _; left; lia | reflexivity]].
    destruct (Z.leb_spec 2 (hd 0 gcs_values - List.last gcs_values 0)).
    - split; [discriminate | intros [? | ?]; lia].
    - split; [intros _; right; lia | reflexivity]. }
  assert (Hs : spo2_anomaly history = None <->
               (length spo2_values < 2)%nat
               \/ hd 0 spo2_values - List.last spo2_values 0 < 5).
  { unfold spo2_anomaly. fold spo2_values.
    destruct (Nat.leb_spec 2 (length spo2_values)); [| split; [intros _; left; lia | reflexivity]].
    destruct (Z.leb_spec 5 (hd 0 spo2_values - List.last spo2_values 0)).
    - split; [discriminate | intros [? | ?]; lia].
    - split; [intros _; right; lia | reflexivity]. }
  assert (Hh : hr_anomaly history = None <-> Forall (fun hr => 40 <= hr <= 150) hr_values).
  { unfold hr_anomaly. fold hr_values. destruct hr_values as [| hr rest].
    - split; [constructor | reflexivity].
    - pose proof (max_of_le 150 hr rest) as Hmax. pose proof (min_of_ge 40 hr rest) as Hmin.
      rewrite Forall_cons.
      assert (Hsplit : Forall (fun v => 40 <= v <= 150) rest <->
                       Forall (fun v => v <= 150) rest /\ Forall (fun v => 40 <= v) rest).
      { rewrite !Forall_forall. split.
        - intros H. split; intros v Hv; specialize (H v Hv); lia.
        - intros [H1 H2] v Hv. specialize (H1 v Hv). specialize (H2 v Hv). lia. }
      rewrite Hsplit.
      destruct (Z.ltb_spec 150 (max_of hr rest)) as [Hx | Hx]; simpl.
      { split; [discriminate |]. intros H. exfalso.
        assert (max_of hr rest <= 150) by (apply Hmax; split; [lia | tauto]). lia. }
      destruct (Z.ltb_spec (min_of hr rest) 40) as [Hn | Hn]; simpl.
      { split; [discriminate |]. intros H. exfalso.
        assert (40 <= min_of hr rest) by (apply Hmin; split; [lia | tauto]). lia. }
      split; [| reflexivity]. intros _.
      apply Hmax in Hx. apply Hmin in Hn. split; [lia | tauto]. }
  assert (Hb : bp_anomaly history = None <->
               forall i x y, bp_values !! i = Some x -> bp_values !! S i = Some y ->
                             Z.abs (y - x) <= 50).
  { rewrite <- adjacent_changes_le. unfold bp_anomaly. fold bp_values.
    destruct (Nat.leb_spec 2 (length bp_values)) as [Hl | Hl].
    - destruct (adjacent_changes bp_values) as [| change rest] eqn:Hc.
      + simpl. split; [constructor | reflexivity].
      + rewrite Forall_cons. pose proof (max_of_le 50 change rest) as Hmax.
        destruct (Z.ltb_spec 50 (max_of change rest)) as [Hx | Hx].
        * split; [discriminate |]. intros H0. exfalso.
          assert (max_of change rest <= 50) by (apply Hmax; exact H0). lia.
        * split; [intros _; apply Hmax; exact Hx | reflexivity].
    - split; [| reflexivity]. intros _.
      destruct bp_values as [| a [| b l]]; [constructor | constructor | simpl in Hl; lia]. }
  rewrite <- Hg, <- Hs, <- Hh, <- Hb.
  destruct (gcs_anomaly history), (spo2_anomaly history), (hr_anomaly history),
    (bp_anomaly history); simpl; split; intros H; try discriminate; try tauto;
    try (destruct H as (? & ? & ? & ?); discriminate); repeat split; reflexivity.
Qed.

End VolatilityAndAnomalies.

(** A window of two: of three snapshots of one case, the last two remain. *)
Lemma history_is_the_newest_snapshots_witness :
  let adds := [("CASE-0001"%string, Examples.snapshot_1);
               ("CASE-0002"%string, Examples.snapshot_1);
               ("CASE-0001"%string, Examples.snapshot_2);
               ("CASE-0001"%string, Examples.snapshot_1)] in
  0 < 2 /\
  TrendAnalyzer.vital_history (TrendSpec.add_all (TrendAnalyzer.__init__ 2) adds)
    !! "CASE-0001"%string
  = Some [Examples.snapshot_2; Examples.snapshot_1].
Proof.
  intros adds. assert (H : 0 < 2) by lia. split; [exact H |].
  exact (history_is_the_newest_snapshots 2 adds "CASE-0001" H).
Defined.

(** Two points a minute apart, passed in either order. *)
Lemma trend_does_not_depend_on_arrival_order_witness :
  let points := [(0%Q, 100); (60%Q, 110)] in
  let points' := [(60%Q, 110); (0%Q, 100)] in
  (TrendSpec.distinct_times points /\ points ≡ₚ points') /\
  TrendAnalyzer._calculate_rate_and_trend points
  = TrendAnalyzer._calculate_rate_and_trend points'.
Proof.
  intros points points'.
  assert (Hd : TrendSpec.distinct_times points).
  { split.
    - apply NoDup_cons. split; [| apply NoDup_singleton].
      intros H. apply list_elem_of_singleton in H. discriminate.
    - intros p q Hp Hq Heq.
      apply elem_of_cons in Hp as [-> | Hp]; [| apply list_elem_of_singleton in Hp; subst p];
        (apply elem_of_cons in Hq as [-> | Hq];
         [| apply list_elem_of_singleton in Hq; subst q]);
        try reflexivity; exfalso; unfold Qeq in Heq; simpl in Heq; lia. }
  assert (Hp : points ≡ₚ points') by apply Permutation_swap.
  split; [auto |].
  destruct (trend_does_not_depend_on_arrival_order points points' Hd Hp) as [H _].
  exact H.
Defined.

(** Two equal readings have no volatility. *)
Lemma volatility_defined_nonnegative_and_zero_when_constant_witness :
  (96 <> 0 /\ (2 <= length [96; 96])%nat /\ Forall (fun v => v = 96) [96; 96]) /\
  TrendAnalyzer._calculate_volatility [96; 96] = Some 0%R.
Proof.
  assert (H1 : 96 <> 0) by lia.
  assert (H2 : (2 <= length [96; 96])%nat) by (simpl; lia).
  assert (H3 : Forall (fun v => v = 96) [96; 96]) by (repeat constructor).
  split; [auto |].
  destruct (volatility_defined_nonnegative_and_zero_when_constant [96; 96]) as (_ & _ & H).
  exact (H 96 H1 H2 H3).
Defined.

(** The example analyzer: a consciousness score falling from 14 to 12 is
    reported. *)
Lemma detect_anomalies_silent_iff_witness :
  (TrendAnalyzer.vital_history Examples.analyzer !! "CASE-0001"%string
   = Some [Examples.snapshot_1; Examples.snapshot_2] /\
   (2 <= length [Examples.snapshot_1; Examples.snapshot_2])%nat) /\
  TrendAnalyzer.detect_anomalies Examples.analyzer "CASE-0001" <> [].
Proof.
  assert (H1 : TrendAnalyzer.vital_history Examples.analyzer !! "CASE-0001"%string
               = Some [Examples.snapshot_1; Examples.snapshot_2])
    by (vm_compute; reflexivity).
  assert (H2 : (2 <= length [Examples.snapshot_1; Examples.snapshot_2])%nat)
    by (simpl; lia).
  split; [auto |].
  destruct (detect_anomalies_silent_iff Examples.analyzer "CASE-0001") as (_ & _ & _ & H).
  intros Hnone. apply (H _ H1 H2) in Hnone. destruct Hnone as [[Hg | Hg] _].
  - simpl in Hg. lia.
  - simpl in Hg. lia.
Defined.

(** ** Confidence, importance and the other steps of an evaluation *)

Section EvaluationSteps.
Import StreamProcessor ProcessorSpec.

Lemma bonus_bounds (test : bool) (amount : Q) :
  (0 <= amount)%Q -> (0 <= bonus test amount <= amount)%Q.
Proof. intros H. destruct test; simpl; lra. Qed.

(** X11. The confidence is always between 0.62 and 0.97: the base, the
    weights and the scores leave no way to reach the bounds 0 and 1 of the final
    clamp, which never changes the value. *)
Theorem confidence_between_062_and_097 (request : Request.AiPredictionRequest)
    (trend_features : TrendAnalyzer.TrendFeatures)
    (vitals : Vitals.EmsVitalsEvent) (fast_exam : FastExam.EmsFastExamEvent) :
  ((62 # 100)
   <= _calculate_prediction_confidence request trend_features vitals fast_exam
   <= (97 # 100))%Q.
Proof.
  unfold _calculate_prediction_confidence, completeness_score, stability_score,
    quality_score, anomaly_penalty.
  repeat match goal with
         | |- context [bonus ?t ?a] =>
             let H := fresh "B" in
             let x := fresh "x" in
             assert (H : (0 <= bonus t a <= a)%Q) by (apply bonus_bounds; lra);
             set (x := bonus t a) in *; clearbody x
         end.
  match goal with
  | |- context [Qmax 0 (1 - ?a - ?b - ?c)%Q] =>
      pose proof (Q.max_spec 0 (1 - a - b - c)%Q) as Hst;
      set (st := Qmax 0 (1 - a - b - c)%Q) in *; clearbody st
  end.
  match goal with
  | |- context [Qmin 1 ?a] =>
      pose proof (Q.min_spec 1 a) as Hmin; set (lo := Qmin 1 a) in *; clearbody lo
  end.
  match goal with
  | |- context [Qmax 0 ?a] =>
      pose proof (Q.max_spec 0 a) as Hmax; set (hi := Qmax 0 a) in *; clearbody hi
  end.
  lra.
Qed.

Lemma max_value_spec (first : Q) (rest : list Q) :
  max_value first rest ∈ first :: rest /\
  Forall (fun v => (v <= max_value first rest)%Q) (first :: rest).
Proof.
  unfold max_value. revert first. induction rest as [| y rest IH]; intros first; simpl.
  - split; [left | repeat constructor; apply Qle_refl].
  - destruct (IH (Qmax first y)) as [Hin Hle].
    apply Forall_cons in Hle as [Hm Hle].
    pose proof (Q.le_max_l first y) as Hl. pose proof (Q.le_max_r first y) as Hr.
    split.
    + apply elem_of_cons in Hin as [Hin | Hin]; [| right; right; exact Hin].
      rewrite Hin. unfold Qmax, GenericMinMax.gmax.
      destruct (first ?= y)%Q; [left | right; left | left].
    + repeat (apply Forall_cons; split); try exact Hle; eapply Qle_trans; eassumption.
Qed.

Lemma raw_importance_keys (request : Request.AiPredictionRequest) :
  (raw_importance request).*1
  `sublist_of` ["fast_score"; "face_droop"; "arm_weakness"; "speech_abnormality";
                "gcs_total"; "time_window"; "systolic_bp"].
Proof.
  unfold raw_importance. rewrite !fmap_app.
  assert (Hone : forall (l : list (string * Q)) k,
             l = [] \/ (exists v, l = [(k, v)]) -> l.*1 `sublist_of` [k]).
  { intros l k [-> | [v ->]]; simpl; [apply sublist_nil_l | reflexivity]. }
  assert (Hentry : forall t k v, entry t k v = [] \/ exists v', entry t k v = [(k, v')]).
  { intros [] k v; simpl; eauto. }
  change ["fast_score"; "face_droop"; "arm_weakness"; "speech_abnormality";
          "gcs_total"; "time_window"; "systolic_bp"]
    with (["fast_score"] ++ ["face_droop"] ++ ["arm_weakness"] ++ ["speech_abnormality"]
          ++ ["gcs_total"] ++ ["time_window"] ++ ["systolic_bp"])%list.
  repeat apply sublist_app; apply Hone.
  - destruct (Request.fast_score request); [apply Hentry | auto].
  - apply Hentry.
  - apply Hentry.
  - apply Hentry.
  - destruct (Request.gcs_total request) as [g |]; [| auto].
    destruct (g <? 13); [eauto |]. destruct (g <? 15); eauto.
  - destruct (Request.minutes_since_symptom_onset request) as [m |]; [| auto].
    destruct (m <=? 270); [eauto |]. destruct (m <=? 360); eauto.
  - destruct (Request.systolic_bp_mmHg request) as [x |]; [| auto].
    destruct (180 <? x); [eauto |]. destruct (x <? 100); eauto.
Qed.

Lemma raw_importance_positive (request : Request.AiPredictionRequest) :
  (forall n, Request.fast_score request = Some n -> 0 <= n) ->
  Forall (fun item : string * Q => (0 < item.2)%Q) (raw_importance request).
Proof.
  intros Hf. unfold raw_importance. rewrite !Forall_app.
  assert (Hentry : forall t k v, (0 < v)%Q ->
             Forall (fun item : string * Q => (0 < item.2)%Q) (entry t k v)).
  { intros [] k v Hv; simpl; repeat constructor. exact Hv. }
  repeat split.
  - destruct (Request.fast_score request) as [n |] eqn:E; [| constructor].
    destruct (Z.eqb_spec n 0) as [-> | Hn]; [constructor |].
    apply Hentry. specialize (Hf n eq_refl).
    assert (Hq : (0 < inject_Z n / 3)%Q).
    { apply Qlt_shift_div_l; [reflexivity |]. unfold Qlt. simpl. lia. }
    destruct (Q.min_spec 1 (inject_Z n / 3)) as [[_ ->] | [_ ->]]; [reflexivity | exact Hq].
  - apply Hentry. reflexivity.
  - apply Hentry. reflexivity.
  - apply Hentry. reflexivity.
  - destruct (Request.gcs_total request) as [g |]; [| constructor].
    destruct (g <? 13); [repeat constructor |]. destruct (g <? 15); repeat constructor.
  - destruct (Request.minutes_since_symptom_onset request) as [m |]; [| constructor].
    destruct (m <=? 270); [repeat constructor |]. destruct (m <=? 360); repeat constructor.
  - destruct (Request.systolic_bp_mmHg request) as [x |]; [| constructor].
    destruct (180 <? x); [repeat constructor |]. destruct (x <? 100); repeat constructor.
Qed.

(** X12. The feature importances have pairwise different keys and no value
    above 1.  Unless the FAST score is negative, a result that is not empty has
    only positive values and one of them is 1. *)
Theorem feature_importance_is_normalized (request : Request.AiPredictionRequest)
    (stroke_prob lvo_prob : Q) :
  let importance := _calculate_feature_importance request stroke_prob lvo_prob in
  NoDup importance.*1 /\
  (forall item, item ∈ importance -> (item.2 <= 1)%Q) /\
  ((forall n, Request.fast_score request = Some n -> 0 <= n) -> importance <> [] ->
   (forall item, item ∈ importance -> (0 < item.2)%Q) /\
   exists item, item ∈ importance /\ (item.2 == 1)%Q).
Proof.
  intros importance. subst importance. unfold _calculate_feature_importance.
  pose proof (raw_importance_keys request) as Hkeys.
  pose proof (raw_importance_positive request) as Hpos.
  set (raw := raw_importance request) in *. clearbody raw.
  assert (Hnd : NoDup raw.*1).
  { eapply sublist_NoDup; [| exact Hkeys].
    apply (bool_decide_unpack _). vm_compute. reflexivity. }
  destruct (raw.*2) as [| first rest] eqn:Hvalues.
  { split; [exact Hnd |]. destruct raw; [| discriminate].
    split; [intros item H; apply elem_of_nil in H; contradiction |].
    intros _ H. congruence. }
  destruct (max_value_spec first rest) as [Hin Hle].
  rewrite <- Hvalues in Hin, Hle. clear Hvalues. set (top := max_value first rest) in *.
  clearbody top. rewrite Forall_forall in Hle.
  destruct (Qlt_bool 0 top) eqn:Htop.
  - apply Qlt_bool_iff in Htop.
    assert (Hnz : ~ (top == 0)%Q) by lra.
    split; [rewrite <- list_fmap_compose; exact Hnd |].
    split.
    + intros item Hitem. apply list_elem_of_fmap in Hitem as (raw_item & -> & Hr). simpl.
      apply Qle_shift_div_r; [exact Htop |]. rewrite Qmult_1_l. apply Hle.
      apply list_elem_of_fmap. eauto.
    + intros Hf _. specialize (Hpos Hf). rewrite Forall_forall in Hpos. split.
      * intros item Hitem. apply list_elem_of_fmap in Hitem as (raw_item & -> & Hr). simpl.
        apply Qlt_shift_div_l; [exact Htop |]. rewrite Qmult_0_l. apply Hpos. exact Hr.
      * apply list_elem_of_fmap in Hin as (raw_item & Heq & Hr).
        exists (raw_item.1, (raw_item.2 / top)%Q). split.
        -- apply list_elem_of_fmap. exists raw_item. auto.
        -- simpl. rewrite <- Heq. field. exact Hnz.
  - assert (Hnp : (top <= 0)%Q).
    { unfold Qlt_bool in Htop. apply negb_false_iff, Qle_bool_iff in Htop. exact Htop. }
    split; [exact Hnd |]. split.
    + intros item Hitem. eapply Qle_trans; [apply Hle; apply list_elem_of_fmap; eauto |]. lra.
    + intros Hf _. exfalso. specialize (Hpos Hf). rewrite Forall_forall in Hpos.
      apply list_elem_of_fmap in Hin as (raw_item & Heq & Hr). specialize (Hpos _ Hr).
      rewrite <- Heq in Hpos. lra.
Qed.


Lemma risk_rank_le (s1 l1 s2 l2 : Q) :
  (s1 <= s2)%Q -> (l1 <= l2)%Q ->
  (risk_rank (_categorize_risk s1 l1) <= risk_rank (_categorize_risk s2 l2))%nat.
Proof.
  intros Hs Hl. unfold _categorize_risk.
  repeat match goal with
  | |- context [Qle_bool ?c ?x] =>
      let E := fresh "E" in
      destruct (Qle_bool c x) eqn:E;
      [apply Qle_bool_iff in E | apply Qle_bool_false in E]
  end; simpl; try (vm_compute; lia); exfalso; lra.
Qed.

(** X14. The risk category never goes down when both probabilities go
    up: with LOW < MODERATE < HIGH < CRITICAL, [_categorize_risk] is monotone
    in each argument. *)
Theorem categorize_risk_is_monotone (s1 l1 s2 l2 : Q) :
  (s1 <= s2)%Q -> (l1 <= l2)%Q ->
  (risk_rank (_categorize_risk s1 l1) <= risk_rank (_categorize_risk s2 l2))%nat.
Proof. apply risk_rank_le. Qed.

(** X15. The trend adjustment of an evaluation never lowers a
    probability and never takes one above 1; it adds at most 0.08 to the stroke
    probability and 0.03 to the LVO probability, never lowers the risk category,
    and changes nothing unless the consciousness or the oxygen trend is -1. *)
Theorem trend_adjustment_only_raises (trend_features : TrendAnalyzer.TrendFeatures)
    (probs : Q * Q) :
  (probs.1 <= 1)%Q -> (probs.2 <= 1)%Q ->
  let adjusted := adjust_for_trends trend_features probs in
  (probs.1 <= adjusted.1 <= 1)%Q /\ (probs.2 <= adjusted.2 <= 1)%Q /\
  (adjusted.1 <= probs.1 + (8 # 100))%Q /\ (adjusted.2 <= probs.2 + (3 # 100))%Q /\
  (risk_rank (_categorize_risk probs.1 probs.2)
   <= risk_rank (_categorize_risk adjusted.1 adjusted.2))%nat /\
  (TrendAnalyzer.gcs_trend trend_features <> Some (-1) ->
   TrendAnalyzer.spo2_trend trend_features <> Some (-1) -> adjusted = probs).
Proof.
  intros H1 H2 adjusted.
  assert (Hnum : (probs.1 <= adjusted.1 <= 1)%Q /\ (probs.2 <= adjusted.2 <= 1)%Q /\
                 (adjusted.1 <= probs.1 + (8 # 100))%Q /\
                 (adjusted.2 <= probs.2 + (3 # 100))%Q).
  { subst adjusted. unfold adjust_for_trends. destruct probs as [s l]. simpl in *.
    repeat match goal with
    | |- context [if ?b then _ else _] => destruct b
    end; simpl;
    repeat match goal with
    | |- context [Qmin 1 ?x] =>
        lazymatch x with context [Qmin] => fail | _ => idtac end;
        let m := fresh "m" in
        destruct (Q.min_spec 1 x) as [[? ?] | [? ?]];
        set (m := Qmin 1 x) in *; clearbody m
    end; lra. }
  destruct Hnum as (Hs & Hl & Hs8 & Hl3).
  repeat split; try tauto.
  - apply risk_rank_le; tauto.
  - intros Hg Ho. subst adjusted. unfold adjust_for_trends.
    destruct (TrendAnalyzer.gcs_trend trend_features) as [g |];
      destruct (TrendAnalyzer.spo2_trend trend_features) as [o |];
      try destruct (Z.eqb_spec g (-1)); try destruct (Z.eqb_spec o (-1));
      try congruence; simpl;
      repeat match goal with
      | |- context [match ?x with Some _ => _ | None => _ end] => destruct x
      end; reflexivity.
Qed.

(** X16. [_build_prediction_request] with a FAST exam at hand returns a
    request unless one of its two calls of [_minutes_between] raises.  On every
    request that it returns, where the travel estimates are the constants 8 and
    15, the travel-time test of [_choose_hospital] never decides: a case goes
    to the first comprehensive center exactly when its FAST score is at least
    2 and that center has a non-empty id, otherwise to the first primary
    center that has one, otherwise nowhere. *)
Theorem routing_of_a_built_request (fromisoformat : string -> option datetime)
    (vitals : Vitals.EmsVitalsEvent) (fast_exam : FastExam.EmsFastExamEvent)
    (capacity_events : list Capacity.HospitalCapacityEvent) :
  let built :=
    _build_prediction_request fromisoformat vitals (Some fast_exam) capacity_events in
  let now_iso := Some (Vitals.event_ts vitals) in
  ((exists request, built = Returns (Some request)) \/ built = TypeError) /\
  (built = TypeError <->
   _minutes_between fromisoformat (FastExam.symptom_onset_ts fast_exam) now_iso = TypeError \/
   _minutes_between fromisoformat (FastExam.last_known_well_ts fast_exam) now_iso
   = TypeError) /\
  forall request, built = Returns (Some request) ->
    let primary := first_of_level "PRIMARY" capacity_events in
    let comp := first_of_level "COMPREHENSIVE" capacity_events in
    let at_least_two :=
      match FastExam.fast_score fast_exam with Some n => 2 <=? n | None => false end in
    _choose_hospital request capacity_events =
      if at_least_two && truthy_str (Capacity.hospital_id <$> comp)
      then (Capacity.hospital_id <$> comp, Some "COMPREHENSIVE_CENTER"%string, Some 15,
            comp ≫= Capacity.estimated_additional_door_to_needle_minutes)
      else if truthy_str (Capacity.hospital_id <$> primary)
      then (Capacity.hospital_id <$> primary, Some "PRIMARY_CENTER"%string, Some 8,
            primary ≫= Capacity.estimated_additional_door_to_needle_minutes)
      else (None, None, None, None).
Proof.
  intros built now_iso. subst built now_iso. unfold _build_prediction_request.
  destruct (_minutes_between fromisoformat (FastExam.symptom_onset_ts fast_exam) _)
    as [onset |].
  2: { split; [right; reflexivity |]. split; [split; auto | discriminate]. }
  destruct (_minutes_between fromisoformat (FastExam.last_known_well_ts fast_exam) _)
    as [lkw |].
  2: { split; [right; reflexivity |]. split; [split; auto | discriminate]. }
  split; [left; eexists; reflexivity |].
  split; [split; [discriminate | intros [H | H]; discriminate] |].
  intros request H. injection H as <-.
  unfold _choose_hospital. cbn [Request.ems_suspected_lvo
    Request.estimated_travel_min_to_primary_center
    Request.estimated_travel_min_to_comprehensive_center
    Request.primary_center_additional_door_to_needle_min
    Request.comprehensive_center_additional_door_to_needle_min].
  assert (E : match FastExam.fast_score fast_exam with
              | Some n => negb (n =? 0) && (2 <=? n)
              | None => false
              end
              = match FastExam.fast_score fast_exam with
                | Some n => 2 <=? n
                | None => false
                end).
  { destruct (FastExam.fast_score fast_exam) as [n |]; [| reflexivity].
    destruct (Z.leb_spec 2 n); destruct (Z.eqb_spec n 0); simpl; try reflexivity; lia. }
  rewrite E.
  change (truthy (Some 15)) with true. change (15 <=? 8 + 15) with true.
  rewrite !andb_true_r. reflexivity.
Qed.

End EvaluationSteps.

(** A case at 10% and 10% ranks no higher than one at 90% and 10%. *)
Lemma categorize_risk_is_monotone_witness :
  ((1 # 10) <= (9 # 10))%Q /\ ((1 # 10) <= (1 # 10))%Q /\
  (ProcessorSpec.risk_rank (StreamProcessor._categorize_risk (1 # 10) (1 # 10))
   <= ProcessorSpec.risk_rank (StreamProcessor._categorize_risk (9 # 10) (1 # 10)))%nat.
Proof.
  assert (H1 : ((1 # 10) <= (9 # 10))%Q) by (unfold Qle; simpl; lia).
  assert (H2 : ((1 # 10) <= (1 # 10))%Q) by (unfold Qle; simpl; lia).
  split; [exact H1 |]. split; [exact H2 |].
  exact (categorize_risk_is_monotone (1 # 10) (1 # 10) (9 # 10) (1 # 10) H1 H2).
Defined.

(** With no trend features nothing is adjusted. *)
Lemma trend_adjustment_only_raises_witness :
  (((1 # 2) <= 1)%Q /\ ((1 # 4) <= 1)%Q) /\
  StreamProcessor.adjust_for_trends TrendAnalyzer.no_features (1 # 2, 1 # 4)
  = (1 # 2, 1 # 4).
Proof.
  assert (H1 : ((1 # 2) <= 1)%Q) by (unfold Qle; simpl; lia).
  assert (H2 : ((1 # 4) <= 1)%Q) by (unfold Qle; simpl; lia).
  split; [auto |].
  destruct (trend_adjustment_only_raises TrendAnalyzer.no_features (1 # 2, 1 # 4) H1 H2)
    as (_ & _ & _ & _ & _ & H).
  apply H; simpl; discriminate.
Defined.

(** The example case 44 minutes after onset, two centers on record: its FAST
    score of 3 sends it to the comprehensive center. *)
Lemma routing_of_a_built_request_witness :
  let centers := [Examples.primary_center; Examples.comprehensive_center] in
  exists request,
    StreamProcessor._build_prediction_request Examples.datetime_of
      Examples.first_reading (Some Examples.fast_exam) centers
    = StreamProcessor.Returns (Some request) /\
    Request.minutes_since_symptom_onset request = Some 44 /\
    StreamProcessor._choose_hospital request centers
    = (Some "HOSP-COMP-01"%string, Some "COMPREHENSIVE_CENTER"%string, Some 15,
       Capacity.estimated_additional_door_to_needle_minutes Examples.comprehensive_center).
Proof.
  intros centers.
  destruct (routing_of_a_built_request Examples.datetime_of
              Examples.first_reading Examples.fast_exam centers) as ([[request E] | E] & _ & H).
  - exists request. split; [exact E |]. split.
    + vm_compute in E. injection E as <-. reflexivity.
    + rewrite (H request E). vm_compute. reflexivity.
  - vm_compute in E. discriminate.
Defined.
(** ** The metrics collector *)

Section MetricsFacts.
Import MetricsSpec TrendSpec.

Lemma deque_append_last_n {A} (n : nat) (l : list A) (x : A) :
  (1 <= n)%nat ->
  StreamMetrics.deque_append n (last_n n l) x = last_n n (l ++ [x]).
Proof.
  intros Hn. unfold StreamMetrics.deque_append. destruct n as [| k]; [lia |].
  unfold last_n. rewrite length_drop, length_app. simpl length.
  destruct (Nat.ltb_spec (length l - (length l - S k)) (S k)) as [Hlt | Hge].
  - replace (length l - S k)%nat with 0%nat by lia.
    replace (length l + 1 - S k)%nat with 0%nat by lia. reflexivity.
  - rewrite drop_drop. rewrite drop_app_le by lia. f_equal. f_equal. lia.
Qed.

Lemma record_all_snoc m rs (r : Sample) :
  record_all m (rs ++ [r]) = StreamMetrics.record_message (record_all m rs) r.1.1 r.1.2 r.2.
Proof. unfold record_all. rewrite foldl_snoc. reflexivity. Qed.

(** X26. A stream's counters are exact and its two windows hold the
    newest 1000 entries: after any sequence of [record_message] the totals are
    the number of messages and the sum of their sizes, the timestamp window is
    the last 1000 clock readings, and the latency window is the last 1000
    latencies, a message contributing one only when its Kafka timestamp is
    given and is not 0.  The rate reported is therefore never above 1000. *)
Theorem stream_metrics_keep_the_newest_thousand (name : string) (t0 : Q)
    (rs : list Sample) (now : Q) :
  let m := record_all (StreamMetrics.__init__ name t0) rs in
  StreamMetrics.total_messages m = Z.of_nat (length rs) /\
  StreamMetrics.total_bytes m = foldl Z.add 0 rs.*2 /\
  StreamMetrics.message_timestamps m = last_n 1000 rs.*1.*1 /\
  StreamMetrics.latencies_ms m = last_n 1000 (omap latency_of rs) /\
  StreamMetrics.stream_name m = name /\ StreamMetrics.start_time m = t0 /\
  (StreamMetrics.messages_per_second m now <= 1000)%nat.
Proof.
  assert (H : let m := record_all (StreamMetrics.__init__ name t0) rs in
              StreamMetrics.total_messages m = Z.of_nat (length rs) /\
              StreamMetrics.total_bytes m = foldl Z.add 0 rs.*2 /\
              StreamMetrics.message_timestamps m = last_n 1000 rs.*1.*1 /\
              StreamMetrics.latencies_ms m = last_n 1000 (omap latency_of rs) /\
              StreamMetrics.stream_name m = name /\ StreamMetrics.start_time m = t0).
  { induction rs as [| r rs IH] using rev_ind.
    { simpl. repeat split; reflexivity. }
    cbv zeta in *. rewrite record_all_snoc.
    set (m := record_all _ rs) in *. destruct IH as (H1 & H2 & H3 & H4 & H5 & H6).
    unfold StreamMetrics.record_message.
    cbn [StreamMetrics.total_messages StreamMetrics.total_bytes
         StreamMetrics.message_timestamps StreamMetrics.latencies_ms
         StreamMetrics.stream_name StreamMetrics.start_time].
    rewrite !fmap_app, omap_app, length_app.
    change ([r].*2) with [r.2]. change ([r].*1.*1) with [r.1.1].
    rewrite foldl_snoc. change (length [r]) with 1%nat.
    split; [rewrite H1; lia |]. split; [rewrite H2; reflexivity |].
    split; [rewrite H3; apply deque_append_last_n; lia |].
    split; [| auto].
    change (omap latency_of [r]) with (option_list (latency_of r)).
    unfold latency_of. destruct r as [[t ts] size].
    cbn [fst snd]. destruct ts as [ts |]; [| rewrite app_nil_r; exact H4].
    destruct (ts =? 0); cbn [negb option_list]; [rewrite app_nil_r; exact H4 |].
    rewrite H4. apply deque_append_last_n. lia. }
  intros m. destruct H as (H1 & H2 & H3 & H4 & H5 & H6). fold m in H1, H2, H3, H4, H5, H6.
  repeat (split; [assumption |]).
  unfold StreamMetrics.messages_per_second. rewrite H3.
  etransitivity; [apply List.filter_length_le |].
  unfold last_n. rewrite length_drop. lia.
Qed.

Lemma collector_record_lookup c stream_name created now ts size name :
  MetricsCollector.streams
    (MetricsCollector.record_message c stream_name created now ts size) !! name
  = if decide (name = stream_name)
    then Some (StreamMetrics.record_message
                 (default (StreamMetrics.__init__ stream_name created)
                          (MetricsCollector.streams c !! stream_name))
                 now ts size)
    else MetricsCollector.streams c !! name.
Proof.
  unfold MetricsCollector.record_message, MetricsCollector.get_or_create_stream.
  destruct (MetricsCollector.streams c !! stream_name) as [stream |] eqn:E; simpl.
  - destruct (decide (name = stream_name)) as [-> | Hne].
    + apply lookup_insert_eq.
    + rewrite lookup_insert_ne by congruence. reflexivity.
  - destruct (decide (name = stream_name)) as [-> | Hne].
    + apply lookup_insert_eq.
    + rewrite !lookup_insert_ne by congruence. reflexivity.
Qed.

Lemma total_messages_insert (streams : gmap string StreamMetrics.StreamMetrics) k v :
  map_fold (fun _ stream total => total + StreamMetrics.total_messages stream) 0
    (<[k := v]> streams)
  = map_fold (fun _ stream total => total + StreamMetrics.total_messages stream) 0 streams
    - match streams !! k with
      | Some old => StreamMetrics.total_messages old
      | None => 0
      end
    + StreamMetrics.total_messages v.
Proof.
  set (f := fun (_ : string) stream total => total + StreamMetrics.total_messages stream).
  assert (Hcomm : forall (j1 j2 : string) z1 z2 y, f j1 z1 (f j2 z2 y) = f j2 z2 (f j1 z1 y)).
  { intros. unfold f. lia. }
  destruct (streams !! k) as [old |] eqn:E.
  - rewrite (map_fold_delete_L f 0 k old streams) by auto.
    rewrite <- (insert_delete_eq streams k v).
    rewrite (map_fold_insert_L f 0 k v) by (auto; apply lookup_delete_eq).
    unfold f. lia.
  - rewrite (map_fold_insert_L f 0 k v) by auto. unfold f. lia.
Qed.

Lemma collector_record_total c stream_name created now ts size :
  MetricsCollector.total_messages
    (MetricsCollector.record_message c stream_name created now ts size)
  = MetricsCollector.total_messages c + 1.
Proof.
  unfold MetricsCollector.total_messages, MetricsCollector.record_message,
    MetricsCollector.get_or_create_stream.
  destruct (MetricsCollector.streams c !! stream_name) as [stream |] eqn:E; simpl.
  - rewrite total_messages_insert, E. simpl. lia.
  - rewrite insert_insert_eq, total_messages_insert, E. simpl. lia.
Qed.

Lemma collect_all_snoc c rs (r : Recorded) :
  collect_all c (rs ++ [r])
  = MetricsCollector.record_message (collect_all c rs) r.1.1 r.1.2 r.2.1.1 r.2.1.2 r.2.2.
Proof. unfold collect_all. rewrite foldl_snoc. reflexivity. Qed.

(** X27. The collector keeps the streams apart and loses no message:
    after any sequence of [record_message], a stream that was never named is
    absent, every other stream is what its own messages alone make of a stream
    created at its first message, and the aggregate total is the number of
    messages recorded. *)
Theorem collector_streams_are_independent (t0 : Q) (rs : list Recorded) (name : string) :
  let c := collect_all (MetricsCollector.__init__ t0) rs in
  MetricsCollector.streams c !! name
  = match records_of name rs with
    | [] => None
    | first :: _ =>
        Some (record_all (StreamMetrics.__init__ name first.1.2) (records_of name rs).*2)
    end /\
  MetricsCollector.total_messages c = Z.of_nat (length rs) /\
  MetricsCollector.start_time c = t0.
Proof.
  induction rs as [| r rs IH] using rev_ind.
  { simpl. split; [apply lookup_empty | split; reflexivity]. }
  cbv zeta in *. rewrite collect_all_snoc.
  set (c := collect_all (MetricsCollector.__init__ t0) rs) in *.
  destruct IH as (IH1 & IH2 & IH3).
  split; [| split].
  - rewrite collector_record_lookup. unfold records_of in *. rewrite List.filter_app.
    cbn [List.filter].
    destruct (decide (name = r.1.1)) as [-> | Hne].
    + rewrite String.eqb_refl, IH1.
      destruct (List.filter _ rs) as [| first rest]; [reflexivity |].
      cbn [default app]. f_equal.
      change (first :: rest ++ [r]) with ((first :: rest) ++ [r]).
      rewrite fmap_app. apply eq_sym, record_all_snoc.
    + assert (E : String.eqb r.1.1 name = false) by (apply String.eqb_neq; congruence).
      rewrite E, app_nil_r. exact IH1.
  - rewrite collector_record_total, IH2, length_app. simpl. lia.
  - rewrite <- IH3. unfold MetricsCollector.record_message,
      MetricsCollector.get_or_create_stream.
    destruct (MetricsCollector.streams c !! r.1.1); reflexivity.
Qed.

(** X28. What the run loop records for a polled message: the stream of
    the message's topic counts one more message and as many more bytes as the
    payload has, whatever the topic and the payload; a latency is added only
    when the type of the message's timestamp is 0 and the timestamp itself is
    not; no other stream changes. *)
Theorem poll_is_counted_under_its_topic (c : MetricsCollector.MetricsCollector)
    (created now : Q) (topic : string) (timestamp : Z * Z)
    (value : option (list Byte.byte)) :
  let c' := MetricsCollector.record_poll c created now topic timestamp value in
  let before := default (StreamMetrics.__init__ topic created)
                  (MetricsCollector.streams c !! topic) in
  (exists after,
     MetricsCollector.streams c' !! topic = Some after /\
     StreamMetrics.total_messages after = StreamMetrics.total_messages before + 1 /\
     StreamMetrics.total_bytes after
     = StreamMetrics.total_bytes before + Z.of_nat (length (default [] value)) /\
     (StreamMetrics.latencies_ms after <> StreamMetrics.latencies_ms before ->
      timestamp.1 = 0 /\ timestamp.2 <> 0)) /\
  (forall other, other <> topic ->
   MetricsCollector.streams c' !! other = MetricsCollector.streams c !! other) /\
  MetricsCollector.total_messages c' = MetricsCollector.total_messages c + 1.
Proof.
  intros c' before. subst c'. unfold MetricsCollector.record_poll.
  split; [| split].
  - eexists. rewrite collector_record_lookup.
    destruct (decide (topic = topic)) as [_ | Hne]; [| congruence].
    split; [reflexivity |]. fold before.
    unfold StreamMetrics.record_message.
    cbn [StreamMetrics.total_messages StreamMetrics.total_bytes StreamMetrics.latencies_ms].
    split; [reflexivity |]. split.
    + f_equal. destruct value as [bytes |]; [| reflexivity]. simpl.
      destruct bytes; reflexivity.
    + destruct (Z.eqb_spec timestamp.1 0) as [H1 | H1]; [| congruence].
      destruct (Z.eqb_spec timestamp.2 0) as [H2 | H2]; simpl; [congruence |].
      intros _. auto.
  - intros other Hne. rewrite collector_record_lookup.
    destruct (decide (other = topic)); [congruence | reflexivity].
  - apply collector_record_total.
Qed.

End MetricsFacts.

(** ** The run loop as a whole *)

Section RunLoop.
Import StreamProcessor ProcessorSpec.
Context (fromisoformat : string -> option datetime).
Context (timestamp : datetime -> Q).
Context (predict_with_vertex_ai : Request.AiPredictionRequest -> Q * Q).

Local Abbreviation _build_prediction_request :=
  (StreamProcessor._build_prediction_request fromisoformat).
Local Abbreviation prediction_for :=
  (StreamProcessor.prediction_for fromisoformat timestamp predict_with_vertex_ai).
Local Abbreviation process :=
  (StreamProcessor.process fromisoformat timestamp predict_with_vertex_ai).
Local Abbreviation handle_message :=
  (StreamProcessor.handle_message fromisoformat timestamp predict_with_vertex_ai).
Local Abbreviation run_step :=
  (StreamProcessor.run_step fromisoformat timestamp predict_with_vertex_ai).
Local Abbreviation run :=
  (StreamProcessor.run fromisoformat timestamp predict_with_vertex_ai).
Local Abbreviation process_cases :=
  (process_cases fromisoformat timestamp predict_with_vertex_ai).
Local Abbreviation run_snoc := (run_snoc fromisoformat timestamp predict_with_vertex_ai).
Local Abbreviation run_app := (run_app fromisoformat timestamp predict_with_vertex_ai).
Local Abbreviation run_step_stopped :=
  (run_step_stopped fromisoformat timestamp predict_with_vertex_ai).
Local Abbreviation run_step_reading :=
  (run_step_reading fromisoformat timestamp predict_with_vertex_ai).
Local Abbreviation run_step_screening :=
  (run_step_screening fromisoformat timestamp predict_with_vertex_ai).
Local Abbreviation run_step_capacity :=
  (run_step_capacity fromisoformat timestamp predict_with_vertex_ai).
Local Abbreviation run_step_unusable :=
  (run_step_unusable fromisoformat timestamp predict_with_vertex_ai).
Local Abbreviation run_running :=
  (run_running fromisoformat timestamp predict_with_vertex_ai).
Local Abbreviation consistent_run :=
  (consistent_run fromisoformat timestamp predict_with_vertex_ai).
Local Abbreviation up_to_date_run :=
  (up_to_date_run fromisoformat timestamp predict_with_vertex_ai).

(** The processor and the flag after a turn depend on the processor and the
    flag before it, not on the collector. *)
Lemma run_step_self_stopped loop loop' turn :
  self loop = self loop' -> stopped loop = stopped loop' ->
  self (run_step loop turn) = self (run_step loop' turn) /\
  stopped (run_step loop turn) = stopped (run_step loop' turn).
Proof.
  intros Hp Hs. unfold StreamProcessor.run_step. rewrite <- Hs, <- Hp.
  destruct (stopped loop) eqn:H; [rewrite Hp, Hs in *; auto |].
  destruct turn.1 as [| | topic value]; [rewrite H; auto .. |].
  destruct (handle_message (self loop) topic value). auto.
Qed.

Lemma run_self_stopped turns loop loop' :
  self loop = self loop' -> stopped loop = stopped loop' ->
  self (run loop turns) = self (run loop' turns) /\
  stopped (run loop turns) = stopped (run loop' turns).
Proof.
  revert loop loop'. induction turns as [| turn turns IH]; intros loop loop' Hp Hs; [auto |].
  destruct (run_step_self_stopped loop loop' turn Hp Hs) as [Hp' Hs'].
  apply (IH _ _ Hp' Hs').
Qed.

(** A turn that polls nothing, or an error, is as if it had not been. *)
Lemma run_step_nothing loop msg d :
  msg = NoMessage \/ msg = ErrorMessage \/ stopped loop = true ->
  run_step loop (msg, d) = loop.
Proof.
  unfold StreamProcessor.run_step.
  intros [-> | [-> | H]]; [destruct (stopped loop); reflexivity .. | rewrite H; reflexivity].
Qed.

(** Every other turn of a running loop records the message. *)
Lemma run_step_recorded loop topic value d :
  stopped loop = false ->
  _metrics_collector (run_step loop (Message topic value, d))
  = Some (MetricsCollector.record_poll
            (MetricsCollector.get_metrics_collector (_metrics_collector loop)
               (Delivery.collector_clock d))
            (Delivery.stream_clock d) (Delivery.record_clock d) topic
            (Delivery.timestamp d) (Delivery.value d)).
Proof.
  intros H. unfold StreamProcessor.run_step. rewrite H. cbn [fst snd].
  destruct (handle_message (self loop) topic value). reflexivity.
Qed.

Lemma run_step_counted loop topic value d :
  stopped loop = false ->
  total_recorded (_metrics_collector (run_step loop (Message topic value, d)))
  = total_recorded (_metrics_collector loop) + 1.
Proof.
  intros H. rewrite (run_step_recorded _ _ _ _ H). unfold total_recorded at 1.
  unfold MetricsCollector.record_poll. rewrite collector_record_total. f_equal.
  destruct (_metrics_collector loop); reflexivity.
Qed.

(** X17. A poll that is not a well-formed reading, FAST exam or capacity
    snapshot on its own topic (no message, a consumer error, an undecodable
    payload, a payload on the wrong topic, an unknown topic) does nothing to
    the processor: with it and without it the run ends with the same
    processor, running or not.  A message among these is still counted by the
    metrics collector when the loop is running; no message, a consumer error,
    and any poll after the loop is over leave nothing at all. *)
Theorem unusable_poll_is_only_counted (loop : Loop)
    (before after : list (Polled * Delivery.t)) (msg : Polled) (d : Delivery.t) :
  (forall v, msg <> reading v) -> (forall f, msg <> screening f) ->
  (forall c, msg <> capacity_snapshot c) ->
  let with_it := run loop (before ++ (msg, d) :: after) in
  let without := run loop (before ++ after) in
  (self with_it = self without /\ stopped with_it = stopped without) /\
  (forall topic value, msg = Message topic value -> stopped (run loop before) = false ->
   total_recorded (_metrics_collector (run loop (before ++ [(msg, d)])))
   = total_recorded (_metrics_collector (run loop before)) + 1) /\
  (msg = NoMessage \/ msg = ErrorMessage \/ stopped (run loop before) = true ->
   with_it = without).
Proof.
  intros Hr Hs Hc with_it without. subst with_it without.
  change ((msg, d) :: after) with ([(msg, d)] ++ after). rewrite !run_app.
  change (run (run loop before) [(msg, d)]) with (run_step (run loop before) (msg, d)).
  split; [| split].
  - destruct (run_step_unusable (run loop before) msg d Hr Hs Hc) as [Hp Hst].
    apply run_self_stopped; assumption.
  - intros topic value -> Hrun. apply run_step_counted. exact Hrun.
  - intros H. rewrite run_step_nothing by exact H. reflexivity.
Qed.




Lemma find_app {A : Type} (test : A -> bool) (l1 l2 : list A) :
  List.find test (l1 ++ l2)
  = match List.find test l1 with Some x => Some x | None => List.find test l2 end.
Proof. induction l1 as [| x l1 IH]; simpl; [reflexivity |]. destruct (test x); auto. Qed.

Lemma find_filter {A : Type} (test keep : A -> bool) (l : list A) :
  (forall x, test x = true -> keep x = true) ->
  List.find test (List.filter keep l) = List.find test l.
Proof.
  intros H. induction l as [| x l IH]; simpl; [reflexivity |].
  destruct (keep x) eqn:Hk; simpl.
  - destruct (test x); auto.
  - destruct (test x) eqn:Ht; [| exact IH]. apply H in Ht. congruence.
Qed.

Lemma find_filter_none {A : Type} (test keep : A -> bool) (l : list A) :
  (forall x, keep x = true -> test x = false) ->
  List.find test (List.filter keep l) = None.
Proof.
  intros H. induction l as [| x l IH]; simpl; [reflexivity |].
  destruct (keep x) eqn:Hk; simpl; [| exact IH]. rewrite (H x Hk). exact IH.
Qed.

Lemma filter_sublist {A : Type} (keep : A -> bool) (l : list A) :
  List.filter keep l `sublist_of` l.
Proof.
  induction l as [| x l IH]; simpl; [constructor |].
  destruct (keep x); [apply sublist_skip | apply sublist_cons]; exact IH.
Qed.

Lemma capacity_messages_snoc msgs msg :
  capacity_messages (msgs ++ [msg])
  = capacity_messages msgs ++ match as_capacity msg with Some c => [c] | None => [] end.
Proof.
  unfold capacity_messages. rewrite omap_app. simpl. destruct (as_capacity msg); reflexivity.
Qed.

(** The capacity list after a turn of a running loop. *)
Lemma run_step_latest_capacity loop msg d :
  stopped loop = false ->
  latest_capacity (self (run_step loop (msg, d)))
  = match as_capacity msg with
    | Some c =>
        List.filter (fun c' => negb (String.eqb (Capacity.hospital_id c')
                                                 (Capacity.hospital_id c)))
                    (latest_capacity (self loop)) ++ [c]
    | None => latest_capacity (self loop)
    end.
Proof.
  intros Hrun.
  destruct (polled_kinds msg) as [[v ->] | [[f ->] | [[c ->] | (Hr & Hs & Hc)]]].
  - pose proof (run_step_reading loop v d Hrun) as E. cbv zeta in E.
    apply eq_sym, (process_frame fromisoformat timestamp predict_with_vertex_ai) in E
      as (_ & _ & -> & _).
    reflexivity.
  - pose proof (run_step_screening loop f d Hrun) as E. cbv zeta in E.
    apply eq_sym, (process_frame fromisoformat timestamp predict_with_vertex_ai) in E
      as (_ & _ & -> & _).
    reflexivity.
  - destruct (run_step_capacity loop c d Hrun) as [-> _]. reflexivity.
  - destruct (run_step_unusable loop msg d Hr Hs Hc) as [-> _].
    destruct (as_capacity msg) as [c |] eqn:E; [| reflexivity].
    apply as_capacity_some in E. exfalso. apply (Hc c E).
Qed.

Lemma latest_capacity_spec (turns : list (Polled * Delivery.t)) :
  let loop := run main turns in
  let events := latest_capacity (self loop) in
  events `sublist_of` capacity_messages turns.*1 /\
  NoDup (Capacity.hospital_id <$> events) /\
  (stopped loop = false ->
   forall hospital,
     capacity_of hospital events = capacity_of hospital (rev (capacity_messages turns.*1))).
Proof.
  induction turns as [| [msg d] turns IH] using rev_ind.
  { simpl. split; [constructor |]. split; [constructor |]. reflexivity. }
  cbv zeta in *. rewrite run_snoc, fmap_app. cbn [fmap list_fmap fst].
  rewrite capacity_messages_snoc.
  set (loop := run main turns) in *. set (events := latest_capacity (self loop)) in *.
  destruct IH as (Hsub & Hnd & Hfind).
  destruct (stopped loop) eqn:Hrun.
  { rewrite run_step_stopped by exact Hrun. fold events.
    split; [apply sublist_inserts_r; exact Hsub |]. split; [exact Hnd |]. congruence. }
  specialize (Hfind eq_refl).
  rewrite (run_step_latest_capacity loop msg d Hrun). fold events.
  destruct (as_capacity msg) as [c |]; [| rewrite app_nil_r; auto].
  set (keep := fun c' => negb (String.eqb (Capacity.hospital_id c') (Capacity.hospital_id c))).
  split; [| split].
  - apply sublist_app; [| reflexivity].
    etransitivity; [apply filter_sublist | exact Hsub].
  - rewrite fmap_app. apply NoDup_app. split; [| split].
    + eapply sublist_NoDup; [exact Hnd | apply fmap_sublist, filter_sublist].
    + intros h Hin Hc. apply list_elem_of_singleton in Hc. subst h.
      apply list_elem_of_fmap in Hin as (c' & Hid & Hin).
      apply list_elem_of_In, filter_In in Hin as [_ Hk]. unfold keep in Hk.
      rewrite <- Hid, String.eqb_refl in Hk. discriminate.
    + apply NoDup_singleton.
  - intros _ hospital. unfold capacity_of in *. rewrite rev_app_distr, find_app. simpl.
    destruct (String.eqb_spec (Capacity.hospital_id c) hospital) as [<- | Hne].
    + rewrite find_filter_none; [reflexivity |].
      intros c' Hk. unfold keep in Hk. apply negb_true_iff in Hk. exact Hk.
    + rewrite find_filter.
      * rewrite Hfind. destruct (List.find _ (rev (capacity_messages turns.*1))); reflexivity.
      * intros c' Ht. unfold keep. apply negb_true_iff.
        apply String.eqb_eq in Ht. apply String.eqb_neq. congruence.
Qed.

(** X19. The capacity list holds, for every hospital heard of, exactly
    its most recent snapshot: it is a subsequence of the snapshots polled, no
    two entries are for the same hospital, and, as long as the loop is
    running, looking a hospital up in it gives the last snapshot received for
    that hospital. *)
Theorem capacity_list_holds_latest_snapshots (turns : list (Polled * Delivery.t)) :
  let loop := run main turns in
  let events := latest_capacity (self loop) in
  events `sublist_of` capacity_messages turns.*1 /\
  NoDup (Capacity.hospital_id <$> events) /\
  (stopped loop = false ->
   forall hospital,
     capacity_of hospital events = capacity_of hospital (rev (capacity_messages turns.*1))).
Proof. apply latest_capacity_spec. Qed.

(** With no history for the case the trend step changes nothing. *)
Lemma prediction_for_without_history p c v request :
  TrendAnalyzer.vital_history (trend_analyzer p) !! c = None ->
  let probs := predict_with_vertex_ai request in
  let dest := _choose_hospital request (latest_capacity p) in
  prediction_for p c v request
  = {| Response.case_id := c;
       Response.patient_id := Request.patient_id request;
       Response.stroke_probability := probs.1;
       Response.lvo_probability := probs.2;
       Response.risk_category := _categorize_risk probs.1 probs.2;
       Response.recommended_destination_hospital_id := dest.1.1.1;
       Response.recommended_destination_type := dest.1.1.2;
       Response.estimated_travel_min_to_recommended := dest.1.2;
       Response.estimated_additional_door_to_needle_min_at_recommended := dest.2;
       Response.minutes_since_symptom_onset := Request.minutes_since_symptom_onset request;
       Response.current_vitals := v |}.
Proof.
  intros H probs dest. unfold StreamProcessor.prediction_for, TrendAnalyzer.calculate_trends.
  rewrite H. reflexivity.
Qed.

(** Where a published prediction comes from. *)
Lemma published_prediction_origin (turns : list (Polled * Delivery.t))
    (prediction : Response.AiPredictionResponse) :
  prediction ∈ published (self (run main turns)) ->
  exists v f events request,
    reading v ∈ turns.*1 /\ screening f ∈ turns.*1 /\
    Vitals.case_id v = Response.case_id prediction /\
    FastExam.case_id f = Response.case_id prediction /\
    events `sublist_of` capacity_messages turns.*1 /\
    _build_prediction_request v (Some f) events = Returns (Some request) /\
    Response.current_vitals prediction = v /\
    (Response.stroke_probability prediction, Response.lvo_probability prediction)
    = predict_with_vertex_ai request /\
    Response.risk_category prediction
    = _categorize_risk (predict_with_vertex_ai request).1 (predict_with_vertex_ai request).2 /\
    (Response.recommended_destination_hospital_id prediction,
     Response.recommended_destination_type prediction,
     Response.estimated_travel_min_to_recommended prediction,
     Response.estimated_additional_door_to_needle_min_at_recommended prediction)
    = _choose_hospital request events.
Proof.
  revert prediction. induction turns as [| [msg d] turns IH] using rev_ind.
  { intros prediction H. apply elem_of_nil in H. contradiction. }
  intros prediction. rewrite run_snoc, fmap_app. cbn [fmap list_fmap fst].
  pose proof (consistent_run turns) as [Iv If _ _].
  pose proof (run_trend_history fromisoformat timestamp predict_with_vertex_ai turns) as Ht.
  pose proof (latest_capacity_spec turns) as (Hcap & _). cbv zeta in Hcap.
  set (loop := run main turns) in *. set (p := self loop) in *.
  set (msgs := turns.*1) in *.
  assert (Hold : prediction ∈ published p ->
    exists v f events request,
      reading v ∈ msgs ++ [msg] /\ screening f ∈ msgs ++ [msg] /\
      Vitals.case_id v = Response.case_id prediction /\
      FastExam.case_id f = Response.case_id prediction /\
      events `sublist_of` capacity_messages (msgs ++ [msg]) /\
      _build_prediction_request v (Some f) events = Returns (Some request) /\
      Response.current_vitals prediction = v /\
      (Response.stroke_probability prediction, Response.lvo_probability prediction)
      = predict_with_vertex_ai request /\
      Response.risk_category prediction
      = _categorize_risk (predict_with_vertex_ai request).1
          (predict_with_vertex_ai request).2 /\
      (Response.recommended_destination_hospital_id prediction,
       Response.recommended_destination_type prediction,
       Response.estimated_travel_min_to_recommended prediction,
       Response.estimated_additional_door_to_needle_min_at_recommended prediction)
      = _choose_hospital request events).
  { intros Hin. destruct (IH prediction Hin) as (v & f & events & request & H1 & H2 & H3
      & H4 & H5 & H6). exists v, f, events, request.
    split; [apply elem_of_app; auto |]. split; [apply elem_of_app; auto |].
    split; [exact H3 |]. split; [exact H4 |]. split; [| exact H6].
    rewrite capacity_messages_snoc. apply sublist_inserts_r. exact H5. }
  assert (Hnew : forall q c v f request,
    trend_analyzer q = trend_analyzer p -> latest_capacity q = latest_capacity p ->
    reading v ∈ msgs ++ [msg] -> screening f ∈ msgs ++ [msg] ->
    Vitals.case_id v = c -> FastExam.case_id f = c ->
    _build_prediction_request v (Some f) (latest_capacity q) = Returns (Some request) ->
    prediction ∈ published p ++ [prediction_for q c v request] ->
    exists v f events request,
      reading v ∈ msgs ++ [msg] /\ screening f ∈ msgs ++ [msg] /\
      Vitals.case_id v = Response.case_id prediction /\
      FastExam.case_id f = Response.case_id prediction /\
      events `sublist_of` capacity_messages (msgs ++ [msg]) /\
      _build_prediction_request v (Some f) events = Returns (Some request) /\
      Response.current_vitals prediction = v /\
      (Response.stroke_probability prediction, Response.lvo_probability prediction)
      = predict_with_vertex_ai request /\
      Response.risk_category prediction
      = _categorize_risk (predict_with_vertex_ai request).1
          (predict_with_vertex_ai request).2 /\
      (Response.recommended_destination_hospital_id prediction,
       Response.recommended_destination_type prediction,
       Response.estimated_travel_min_to_recommended prediction,
       Response.estimated_additional_door_to_needle_min_at_recommended prediction)
      = _choose_hospital request events).
  { intros q c v f request Eta Ecap Hv Hf Hvc Hfc Hbuild Hin.
    apply elem_of_app in Hin as [Hin | Hin]; [apply Hold; exact Hin |].
    apply list_elem_of_singleton in Hin. subst prediction.
    rewrite prediction_for_without_history by (rewrite Eta; apply Ht). simpl.
    exists v, f, (latest_capacity q), request.
    repeat (split; [solve [auto] |]).
    split.
    { rewrite Ecap, capacity_messages_snoc. apply sublist_inserts_r. exact Hcap. }
    split; [exact Hbuild |]. split; [reflexivity |].
    split; [destruct (predict_with_vertex_ai request); reflexivity |].
    split; [reflexivity |].
    destruct (_choose_hospital request (latest_capacity q)) as [[[a b] c'] d']. reflexivity. }
  destruct (stopped loop) eqn:Hrun; [rewrite run_step_stopped by exact Hrun; exact Hold |].
  destruct (polled_kinds msg) as [[v ->] | [[f ->] | [[c ->] | (Hr & Hs & Hc)]]].
  - pose proof (run_step_reading loop v d Hrun) as E. cbv zeta in E. fold p in E.
    set (q := set_processed_cases _ _) in E.
    destruct (process_cases q (Vitals.case_id v))
      as [(_ & v' & f & Hv & Hf & [(request & Hbuild & E') | (_ & E')]) | [_ E']];
      rewrite E' in E; injection E as -> _; [| exact Hold ..].
    simpl. simpl in Hv, Hf. rewrite lookup_insert_eq in Hv. injection Hv as <-.
    destruct (If _ _ Hf) as [Hfc Hfin].
    apply (Hnew q (Vitals.case_id v) v f request); auto.
    + apply elem_of_app. right. apply list_elem_of_singleton. reflexivity.
    + apply elem_of_app. auto.
  - pose proof (run_step_screening loop f d Hrun) as E. cbv zeta in E. fold p in E.
    set (q := set_latest_fast_exam _ _) in E.
    destruct (process_cases q (FastExam.case_id f))
      as [(_ & v & f' & Hv & Hf & [(request & Hbuild & E') | (_ & E')]) | [_ E']];
      rewrite E' in E; injection E as -> _; [| exact Hold ..].
    simpl. simpl in Hv, Hf. rewrite lookup_insert_eq in Hf. injection Hf as <-.
    destruct (Iv _ _ Hv) as [Hvc Hvin].
    apply (Hnew q (FastExam.case_id f) v f request); auto.
    + apply elem_of_app. auto.
    + apply elem_of_app. right. apply list_elem_of_singleton. reflexivity.
  - destruct (run_step_capacity loop c d Hrun) as [-> _]. exact Hold.
  - destruct (run_step_unusable loop msg d Hr Hs Hc) as [-> _]. exact Hold.
Qed.

(** X20. Every prediction that the loop publishes is built from a reading
    and a FAST exam of its case that were consumed and from capacity snapshots
    that were consumed, by a call of [_build_prediction_request] that
    returned, and carries the scores of the prediction service as they came:
    since the loop never feeds the trend history, the trend adjustment never
    applies, and the risk category is the category of the service's own
    scores. *)
Theorem published_predictions_carry_the_service_scores
    (turns : list (Polled * Delivery.t)) (prediction : Response.AiPredictionResponse) :
  prediction ∈ published (self (run main turns)) ->
  exists v f events request,
    reading v ∈ turns.*1 /\ screening f ∈ turns.*1 /\
    Vitals.case_id v = Response.case_id prediction /\
    FastExam.case_id f = Response.case_id prediction /\
    events `sublist_of` capacity_messages turns.*1 /\
    _build_prediction_request v (Some f) events = Returns (Some request) /\
    Response.current_vitals prediction = v /\
    (Response.stroke_probability prediction, Response.lvo_probability prediction)
    = predict_with_vertex_ai request /\
    Response.risk_category prediction
    = _categorize_risk (predict_with_vertex_ai request).1 (predict_with_vertex_ai request).2 /\
    (Response.recommended_destination_hospital_id prediction,
     Response.recommended_destination_type prediction,
     Response.estimated_travel_min_to_recommended prediction,
     Response.estimated_additional_door_to_needle_min_at_recommended prediction)
    = _choose_hospital request events.
Proof. apply published_prediction_origin. Qed.

Lemma last_prediction_for_snoc c predictions prediction :
  last_prediction_for c (predictions ++ [prediction])
  = if String.eqb (Response.case_id prediction) c then Some prediction
    else last_prediction_for c predictions.
Proof. unfold last_prediction_for. rewrite rev_app_distr. reflexivity. Qed.

Lemma last_prediction_for_some c predictions r :
  last_prediction_for c predictions = Some r ->
  r ∈ predictions /\ Response.case_id r = c.
Proof.
  unfold last_prediction_for. intros H. apply find_some in H as [Hin Hc].
  split; [apply list_elem_of_In, in_rev; exact Hin | apply String.eqb_eq; exact Hc].
Qed.

(** X21. After any sequence of polls that leaves the loop running, the
    most recent prediction published for a case was made from the reading
    that is now on record for that case: no reading of an evaluated case is
    left without a prediction. *)
Theorem latest_prediction_is_from_latest_reading (turns : list (Polled * Delivery.t))
    (c : string) (r : Response.AiPredictionResponse) :
  stopped (run main turns) = false ->
  last_prediction_for c (published (self (run main turns))) = Some r ->
  latest_vitals (self (run main turns)) !! c = Some (Response.current_vitals r).
Proof.
  revert c r. induction turns as [| [msg d] turns IH] using rev_ind.
  { intros c r _ H. discriminate. }
  intros c r Hlast. pose proof (run_running _ _ _ Hlast) as Hrun.
  specialize (fun c r => IH c r Hrun).
  rewrite run_snoc in Hlast |- *.
  pose proof (consistent_run turns) as [_ _ Id _].
  set (loop := run main turns) in *. set (p := self loop) in *.
  destruct (polled_kinds msg) as [[v ->] | [[f ->] | [[cap ->] | (Hr & Hs & Hc)]]].
  - pose proof (run_step_reading loop v d Hrun) as E. cbv zeta in E. fold p in E.
    rewrite Hlast in E. set (q := set_processed_cases _ _) in E.
    destruct (process_cases q (Vitals.case_id v))
      as [(_ & v' & f & Hv & Hf & [(request & _ & E') | (_ & E')]) | [H E']];
      rewrite E' in E; [| discriminate |]; injection E as ->.
    + simpl in Hv. rewrite lookup_insert_eq in Hv. injection Hv as <-.
      cbn [published latest_vitals set_processed_cases _publish_prediction q
           set_latest_vitals].
      rewrite last_prediction_for_snoc.
      change (Response.case_id (prediction_for q (Vitals.case_id v) v request))
        with (Vitals.case_id v).
      destruct (String.eqb_spec (Vitals.case_id v) c) as [<- | Hne].
      * intros [= <-]. rewrite lookup_insert_eq. reflexivity.
      * intros Hr. rewrite lookup_insert_ne by exact Hne. apply IH. exact Hr.
    + cbn [published latest_vitals set_processed_cases q set_latest_vitals]. intros Hr.
      destruct (decide (Vitals.case_id v = c)) as [<- | Hne].
      * exfalso. apply last_prediction_for_some in Hr as [Hin Hc].
        destruct (Id (Vitals.case_id v)) as [_ [x Hx]]; [exists r; auto |].
        destruct H as [H | [H | H]]; simpl in H.
        -- apply elem_of_difference in H as [_ H]. apply H, elem_of_singleton. reflexivity.
        -- rewrite lookup_insert_eq in H. discriminate.
        -- fold p in Hx. congruence.
      * rewrite lookup_insert_ne by exact Hne. apply IH. exact Hr.
  - pose proof (run_step_screening loop f d Hrun) as E. cbv zeta in E. fold p in E.
    rewrite Hlast in E. set (q := set_latest_fast_exam _ _) in E.
    destruct (process_cases q (FastExam.case_id f))
      as [(_ & v & f' & Hv & Hf & [(request & _ & E') | (_ & E')]) | [H E']];
      rewrite E' in E; [| discriminate |]; injection E as ->.
    + simpl in Hv.
      cbn [published latest_vitals set_processed_cases _publish_prediction q
           set_latest_fast_exam].
      rewrite last_prediction_for_snoc.
      change (Response.case_id (prediction_for q (FastExam.case_id f) v request))
        with (FastExam.case_id f).
      destruct (String.eqb_spec (FastExam.case_id f) c) as [<- | Hne].
      * intros [= <-]. exact Hv.
      * apply IH.
    + apply IH.
  - destruct (run_step_capacity loop cap d Hrun) as [-> _]. apply IH.
  - destruct (run_step_unusable loop msg d Hr Hs Hc) as [-> _]. apply IH.
Qed.

End RunLoop.

(** A FAST exam that arrives on the topic of the readings is dropped by the
    processor and counted by the collector. *)
Lemma unusable_poll_is_only_counted_witness :
  let msg := StreamProcessor.Message "ems.vitals.raw"
               (StreamProcessor.FastExamJson Examples.fast_exam) in
  let before := [Examples.turn (ProcessorSpec.reading Examples.first_reading)] in
  let after := [Examples.turn (ProcessorSpec.screening Examples.fast_exam)] in
  StreamProcessor.self
    (Examples.demo_run StreamProcessor.main (before ++ Examples.turn msg :: after))
  = StreamProcessor.self (Examples.demo_run StreamProcessor.main (before ++ after)) /\
  ProcessorSpec.total_recorded
    (StreamProcessor._metrics_collector
       (Examples.demo_run StreamProcessor.main (before ++ [Examples.turn msg])))
  = ProcessorSpec.total_recorded
      (StreamProcessor._metrics_collector (Examples.demo_run StreamProcessor.main before))
    + 1.
Proof.
  intros msg before after.
  destruct (unusable_poll_is_only_counted
              Examples.datetime_of Examples.timestamp VertexAi._heuristic_predict
              StreamProcessor.main before after msg Examples.delivery)
    as ([Hself _] & Hcount & _).
  - intros v H. discriminate.
  - intros f H. discriminate.
  - intros c H. discriminate.
  - split; [exact Hself |].
    apply (Hcount "ems.vitals.raw"%string (StreamProcessor.FastExamJson Examples.fast_exam));
      reflexivity.
Defined.

(** The prediction made when the FAST exam follows the first reading carries
    the heuristic's scores for the request built from the two. *)
Lemma published_predictions_carry_the_service_scores_witness :
  let turns := Examples.turn <$> [ProcessorSpec.reading Examples.first_reading;
                                  ProcessorSpec.screening Examples.fast_exam] in
  exists prediction,
    prediction ∈ StreamProcessor.published
                   (StreamProcessor.self (Examples.demo_run StreamProcessor.main turns)) /\
    exists request,
      (Response.stroke_probability prediction, Response.lvo_probability prediction)
      = VertexAi._heuristic_predict request.
Proof.
  intros turns.
  assert (Hpub : exists prediction,
            StreamProcessor.published
              (StreamProcessor.self (Examples.demo_run StreamProcessor.main turns))
            = [prediction]) by (vm_compute; eexists; reflexivity).
  destruct Hpub as [prediction Hpub].
  assert (Hin : prediction
                ∈ StreamProcessor.published
                    (StreamProcessor.self (Examples.demo_run StreamProcessor.main turns))).
  { rewrite Hpub. apply list_elem_of_singleton. reflexivity. }
  exists prediction. split; [exact Hin |].
  destruct (published_predictions_carry_the_service_scores
              Examples.datetime_of Examples.timestamp VertexAi._heuristic_predict
              turns prediction Hin)
    as (v & f & events & request & _ & _ & _ & _ & _ & _ & _ & Hscores & _).
  exists request. exact Hscores.
Defined.

(** After two readings of the case, the FAST exam between them: the last
    prediction is from the second reading, which is the one on record. *)
Lemma latest_prediction_is_from_latest_reading_witness :
  let turns := Examples.turn <$> [ProcessorSpec.reading Examples.first_reading;
                                  ProcessorSpec.screening Examples.fast_exam;
                                  ProcessorSpec.reading Examples.second_reading] in
  let loop := Examples.demo_run StreamProcessor.main turns in
  StreamProcessor.stopped loop = false /\
  exists r,
    ProcessorSpec.last_prediction_for "CASE-0001"
      (StreamProcessor.published (StreamProcessor.self loop)) = Some r /\
    Response.current_vitals r = Examples.second_reading /\
    StreamProcessor.latest_vitals (StreamProcessor.self loop) !! "CASE-0001"%string
    = Some (Response.current_vitals r).
Proof.
  intros turns loop.
  assert (Hrun : StreamProcessor.stopped loop = false) by (vm_compute; reflexivity).
  assert (Hlast : exists r,
            ProcessorSpec.last_prediction_for "CASE-0001"
              (StreamProcessor.published (StreamProcessor.self loop)) = Some r /\
            Response.current_vitals r = Examples.second_reading)
    by (vm_compute; eexists; split; reflexivity).
  destruct Hlast as (r & Hlast & Hcur).
  split; [exact Hrun |]. exists r. split; [exact Hlast |]. split; [exact Hcur |].
  exact (latest_prediction_is_from_latest_reading
           Examples.datetime_of Examples.timestamp VertexAi._heuristic_predict
           turns "CASE-0001" r Hrun Hlast).
Defined.
(** ** The heuristic predictor and the prediction service *)

Section HeuristicRanges.
Import VertexAi.

Lemma inject_Z_range (m lo hi : Z) :
  lo <= m <= hi -> (inject_Z lo <= inject_Z m <= inject_Z hi)%Q.
Proof. intros [H1 H2]. split; rewrite <- Zle_Qle; assumption. Qed.

Lemma step_fast_score_range (request : Request.AiPredictionRequest) (p : Q * Q) :
  (p.2 <= (step_fast_score request p).2 <= p.2 + (15 # 100))%Q /\
  ((step_fast_score request p).1 <= p.1 + (2 # 10))%Q /\
  ((forall n, Request.fast_score request = Some n -> 0 <= n) ->
   (p.1 <= (step_fast_score request p).1)%Q) /\
  (forall n, Request.fast_score request = Some n -> 2 <= n ->
   (p.1 + (2 # 15) <= (step_fast_score request p).1)%Q /\
   ((step_fast_score request p).2 == p.2 + (15 # 100))%Q).
Proof.
  unfold step_fast_score, FAST_SCORE_STROKE_WEIGHT, FAST_SCORE_MAX,
    FAST_SCORE_LVO_THRESHOLD, FAST_SCORE_LVO_INCREMENT.
  destruct p as [s l]. simpl.
  destruct (Request.fast_score request) as [n |]; simpl.
  2: { split; [lra |]. split; [lra |]. split; [intros _; lra |]. intros n' Hn'. discriminate. }
  destruct (Z.eqb_spec n 0) as [-> | Hn]; simpl.
  { split; [lra |]. split; [lra |]. split; [intros _; lra |].
    intros n' [= <-] Hn'. lia. }
  assert (Hhi : (inject_Z (Z.min n 3) <= 3)%Q).
  { change 3%Q with (inject_Z 3). rewrite <- Zle_Qle. lia. }
  assert (Hlo2 : 2 <= n -> (2 <= inject_Z (Z.min n 3))%Q).
  { intros H. change 2%Q with (inject_Z 2). rewrite <- Zle_Qle. lia. }
  assert (Hlo0 : 0 <= n -> (0 <= inject_Z (Z.min n 3))%Q).
  { intros H. change 0%Q with (inject_Z 0). rewrite <- Zle_Qle. lia. }
  set (q := inject_Z (Z.min n 3)) in *.
  assert (Hd : ((2 # 10) * q / inject_Z 3 == (2 # 30) * q)%Q)
    by (change (inject_Z 3) with 3%Q; field).
  set (d := ((2 # 10) * q / inject_Z 3)%Q) in *. clearbody d. clearbody q.
  destruct (Z.leb_spec 2 n) as [H2 | H2]; simpl.
  - specialize (Hlo2 H2).
    split; [lra |]. split; [lra |]. split; [intros _; lra |].
    intros n' _ _. split; lra.
  - split; [lra |]. split; [lra |]. split.
    + intros Hpos. specialize (Hlo0 (Hpos n eq_refl)). lra.
    + intros n' [= <-] Hn'. lia.
Qed.

Lemma step_signs_range (request : Request.AiPredictionRequest) (p : Q * Q) :
  (p.1 <= (step_signs request p).1 <= p.1 + (37 # 100))%Q /\
  (p.2 <= (step_signs request p).2 <= p.2 + (12 # 100))%Q.
Proof.
  unfold step_signs, FACE_DROOP_STROKE_INCREMENT, ARM_WEAKNESS_STROKE_INCREMENT,
    ARM_WEAKNESS_LVO_INCREMENT, SPEECH_ABNORMAL_STROKE_INCREMENT.
  destruct p as [s l].
  destruct (Request.face_droop_present request), (Request.arm_weakness_any request),
    (Request.speech_abnormal_any request); simpl; lra.
Qed.

Lemma step_time_window_range (request : Request.AiPredictionRequest) (p : Q * Q) :
  (p.1 <= (step_time_window request p).1 <= p.1 + (8 # 100))%Q /\
  (step_time_window request p).2 = p.2.
Proof.
  unfold step_time_window, TIME_WINDOW_IV_TPA_INCREMENT, TIME_WINDOW_EXTENDED_INCREMENT.
  destruct p as [s l].
  destruct (Request.minutes_since_symptom_onset request) as [m |]; simpl; [| split; [lra | auto]].
  destruct (m <=? TIME_WINDOW_IV_TPA); simpl; [split; [lra | auto] |].
  destruct (m <=? TIME_WINDOW_EXTENDED); simpl; split; solve [lra | auto].
Qed.

Lemma step_vitals_range (request : Request.AiPredictionRequest) (p : Q * Q) :
  (p.1 <= (step_vitals request p).1 <= p.1 + (15 # 100))%Q /\
  (p.2 <= (step_vitals request p).2 <= p.2 + (8 # 100))%Q.
Proof.
  unfold step_vitals, GCS_REDUCED_STROKE_INCREMENT, GCS_SEVERE_LVO_INCREMENT,
    BP_ELEVATED_STROKE_INCREMENT.
  destruct p as [s l].
  destruct (Request.gcs_total request) as [g |];
    [destruct (g <? GCS_NORMAL); [destruct (g <? GCS_MODERATE_THRESHOLD) |] |];
    (destruct (Request.systolic_bp_mmHg request) as [x |];
     [destruct (BP_ELEVATED_THRESHOLD <? x) |]); simpl; lra.
Qed.

Lemma clamp01_idle (x : Q) : (0 <= x <= 1)%Q -> (clamp01 x == x)%Q.
Proof.
  intros [H0 H1]. unfold clamp01.
  destruct (Q.min_spec 1 x) as [[Hlt E] | [Hle E]]; rewrite E.
  - exfalso. lra.
  - destruct (Q.max_spec 0 x) as [[? E'] | [? E']]; rewrite E'; lra.
Qed.

Lemma clamp01_lower (x c : Q) : (c <= 1)%Q -> (c <= x)%Q -> (c <= clamp01 x)%Q.
Proof.
  intros Hc Hx. unfold clamp01.
  eapply Qle_trans; [| apply Q.le_max_r].
  destruct (Q.min_spec 1 x) as [[? E] | [? E]]; rewrite E; lra.
Qed.

(** The sums of [_heuristic_predict] before the clamp. *)
Lemma heuristic_sums (request : Request.AiPredictionRequest) :
  let p := step_vitals request
             (step_time_window request
                (step_signs request
                   (step_fast_score request
                      (BASE_STROKE_PROBABILITY, BASE_LVO_PROBABILITY)))) in
  (p.1 <= 1)%Q /\ ((5 # 100) <= p.2 <= (40 # 100))%Q /\
  ((forall n, Request.fast_score request = Some n -> 0 <= n) -> ((2 # 10) <= p.1)%Q) /\
  (forall n, Request.fast_score request = Some n -> 2 <= n ->
   ((1 # 3) <= p.1)%Q /\ ((20 # 100) <= p.2)%Q).
Proof.
  intros p. subst p.
  set (p0 := (BASE_STROKE_PROBABILITY, BASE_LVO_PROBABILITY)).
  destruct (step_fast_score_range request p0) as (F2 & F1 & Fpos & Ftwo).
  set (p1 := step_fast_score request p0) in *.
  destruct (step_signs_range request p1) as (S1 & S2).
  set (p2 := step_signs request p1) in *.
  destruct (step_time_window_range request p2) as (T1 & T2).
  set (p3 := step_time_window request p2) in *.
  destruct (step_vitals_range request p3) as (V1 & V2).
  set (p4 := step_vitals request p3) in *.
  rewrite T2 in V2.
  change (p0.1) with (2 # 10)%Q in *. change (p0.2) with (5 # 100)%Q in *.
  split; [lra |]. split; [lra |]. split.
  - intros Hpos. specialize (Fpos Hpos). lra.
  - intros n Hn H2. destruct (Ftwo n Hn H2) as [Hs Hl]. split; lra.
Qed.

(** X22. The heuristic gives an LVO probability between 0.05 and 0.40 and,
    unless the FAST score is negative, a stroke probability between 0.20 and
    1; in that case the sums never leave [0, 1], so the clamp changes nothing.
    As 0.40 is below the 0.6 mark, the heuristic's scores are CRITICAL exactly when
    the stroke probability is at least 0.8. *)
Theorem heuristic_predict_ranges (request : Request.AiPredictionRequest) :
  let sums := step_vitals request
                (step_time_window request
                   (step_signs request
                      (step_fast_score request
                         (BASE_STROKE_PROBABILITY, BASE_LVO_PROBABILITY)))) in
  let probs := _heuristic_predict request in
  ((5 # 100) <= probs.2 <= (40 # 100))%Q /\ (probs.2 == sums.2)%Q /\
  ((forall n, Request.fast_score request = Some n -> 0 <= n) ->
   ((2 # 10) <= probs.1 <= 1)%Q /\ (probs.1 == sums.1)%Q) /\
  (StreamProcessor._categorize_risk probs.1 probs.2 = "CRITICAL"%string
   <-> ((8 # 10) <= probs.1)%Q).
Proof.
  intros sums probs.
  destruct (heuristic_sums request) as (H1 & H2 & Hpos & _). fold sums in H1, H2, Hpos.
  assert (E2 : (probs.2 == sums.2)%Q) by (apply clamp01_idle; lra).
  split; [rewrite E2; exact H2 |]. split; [exact E2 |]. split.
  - intros Hf. specialize (Hpos Hf).
    assert (E1 : (probs.1 == sums.1)%Q) by (apply clamp01_idle; lra).
    split; [rewrite E1; lra | exact E1].
  - assert (Hl : (probs.2 <= (40 # 100))%Q) by (rewrite E2; lra).
    clearbody probs. unfold StreamProcessor._categorize_risk.
    destruct (Qle_bool (8 # 10) probs.1) eqn:E8.
    + simpl. apply Qle_bool_iff in E8. tauto.
    + apply Qle_bool_false in E8.
      destruct (Qle_bool (6 # 10) probs.2) eqn:E6.
      { apply Qle_bool_iff in E6. exfalso. lra. }
      simpl. split; [| tauto]. intros H. exfalso.
      destruct (Qle_bool (6 # 10) probs.1 || Qle_bool (4 # 10) probs.2); [discriminate |].
      destruct (Qle_bool (3 # 10) probs.1); discriminate.
Qed.

End HeuristicRanges.

Section HeuristicPipeline.
Import StreamProcessor ProcessorSpec.
Context (fromisoformat : string -> option datetime).
Context (timestamp : datetime -> Q).

Lemma choose_hospital_comprehensive_needs_lvo request capacity_events :
  (_choose_hospital request capacity_events).1.1.2 = Some "COMPREHENSIVE_CENTER"%string ->
  Request.ems_suspected_lvo request = true.
Proof.
  unfold _choose_hospital.
  destruct (Request.ems_suspected_lvo request); [reflexivity |]. simpl.
  destruct (truthy_str _); simpl; discriminate.
Qed.

Lemma built_request_suspected_lvo v f capacity_events request :
  _build_prediction_request fromisoformat v (Some f) capacity_events
  = Returns (Some request) ->
  Request.ems_suspected_lvo request = true ->
  exists n, Request.fast_score request = Some n /\ 2 <= n.
Proof.
  unfold _build_prediction_request.
  destruct (_minutes_between fromisoformat _ _); [| discriminate].
  destruct (_minutes_between fromisoformat _ _); [| discriminate].
  intros [= <-]. simpl. destruct (FastExam.fast_score f) as [n |]; [| discriminate].
  intros H. apply andb_true_iff in H as [_ H]. exists n. split; [reflexivity | lia].
Qed.

(** X23. With the heuristic as the prediction service, whatever the
    polls: a published prediction that recommends a comprehensive center has an
    LVO probability of at least 0.20 and a stroke probability of at least 1/3,
    and is never in the LOW category. *)
Theorem comprehensive_routing_means_elevated_risk (turns : list (Polled * Delivery.t))
    (prediction : Response.AiPredictionResponse) :
  prediction ∈ published (self (run fromisoformat timestamp VertexAi._heuristic_predict
                                  main turns)) ->
  Response.recommended_destination_type prediction = Some "COMPREHENSIVE_CENTER"%string ->
  ((20 # 100) <= Response.lvo_probability prediction)%Q /\
  ((1 # 3) <= Response.stroke_probability prediction)%Q /\
  Response.risk_category prediction <> "LOW"%string.
Proof.
  intros Hin Hdest.
  destruct (published_prediction_origin fromisoformat timestamp VertexAi._heuristic_predict
              turns prediction Hin)
    as (v & f & events & request & _ & _ & _ & _ & _ & Hbuild & _ & Hscores & Hrisk & Hchoice).
  assert (Hlvo : Request.ems_suspected_lvo request = true).
  { apply (choose_hospital_comprehensive_needs_lvo request events).
    rewrite <- Hchoice. exact Hdest. }
  destruct (built_request_suspected_lvo v f events request Hbuild Hlvo) as (n & Hn & H2).
  destruct (heuristic_sums request) as (_ & Hl & _ & Htwo).
  destruct (Htwo n Hn H2) as [Hs1 Hl1].
  rewrite <- Hscores in Hrisk. simpl in Hrisk.
  injection Hscores as Es El.
  assert (Hs : ((1 # 3) <= Response.stroke_probability prediction)%Q).
  { rewrite Es. apply clamp01_lower; [lra | exact Hs1]. }
  split; [rewrite El; apply clamp01_lower; [lra | exact Hl1] |].
  split; [exact Hs |].
  rewrite Hrisk. unfold _categorize_risk.
  destruct (_ || _); [discriminate |]. destruct (_ || _); [discriminate |].
  destruct (Qle_bool (3 # 10) (Response.stroke_probability prediction)) eqn:E;
    [discriminate |].
  apply Qle_bool_false in E. exfalso. lra.
Qed.

End HeuristicPipeline.

Section PredictionService.
Import VertexAi ServiceSpec.
Context {World : Type} (time : World -> Q).
Context (settings : Settings).
Context (endpoint_predict : Features.t -> @CircuitBreaker.Func World (list Prediction) unit).

Local Abbreviation predict_with_vertex_ai :=
  (VertexAi.predict_with_vertex_ai time settings endpoint_predict).
Local Abbreviation _call_vertex_ai := (VertexAi._call_vertex_ai endpoint_predict).
Local Abbreviation predictions := (VertexAi.predictions time settings endpoint_predict).

Lemma read_predictions_bounds (l : list Prediction) (probs : Q * Q) :
  read_predictions l = Some probs -> (0 <= probs.1 <= 1)%Q /\ (0 <= probs.2 <= 1)%Q.
Proof.
  unfold read_predictions. intros H.
  assert (Hb : forall a b : option Q,
             (a ≫= fun stroke_prob => b ≫= fun lvo_prob =>
                Some (clamp01 stroke_prob, clamp01 lvo_prob)) = Some probs ->
             (0 <= probs.1 <= 1)%Q /\ (0 <= probs.2 <= 1)%Q).
  { intros [a |] [b |]; simpl; try discriminate. intros [= <-]. simpl.
    split; apply clamp01_bounds. }
  destruct l as [| pred _]; [discriminate |].
  destruct pred as [items | fields |]; [| eapply Hb; exact H | discriminate].
  destruct items as [| first [| second rest]]; try discriminate.
  eapply Hb. exact H.
Qed.

Lemma configured_test :
  configured settings <->
  negb (VERTEX_AI_AVAILABLE settings) || negb (nonempty (PROJECT_ID settings))
  || negb (nonempty (ENDPOINT_ID settings)) = false.
Proof.
  unfold configured.
  destruct (VERTEX_AI_AVAILABLE settings), (nonempty (PROJECT_ID settings)),
    (nonempty (ENDPOINT_ID settings)); simpl; intuition congruence.
Qed.

(** X24. Whatever the endpoint does, [predict_with_vertex_ai] returns two
    values in [0, 1]: either the heuristic's, or what was read from the first
    prediction of an endpoint response.  When the service is not configured
    the answer is the heuristic's and neither the breaker nor the world is
    touched. *)
Theorem vertex_prediction_in_range_or_fallback
    (global : option CircuitBreaker.CircuitBreaker)
    (request : Request.AiPredictionRequest) (w : World) :
  let out := predict_with_vertex_ai global request w in
  ((0 <= out.2.1 <= 1)%Q /\ (0 <= out.2.2 <= 1)%Q) /\
  (out.2 = _heuristic_predict request \/
   configured settings /\
   exists l, endpoint_predict (features request) w = (out.1.2, inl l) /\
             read_predictions l = Some out.2) /\
  (~ configured settings -> out = (global, w, _heuristic_predict request)).
Proof.
  intros out.
  assert (Hh : (0 <= (_heuristic_predict request).1 <= 1)%Q /\
               (0 <= (_heuristic_predict request).2 <= 1)%Q).
  { unfold _heuristic_predict. simpl. split; apply clamp01_bounds. }
  subst out. unfold VertexAi.predict_with_vertex_ai.
  destruct (_ || _) eqn:Hc.
  { simpl. split; [exact Hh |]. split; [left; reflexivity | reflexivity]. }
  apply configured_test in Hc.
  set (breaker := get_vertex_ai_breaker global).
  unfold CircuitBreaker.call.
  destruct (CircuitBreaker.before_call time breaker w) as [b1 |].
  2: { simpl. split; [exact Hh |]. split; [left; reflexivity | tauto]. }
  unfold CircuitBreaker.attempt, VertexAi._call_vertex_ai.
  destruct (endpoint_predict (features request) w) as [w' [l | e]].
  2: { simpl. split; [exact Hh |]. split; [left; reflexivity | tauto]. }
  destruct (read_predictions l) as [probs |] eqn:Hr.
  2: { simpl. split; [exact Hh |]. split; [left; reflexivity | tauto]. }
  simpl. split; [exact (read_predictions_bounds l probs Hr) |].
  split; [| tauto]. right. split; [exact Hc |]. exists l. auto.
Qed.

Lemma unusable_fails (c : World * Request.AiPredictionRequest) :
  unusable endpoint_predict c ->
  CircuitBreaker.fails (c.1, _call_vertex_ai c.2).
Proof.
  unfold unusable, CircuitBreaker.fails, VertexAi._call_vertex_ai. simpl.
  destruct (endpoint_predict (features c.2) c.1) as [w' [l | e]].
  - intros ->. simpl. eauto.
  - intros _. simpl. eauto.
Qed.

Lemma call_vertex_ai_world (c : World * Request.AiPredictionRequest) :
  (_call_vertex_ai c.2 c.1).1 = world_after endpoint_predict c.
Proof.
  unfold VertexAi._call_vertex_ai, world_after.
  destruct (endpoint_predict (features c.2) c.1) as [w' [l | e]]; [| reflexivity].
  destruct (read_predictions l); reflexivity.
Qed.

(** The module-level breaker after some predictions is the breaker after
    the same calls of [_call_vertex_ai]. *)
Lemma predictions_calls global (cs : list (World * Request.AiPredictionRequest)) :
  configured settings -> cs <> [] ->
  predictions global cs
  = Some (CircuitBreaker.calls time (get_vertex_ai_breaker global)
            ((fun c => (c.1, _call_vertex_ai c.2)) <$> cs)).
Proof.
  intros Hc. apply configured_test in Hc.
  revert global. induction cs as [| [w request] cs IH]; intros global Hne; [congruence |].
  simpl.
  assert (Hstep : (predict_with_vertex_ai global request w).1.1
                  = Some (CircuitBreaker.call time (get_vertex_ai_breaker global)
                            (_call_vertex_ai request) w).1.1).
  { unfold VertexAi.predict_with_vertex_ai. rewrite Hc.
    destruct (CircuitBreaker.call _ _ _ _) as [[b' w'] [probs | e |]]; reflexivity. }
  rewrite Hstep. destruct cs as [| c cs]; [reflexivity |].
  rewrite IH by discriminate. reflexivity.
Qed.

(** X25. A response that cannot be read counts as a failure of the
    service.  When the first three predictions of a configured service each
    meet an endpoint that raises or answers with nothing readable, the breaker
    is open: a prediction asked for less than 30 seconds after the third
    answers with the heuristic and leaves the world as it was, the endpoint
    not being called. *)
Theorem three_unusable_responses_stop_the_calls
    (c1 c2 c3 : World * Request.AiPredictionRequest)
    (request : Request.AiPredictionRequest) (w : World) :
  configured settings ->
  unusable endpoint_predict c1 -> unusable endpoint_predict c2 ->
  unusable endpoint_predict c3 ->
  (time w - time (world_after endpoint_predict c3) < 30)%Q ->
  let global := predictions None [c1; c2; c3] in
  predict_with_vertex_ai global request w = (global, w, _heuristic_predict request).
Proof.
  intros Hc H1 H2 H3 Hearly global. subst global.
  rewrite predictions_calls by (auto; discriminate).
  set (cs := (fun c => (c.1, _call_vertex_ai c.2)) <$> [c1; c2; c3]).
  assert (Hfails : Forall CircuitBreaker.fails cs).
  { repeat constructor; apply unusable_fails; assumption. }
  destruct (closed_failures_reach time
              [(c1.1, _call_vertex_ai c1.2); (c2.1, _call_vertex_ai c2.2)]
              (c3.1, _call_vertex_ai c3.2)
              (get_vertex_ai_breaker None)) as [Hopen Hlast];
    [reflexivity | exact Hfails | reflexivity |].
  fold cs in Hopen, Hlast. simpl in Hlast. rewrite call_vertex_ai_world in Hlast.
  set (b := CircuitBreaker.calls time (get_vertex_ai_breaker None) cs) in *.
  assert (Hcfg : CircuitBreaker.config b = CircuitBreaker.service_config).
  { subst b. rewrite config_calls. reflexivity. }
  unfold VertexAi.predict_with_vertex_ai.
  apply configured_test in Hc. rewrite Hc. simpl.
  rewrite (call_open_early time b _ _ w Hopen Hlast); [reflexivity |].
  rewrite Hcfg. exact Hearly.
Qed.

End PredictionService.

(** The processor of the examples after a reading, a FAST exam with score 2
    and the two centers, then a second reading: the second prediction sends the
    case to the comprehensive center. *)
Lemma comprehensive_routing_means_elevated_risk_witness :
  let turns := Examples.turn <$>
                 [ProcessorSpec.reading Examples.first_reading;
                  ProcessorSpec.screening Examples.fast_exam;
                  ProcessorSpec.capacity_snapshot Examples.primary_center;
                  ProcessorSpec.capacity_snapshot Examples.comprehensive_center;
                  ProcessorSpec.reading Examples.second_reading] in
  exists prediction,
    prediction ∈ StreamProcessor.published
                   (StreamProcessor.self (Examples.demo_run StreamProcessor.main turns)) /\
    Response.recommended_destination_type prediction = Some "COMPREHENSIVE_CENTER"%string /\
    Response.risk_category prediction <> "LOW"%string.
Proof.
  intros turns.
  assert (Hpub : exists first second,
             StreamProcessor.published
               (StreamProcessor.self (Examples.demo_run StreamProcessor.main turns))
             = [first; second] /\
             Response.recommended_destination_type second
             = Some "COMPREHENSIVE_CENTER"%string).
  { vm_compute. eexists. eexists. split; reflexivity. }
  destruct Hpub as (first & second & Hpub & Hdest).
  assert (Hin : second
                ∈ StreamProcessor.published
                    (StreamProcessor.self (Examples.demo_run StreamProcessor.main turns))).
  { rewrite Hpub. right. left. }
  exists second. split; [exact Hin |]. split; [exact Hdest |].
  destruct (comprehensive_routing_means_elevated_risk Examples.datetime_of Examples.timestamp
              turns second Hin Hdest) as (_ & _ & H).
  exact H.
Defined.

(** Three predictions against an endpoint that answers with no predictions,
    at times 0, 2 and 4; a fourth at time 10 is answered by the heuristic. *)
Lemma three_unusable_responses_stop_the_calls_witness :
  let request := Examples.lvo_request (Some 8) (Some 15) in
  let global := VertexAi.predictions Examples.clock Examples.configured_settings
                  Examples.endpoint_empty None
                  [(0%Q, request); (2%Q, request); (4%Q, request)] in
  VertexAi.predict_with_vertex_ai Examples.clock Examples.configured_settings
    Examples.endpoint_empty global request 10%Q
  = (global, 10%Q, VertexAi._heuristic_predict request).
Proof.
  intros request global.
  apply (three_unusable_responses_stop_the_calls Examples.clock Examples.configured_settings
           Examples.endpoint_empty (0%Q, request) (2%Q, request) (4%Q, request) request 10%Q).
  - repeat split; reflexivity.
  - reflexivity.
  - reflexivity.
  - reflexivity.
  - vm_compute. reflexivity.
Defined.

(** ** The stub of the prediction service beside the processor *)

Section StubComparison.
Import StreamProcessor.

(** X29. With the two centers of the demo on record, the stub's routing
    and the processor's give the same answer except in one situation: an LVO
    is suspected, the estimate for the comprehensive center is 0 minutes and
    within reach.  There the stub, which tests the estimate with [is not None],
    sends the case to the comprehensive center and the processor does not. *)
Theorem stub_routing_agrees_with_processor (request : Request.AiPredictionRequest)
    (capacity_events : list Capacity.HospitalCapacityEvent)
    (primary comp : Capacity.HospitalCapacityEvent) :
  first_of_level "PRIMARY" capacity_events = Some primary ->
  Capacity.hospital_id primary = "HOSP-PRIMARY-01"%string ->
  first_of_level "COMPREHENSIVE" capacity_events = Some comp ->
  Capacity.hospital_id comp = "HOSP-COMP-01"%string ->
  (_choose_hospital request capacity_events = Stub._mock_hospital_choice request <->
   ~ (Request.ems_suspected_lvo request = true /\
      Request.estimated_travel_min_to_comprehensive_center request = Some 0 /\
      match Request.estimated_travel_min_to_primary_center request with
      | None => True
      | Some pt => 0 <= pt + 15
      end)).
Proof.
  intros Hp Hpid Hc Hcid. unfold _choose_hospital, Stub._mock_hospital_choice.
  rewrite Hp, Hc. cbn [fmap option_fmap option_map]. rewrite Hpid, Hcid.
  cbn [truthy_str nonempty andb].
  destruct (Request.ems_suspected_lvo request); cbn [andb].
  2: { split; [intros _ [H _]; discriminate | reflexivity]. }
  destruct (Request.estimated_travel_min_to_comprehensive_center request) as [ct |];
    cbn [truthy].
  2: { destruct (Request.estimated_travel_min_to_primary_center request);
         (split; [intros _ (_ & H & _); discriminate | reflexivity]). }
  destruct (Z.eqb_spec ct 0) as [-> | Hct]; cbn [negb andb].
  - destruct (Request.estimated_travel_min_to_primary_center request) as [pt |].
    + destruct (Z.leb_spec 0 (pt + 15)) as [Hle | Hgt].
      * split; [discriminate | intros H; exfalso; apply H; auto].
      * split; [intros _ (_ & _ & H); lia | reflexivity].
    + split; [discriminate | intros H; exfalso; apply H; auto].
  - destruct (Request.estimated_travel_min_to_primary_center request) as [pt |].
    + destruct (ct <=? pt + 15);
        (split; [intros _ (_ & H & _); congruence | reflexivity]).
    + split; [intros _ (_ & H & _); congruence | reflexivity].
Qed.

(** X30. The risk factors of an evaluation are at most nine, of which
    at most two are anomalies.  For a case without trend history they are the
    clinical findings alone, and the stub lists the same findings, except that
    it never returns an empty list: with no finding it returns one generic
    sentence. *)
Theorem risk_factors_of_an_evaluation (fromisoformat : string -> option Q)
    (request : Request.AiPredictionRequest)
    (trend_features : TrendAnalyzer.TrendFeatures) (anomalies : list string)
    (ta : TrendAnalyzer.TrendAnalyzer) (case_id : string) :
  (length (risk_factors request trend_features anomalies) <= 9)%nat /\
  Stub._mock_top_risk_factors request <> [] /\
  Stub._mock_top_risk_factors request
  = match risk_factors request TrendAnalyzer.no_features [] with
    | [] => ["Subtle findings with possible stroke symptoms."]
    | factor :: factors => factor :: factors
    end /\
  (TrendAnalyzer.vital_history ta !! case_id = None ->
   risk_factors request (TrendAnalyzer.calculate_trends fromisoformat ta case_id)
     (TrendAnalyzer.detect_anomalies ta case_id)
   = risk_factors request TrendAnalyzer.no_features []).
Proof.
  assert (Hplain : risk_factors request TrendAnalyzer.no_features []
                   = (if Request.face_droop_present request then ["Face droop"] else [])
                     ++ (if Request.arm_weakness_any request then ["Arm weakness"] else [])
                     ++ (if Request.speech_abnormal_any request
                         then ["Speech abnormality"] else [])
                     ++ match Request.gcs_total request with
                        | Some g =>
                            if g <? 15 then ["Reduced GCS (" +:+ str_int g +:+ ")"] else []
                        | None => []
                        end
                     ++ match Request.systolic_bp_mmHg request with
                        | Some x =>
                            if 180 <? x
                            then ["Elevated systolic BP (" +:+ str_int x +:+ ")"] else []
                        | None => []
                        end).
  { unfold risk_factors. cbn [TrendAnalyzer.gcs_trend TrendAnalyzer.spo2_trend
      TrendAnalyzer.no_features take fmap list_fmap].
    rewrite !bool_decide_eq_false_2 by discriminate. rewrite !app_nil_r. reflexivity. }
  split; [| split; [| split]].
  - unfold risk_factors. rewrite !length_app, length_fmap, length_take.
    pose proof (Nat.le_min_l 2 (length anomalies)) as Hk.
    set (k := Nat.min 2 (length anomalies)) in *. clearbody k.
    destruct (Request.face_droop_present request), (Request.arm_weakness_any request),
      (Request.speech_abnormal_any request);
      (destruct (Request.gcs_total request) as [g |]; [destruct (g <? 15) |]);
      (destruct (Request.systolic_bp_mmHg request) as [x |]; [destruct (180 <? x) |]);
      destruct (bool_decide _); destruct (bool_decide _); simpl; lia.
  - unfold Stub._mock_top_risk_factors. destruct (_ ++ _); discriminate.
  - rewrite Hplain. unfold Stub._mock_top_risk_factors. destruct (_ ++ _); reflexivity.
  - intros H. unfold TrendAnalyzer.calculate_trends, TrendAnalyzer.detect_anomalies.
    rewrite H. reflexivity.
Qed.

End StubComparison.

(** The demo request, an LVO suspected with estimates of 8 and 15 minutes,
    is routed alike by the stub and the processor. *)
Lemma stub_routing_agrees_with_processor_witness :
  let request := Examples.lvo_request (Some 8) (Some 15) in
  let events := [Examples.primary_center; Examples.comprehensive_center] in
  StreamProcessor._choose_hospital request events = Stub._mock_hospital_choice request.
Proof.
  intros request events.
  apply (stub_routing_agrees_with_processor request events
           Examples.primary_center Examples.comprehensive_center);
    try reflexivity.
  intros (_ & H & _). discriminate.
Defined.

